(** * Stopped-instance lister: a shallow embedding and its properties

    The development follows [oci_instance_deallocated_analysis.py]:
    the tag and age extractors, the two resolver caches, the per-cell
    retry loop, the fan-out scan, the result processor and the entry
    point [main].  Python dictionaries whose iteration order matters are
    association lists in insertion order; the others are [gmap]s.
    Exceptions are values of [exn] carried by the [result] monad. *)

From Stdlib Require Import ZArith Ascii String Sorted Permutation.
From stdpp Require Import base option list gmap strings.

Local Open Scope string_scope.
Local Open Scope list_scope.
Local Open Scope Z_scope.

(** ** Python exceptions and the error monad *)

(** An exception: its class name and [str(e)]. *)
Inductive exn := Exn (cls : string) (msg : string).

Definition exn_str (e : exn) : string := let 'Exn _ m := e in m.

Inductive result (A : Type) :=
| Ok (a : A)
| Raise (e : exn).
Arguments Ok {A} a.
Arguments Raise {A} e.

Definition rbind {A B} (m : result A) (k : A -> result B) : result B :=
  match m with
  | Ok a => k a
  | Raise e => Raise e
  end.

(** [x ← m; k] is stdpp's notation for [mbind]. *)
#[global] Instance result_bind : MBind result := fun A B k m => rbind m k.
#[global] Instance result_ret : MRet result := fun A a => Ok a.

(** Reading an attribute that the object may not have. *)
Definition attribute {A} (name : string) (a : option A) : result A :=
  match a with
  | Some v => Ok v
  | None => Raise (Exn "AttributeError" name)
  end.

(** [getattr(obj, name, default)]. *)
Definition getattr {A} (a : option A) (dflt : A) : A := default dflt a.

(** ** Strings *)

Module Str.

Definition lower_ascii (c : ascii) : ascii :=
  let n := nat_of_ascii c in
  if ((65 <=? n) && (n <=? 90))%nat then ascii_of_nat (n + 32) else c.

(** [s.lower()] on ASCII text. *)
Fixpoint lower (s : string) : string :=
  match s with
  | EmptyString => EmptyString
  | String c r => String (lower_ascii c) (lower r)
  end.

(** [sub in s]. *)
Fixpoint contains (sub s : string) : bool :=
  String.prefix sub s ||
  match s with
  | EmptyString => false
  | String _ r => contains sub r
  end.

(** [c in s] for a single character. *)
Fixpoint mem (c : ascii) (s : string) : bool :=
  match s with
  | EmptyString => false
  | String c' r => Ascii.eqb c c' || mem c r
  end.

(** [s.replace(old, new)] for a non-empty [old]: the occurrences are
    taken from left to right and do not overlap.  [skip] counts the
    characters of an occurrence that are still to be dropped. *)
Fixpoint replace_from (old new : string) (skip : nat) (s : string) : string :=
  match s with
  | EmptyString => EmptyString
  | String c r =>
      match skip with
      | S k => replace_from old new k r
      | O =>
          if String.prefix old s
          then new +:+ replace_from old new (String.length old - 1) r
          else String c (replace_from old new 0 r)
      end
  end.

Definition replace (old new s : string) : string := replace_from old new 0 s.

(** [s.split(',')]: the pieces between the separators, at least one. *)
Fixpoint split_on (sep : ascii) (s : string) : list string :=
  match s with
  | EmptyString => [EmptyString]
  | String c r =>
      if Ascii.eqb c sep then EmptyString :: split_on sep r
      else match split_on sep r with
           | [] => [String c EmptyString]
           | p :: ps => String c p :: ps
           end
  end.

(** Truth value of a string that may be [None]. *)
Definition truthy (o : option string) : bool :=
  match o with
  | Some (String _ _) => true
  | _ => false
  end.

End Str.

(** ** Owner extraction from tags *)

Module Tags.

(** The value stored under a defined-tag namespace: a dictionary of
    tags, or some value that is not a dictionary. *)
Inductive namespace_value :=
| TagDict (tags : gmap string string)
| NotADict.

Definition freeform_dict := gmap string string.
(** Namespaces are visited in the order the mapping yields them. *)
Definition defined_dict := list (string * namespace_value).

Definition freeform_keys : list string :=
  ["Owner"; "CreatedBy"; "Contact"; "Maintainer"; "Team"].
Definition defined_keys : list string :=
  ["Owner"; "CreatedBy"; "Contact"; "ApplicationOwner"].

(** [for key in keys: if key in d: return d[key]] *)
Fixpoint first_key (keys : list string) (d : gmap string string) : option string :=
  match keys with
  | [] => None
  | k :: ks =>
      match d !! k with
      | Some v => Some v
      | None => first_key ks d
      end
  end.

(** The loop over [defined_tags.items()]. *)
Fixpoint scan_namespaces (nss : defined_dict) : option string :=
  match nss with
  | [] => None
  | (_, TagDict tags) :: rest =>
      match first_key defined_keys tags with
      | Some v => Some v
      | None => scan_namespaces rest
      end
  | (_, NotADict) :: rest => scan_namespaces rest
  end.

(** [if d:] for a dictionary that may be [None]. *)
Definition freeform_truthy (o : option freeform_dict) : bool :=
  match o with
  | Some d => bool_decide (d ≠ ∅)
  | None => false
  end.

Definition defined_truthy (o : option defined_dict) : bool :=
  match o with
  | Some (_ :: _) => true
  | _ => false
  end.

Definition get_owner_from_tags
    (defined_tags : option defined_dict) (freeform_tags : option freeform_dict) : string :=
  let from_freeform :=
    if freeform_truthy freeform_tags
    then first_key freeform_keys (default ∅ freeform_tags)
    else None in
  match from_freeform with
  | Some v => v
  | None =>
      let from_defined :=
        if defined_truthy defined_tags
        then scan_namespaces (default [] defined_tags)
        else None in
      match from_defined with
      | Some v => v
      | None => "Unknown"
      end
  end.

(** Key [k], holding [v], is the first of [keys] that [d] has. *)
Definition first_present (keys : list string) (d : gmap string string)
    (k v : string) : Prop :=
  exists i : nat,
    keys !! i = Some k /\ d !! k = Some v /\
    forall (j : nat) k', (j < i)%nat -> keys !! j = Some k' -> d !! k' = None.

Definition none_present (keys : list string) (d : gmap string string) : Prop :=
  forall k, k ∈ keys -> d !! k = None.

Definition no_freeform_match (o : option freeform_dict) : Prop :=
  forall d, o = Some d -> none_present freeform_keys d.

Definition namespace_silent (nv : string * namespace_value) : Prop :=
  match nv.2 with
  | TagDict tags => none_present defined_keys tags
  | NotADict => True
  end.

End Tags.

(** ** Dates, and the age of an instance in days *)

Module Datetime.

(** A [datetime] object; [tzinfo] is the UTC offset in microseconds,
    [None] for a naive value. *)
Record datetime := mk_datetime {
  year : Z; month : Z; day : Z;
  hour : Z; minute : Z; second : Z; microsecond : Z;
  tzinfo : option Z
}.

Definition utc : Z := 0.

(** [dt.replace(tzinfo=tz)] *)
Definition replace_tzinfo (dt : datetime) (tz : Z) : datetime :=
  mk_datetime (year dt) (month dt) (day dt)
              (hour dt) (minute dt) (second dt) (microsecond dt) (Some tz).

(** The proleptic Gregorian ordinal of the standard library. *)
Definition is_leap (y : Z) : bool :=
  (y mod 4 =? 0) && (negb (y mod 100 =? 0) || (y mod 400 =? 0)).

Definition days_before_year (y : Z) : Z :=
  let y := y - 1 in y * 365 + y / 4 - y / 100 + y / 400.

Definition days_in_month (y m : Z) : Z :=
  if m =? 2 then (if is_leap y then 29 else 28)
  else if (m =? 4) || (m =? 6) || (m =? 9) || (m =? 11) then 30
  else 31.

Definition days_before_month (y m : Z) : Z :=
  fold_right Z.add 0
    (map (days_in_month y) (map Z.of_nat (seq 1 (Z.to_nat (m - 1))))).

Definition ymd2ord (y m d : Z) : Z :=
  days_before_year y + days_before_month y m + d.

Definition us_per_day : Z := 86400000000.

(** Microseconds of the wall-clock fields since ordinal 0. *)
Definition wall_micros (dt : datetime) : Z :=
  (((ymd2ord (year dt) (month dt) (day dt) * 24 + hour dt) * 60
    + minute dt) * 60 + second dt) * 1000000 + microsecond dt.

(** The instant of an aware datetime, in UTC microseconds. *)
Definition instant (dt : datetime) : option Z :=
  off ← tzinfo dt; Some (wall_micros dt - off).

(** [now - created] where [now] is aware: a naive [created] raises. *)
Definition sub_from_now (now : Z) (created : datetime) : result Z :=
  match instant created with
  | Some c => Ok (now - c)
  | None => Raise (Exn "TypeError" "can't subtract offset-naive and offset-aware datetimes")
  end.

(** [timedelta.days]: the quotient rounds towards minus infinity. *)
Definition timedelta_days (us : Z) : Z := us / us_per_day.

(** The value of [instance.time_created]. *)
Inductive time_value :=
| TimeNone
| TimeStr (s : string)
| TimeObj (dt : datetime).

Definition time_truthy (t : time_value) : bool :=
  match t with
  | TimeNone => false
  | TimeStr s => Str.truthy (Some s)
  | TimeObj _ => true
  end.

Section Age.

(** [datetime.fromisoformat] of the standard library; [None] when it
    raises [ValueError]. *)
Variable fromisoformat : string -> option datetime.

Definition parse (s : string) : result datetime :=
  match fromisoformat s with
  | Some dt => Ok dt
  | None => Raise (Exn "ValueError" "Invalid isoformat string")
  end.

(** The text handed to the parser. *)
Definition strip_zone (time_created : string) : string :=
  Str.replace "Z" "" (Str.replace "+00:00" "" time_created).

Definition created_datetime (time_created : time_value) : result datetime :=
  match time_created with
  | TimeStr s =>
      let time_str := strip_zone s in
      if Str.contains "." time_str
      then dt ← parse time_str; Ok (replace_tzinfo dt utc)
      else parse (time_str +:+ "+00:00")
  | TimeObj dt =>
      Ok (match tzinfo dt with
          | None => replace_tzinfo dt utc
          | Some _ => dt
          end)
  | TimeNone => Raise (Exn "AttributeError" "tzinfo")
  end.

(** [now] is [datetime.now(timezone.utc)] as UTC microseconds. *)
Definition calculate_days_since_created (now : Z) (time_created : time_value) : Z :=
  if negb (time_truthy time_created) then 0
  else
    match (created_dt ← created_datetime time_created;
           delta ← sub_from_now now created_dt;
           Ok (Z.max 0 (timedelta_days delta))) with
    | Ok days => days
    | Raise _ => 0
    end.

End Age.

(** A parser of the format that every version of the standard library
    documents for [datetime.fromisoformat],
    [YYYY-MM-DD[*HH[:MM[:SS[.fff[fff]]]][+HH:MM[:SS[.ffffff]]]]], with
    digits only; the fields are range-checked as the constructors of
    [datetime] and [timezone] do.  Outside this format it answers
    [None], where a newer interpreter reads more texts (a fraction of
    other lengths, the basic format, [+HHMM]): it stands for the
    library function in the sample environments, on texts of this
    format, and the properties of the age are proved for any parser. *)
Definition digit (c : ascii) : option Z :=
  let n := nat_of_ascii c in
  if ((48 <=? n) && (n <=? 57))%nat then Some (Z.of_nat (n - 48)) else None.

Fixpoint digits_from (acc : Z) (s : string) : option Z :=
  match s with
  | EmptyString => Some acc
  | String c r => d ← digit c; digits_from (acc * 10 + d) r
  end.

Definition number (s : string) : option Z :=
  match s with
  | EmptyString => None
  | _ => digits_from 0 s
  end.

Definition field (start len : nat) (s : string) : option Z :=
  let f := String.substring start len s in
  if (String.length f =? len)%nat then number f else None.

Definition char_is (pos : nat) (c : ascii) (s : string) : option unit :=
  match String.get pos s with
  | Some c' => if Ascii.eqb c c' then Some tt else None
  | None => None
  end.

(** [HH[:MM[:SS[.fff[fff]]]]] as (hour, minute, second, microsecond). *)
Definition parse_hh_mm_ss_ff (t : string) : option (Z * Z * Z * Z) :=
  let n := String.length t in
  if (n =? 2)%nat then h ← field 0 2 t; Some (h, 0, 0, 0)
  else if (n =? 5)%nat then
    h ← field 0 2 t; _ ← char_is 2 ":" t; m ← field 3 2 t; Some (h, m, 0, 0)
  else if (n =? 8)%nat then
    h ← field 0 2 t; _ ← char_is 2 ":" t; m ← field 3 2 t;
    _ ← char_is 5 ":" t; s ← field 6 2 t; Some (h, m, s, 0)
  else if (n =? 12)%nat then
    h ← field 0 2 t; _ ← char_is 2 ":" t; m ← field 3 2 t;
    _ ← char_is 5 ":" t; s ← field 6 2 t;
    _ ← char_is 8 "." t; f ← field 9 3 t; Some (h, m, s, f * 1000)
  else if (n =? 15)%nat then
    h ← field 0 2 t; _ ← char_is 2 ":" t; m ← field 3 2 t;
    _ ← char_is 5 ":" t; s ← field 6 2 t;
    _ ← char_is 8 "." t; f ← field 9 6 t; Some (h, m, s, f)
  else None.

(** Position of the first sign character, if any. *)
Fixpoint sign_position (t : string) : option (nat * bool) :=
  match t with
  | EmptyString => None
  | String c r =>
      if Ascii.eqb c "+" then Some (O, true)
      else if Ascii.eqb c "-" then Some (O, false)
      else '(i, sg) ← sign_position r; Some (S i, sg)
  end.

Definition parse_isoformat_time (t : string) : option (Z * Z * Z * Z * option Z) :=
  match sign_position t with
  | None => c ← parse_hh_mm_ss_ff t; Some (c, None)
  | Some (i, positive) =>
      c ← parse_hh_mm_ss_ff (String.substring 0 i t);
      let z := String.substring (S i) (String.length t - S i) t in
      let nz := String.length z in
      if ((nz =? 5) || (nz =? 8) || (nz =? 15))%nat then
        '(zh, zm, zs, zf) ← parse_hh_mm_ss_ff z;
        let off := ((zh * 60 + zm) * 60 + zs) * 1000000 + zf in
        (* [timezone(offset)]: strictly less than a day *)
        if off <? us_per_day
        then Some (c, Some (if positive then off else - off))
        else None
      else None
  end.

Definition fields_valid (y mo d h mi s : Z) : bool :=
  (1 <=? y) && (y <=? 9999) && (1 <=? mo) && (mo <=? 12) &&
  (1 <=? d) && (d <=? days_in_month y mo) &&
  (h <? 24) && (mi <? 60) && (s <? 60).

Definition fromisoformat_model (s : string) : option datetime :=
  let n := String.length s in
  y ← field 0 4 s; _ ← char_is 4 "-" s;
  mo ← field 5 2 s; _ ← char_is 7 "-" s;
  d ← field 8 2 s;
  '(h, mi, sec, us, tz) ←
    (if (n <=? 11)%nat then
       (if (n =? 10)%nat then Some (0, 0, 0, 0, None) else None)
     else parse_isoformat_time (String.substring 11 (n - 11) s));
  if fields_valid y mo d h mi sec
  then Some (mk_datetime y mo d h mi sec us tz)
  else None.

(** Midnight UTC of a date, as a clock reading. *)
Definition utc_midnight (y m d : Z) : Z :=
  wall_micros (mk_datetime y m d 0 0 0 0 (Some utc)).

End Datetime.

(** ** Raw records, reports and the ordered dictionary *)

(** An instance object as the listing call returns it.  [None] means
    that the object lacks the attribute, so reading it raises
    [AttributeError]; tag attributes may also hold Python's [None]. *)
Module Raw.
Record t := mk {
  id : option string;
  display_name : option string;
  shape : option string;
  compartment_id : option string;
  time_created : option Datetime.time_value;
  defined_tags : option (option Tags.defined_dict);
  freeform_tags : option (option Tags.freeform_dict);
  availability_domain : option string;
  fault_domain : option string;
  image_id : option string;
  region : option string
}.

(** [instance.region = region] *)
Definition set_region (r : string) (i : t) : t :=
  mk (id i) (display_name i) (shape i) (compartment_id i) (time_created i)
     (defined_tags i) (freeform_tags i) (availability_domain i)
     (fault_domain i) (image_id i) (Some r).
End Raw.

Module StoppedInstance.
Record t := mk {
  instance_name : string;
  instance_id : string;
  shape : string;
  region : string;
  availability_domain : string;
  compartment_name : string;
  compartment_id : string;
  time_created : Datetime.time_value;
  days_since_created : Z;
  instance_owner : string;
  fault_domain : string;
  image_id : string
}.
End StoppedInstance.

(** A [dict] from strings to strings, in insertion order. *)
Module Dict.
Definition t := list (string * string).

Fixpoint get (k : string) (d : t) : option string :=
  match d with
  | [] => None
  | (k', v) :: r => if String.eqb k k' then Some v else get k r
  end.

(** [d[k] = v]: an existing key keeps its place. *)
Fixpoint set (k v : string) (d : t) : t :=
  match d with
  | [] => [(k, v)]
  | (k', v') :: r =>
      if String.eqb k k' then (k, v) :: r else (k', v') :: set k v r
  end.

(** [d.get(k, dflt)] *)
Definition get_default (k dflt : string) (d : t) : string :=
  default dflt (get k d).

Definition keys (d : t) : list string := map fst d.

Definition truthy (d : t) : bool :=
  match d with
  | [] => false
  | _ :: _ => true
  end.
End Dict.

(** ** The lister, its environment and its state monad *)

Record Stats := mk_stats {
  regions_scanned : Z;
  compartments_scanned : Z;
  stopped_instances_found : Z;
  api_calls_made : Z
}.

(** What the run does to the outside, in order: the capability calls
    it issues, the back-off sleeps, and the two "nothing found"
    messages of [list_stopped_instances]. *)
Inductive event :=
| CallListRegionSubscriptions
| CallGetCompartment (compartment_id : string)
| CallListCompartments
| CallGetTenancy
| CallListInstances (region compartment_id : string)
| Sleep (seconds : Z)
| LogNoStoppedInstances
| LogNoneOverThreshold (min_days : Z).

Record Lister := mk_lister {
  tenancy_id : string;
  max_workers : Z;
  stats : Stats;
  compartment_cache : Dict.t;
  region_cache : list string;
  trace : list event
}.

Record RegionSubscription := mk_subscription {
  region_name : string;
  status : string
}.

Record Compartment := mk_compartment {
  comp_id : string;
  comp_name : string;
  lifecycle_state : string
}.

Definition task : Type := string * string.

(** The environment of a run.  Errors are instances of [Exception];
    interrupts are outside the model.  Identity answers may change with
    time (the number of events so far); a scan cell's answers depend on
    the cell and on the attempt, so that they do not depend on how the
    pool interleaves the cells. *)
Record World := mk_world {
  (** [from_file] and [validate_config]; the value is [config.get('tenancy')] *)
  from_file : result (option string);
  makedirs : string -> result unit;
  new_identity_client : nat -> result unit;
  list_region_subscriptions : nat -> result (list RegionSubscription);
  get_compartment : nat -> string -> result string;
  list_compartments : nat -> result (list Compartment);
  get_tenancy : nat -> result string;
  new_compute_client : string -> string -> nat -> result unit;
  list_instances : string -> string -> nat -> result (list Raw.t);
  (** the order in which the pool hands back the futures *)
  as_completed : list (task * list Raw.t) -> list (task * list Raw.t);
  (** [datetime.now(timezone.utc)], in UTC microseconds *)
  clock : Z;
  fromisoformat : string -> option Datetime.datetime;
  (** the renderers write files; their outcome is the environment's *)
  csv_report : list StoppedInstance.t -> string -> result string;
  html_report : list StoppedInstance.t -> string -> result string;
  summary_report : list StoppedInstance.t -> result string
}.

(** State and exceptions: a raise keeps the state reached so far. *)
Definition M (A : Type) : Type := Lister -> result A * Lister.

Definition ret {A} (a : A) : M A := fun s => (Ok a, s).
Definition raise {A} (e : exn) : M A := fun s => (Raise e, s).
Definition bind {A B} (m : M A) (k : A -> M B) : M B :=
  fun s =>
    match m s with
    | (Ok a, s') => k a s'
    | (Raise e, s') => (Raise e, s')
    end.
Definition lift {A} (r : result A) : M A := fun s => (r, s).
Definition gets {A} (f : Lister -> A) : M A := fun s => (Ok (f s), s).
Definition modify (f : Lister -> Lister) : M unit := fun s => (Ok tt, f s).

(** [try: body except Exception as e: handler e] *)
Definition try_except {A} (body : M A) (handler : exn -> M A) : M A :=
  fun s =>
    match body s with
    | (Ok a, s') => (Ok a, s')
    | (Raise e, s') => handler e s'
    end.

Notation "'do' x <- m ; k" := (bind m (fun x => k))
  (at level 10, x name, m at level 100, k at level 200).
Notation "'do_' m ; k" := (bind m (fun _ => k))
  (at level 10, m at level 100, k at level 200).

Fixpoint for_each {A} (l : list A) (body : A -> M unit) : M unit :=
  match l with
  | [] => ret tt
  | a :: r => do_ body a; for_each r body
  end.

Fixpoint map_m {A B} (f : A -> M B) (l : list A) : M (list B) :=
  match l with
  | [] => ret []
  | a :: r => do b <- f a; do bs <- map_m f r; ret (b :: bs)
  end.

Definition set_stats (f : Stats -> Stats) (s : Lister) : Lister :=
  mk_lister (tenancy_id s) (max_workers s) (f (stats s))
            (compartment_cache s) (region_cache s) (trace s).
Definition set_compartment_cache (f : Dict.t -> Dict.t) (s : Lister) : Lister :=
  mk_lister (tenancy_id s) (max_workers s) (stats s)
            (f (compartment_cache s)) (region_cache s) (trace s).
Definition set_region_cache (r : list string) (s : Lister) : Lister :=
  mk_lister (tenancy_id s) (max_workers s) (stats s)
            (compartment_cache s) r (trace s).
Definition emit (e : event) (s : Lister) : Lister :=
  mk_lister (tenancy_id s) (max_workers s) (stats s)
            (compartment_cache s) (region_cache s) (trace s ++ [e]).

Definition bump_api_calls (st : Stats) : Stats :=
  mk_stats (regions_scanned st) (compartments_scanned st)
           (stopped_instances_found st) (api_calls_made st + 1).

(** [self.stats['api_calls_made'] += 1] *)
Definition count_api_call : M unit := modify (set_stats bump_api_calls).

(** A capability call: it is issued, then it answers or raises. *)
Definition call {A} (e : event) (answer : nat -> result A) : M A :=
  fun s => (answer (length (trace s)), emit e s).

(** ** The resolver: regions and compartments *)

Definition fallback_regions : list string := ["us-ashburn-1"; "us-phoenix-1"].

Definition ready_regions (subs : list RegionSubscription) : list string :=
  map region_name (filter (fun r => status r = "READY") subs).

Definition list_truthy {A} (l : list A) : bool :=
  match l with
  | [] => false
  | _ :: _ => true
  end.

Definition cache_set (k v : string) : M unit :=
  modify (set_compartment_cache (Dict.set k v)).

Section Lister.

Variable w : World.

(** [IdentityClient(self.config)] *)
Definition identity_client : M unit :=
  fun s => (new_identity_client w (length (trace s)), s).

(** The body of the loop over explicit compartment ids. *)
Definition explicit_body (comp_id : string) : M unit :=
  try_except
    (do_ count_api_call;
     do name <- call (CallGetCompartment comp_id)
                     (fun t => get_compartment w t comp_id);
     cache_set comp_id name)
    (fun _ => cache_set comp_id "Unknown").

(** The body of the loop over the listed compartments. *)
Definition active_body (comp : Compartment) : M unit :=
  if String.eqb (lifecycle_state comp) "ACTIVE"
  then cache_set (comp_id comp) (comp_name comp)
  else ret tt.

Definition get_subscribed_regions : M (list string) :=
  do cache <- gets region_cache;
  if list_truthy cache then ret cache
  else
    try_except
      (do_ identity_client;
       do_ count_api_call;
       do region_subscriptions <-
         call CallListRegionSubscriptions (list_region_subscriptions w);
       do_ modify (set_region_cache (ready_regions region_subscriptions));
       gets region_cache)
      (fun _ =>
         do_ modify (set_region_cache fallback_regions);
         gets region_cache).

Definition get_all_compartments (compartment_ids : option (list string)) : M Dict.t :=
  do cache <- gets compartment_cache;
  if Dict.truthy cache then ret cache
  else
    try_except
      (do_ identity_client;
       do_ (if list_truthy (default [] compartment_ids) then
              for_each (default [] compartment_ids) explicit_body
            else
              do_ count_api_call;
              do compartments <- call CallListCompartments (list_compartments w);
              do_ for_each compartments active_body;
              do tenancy <- gets tenancy_id;
              try_except
                (do_ count_api_call;
                 do name <- call CallGetTenancy (get_tenancy w);
                 cache_set tenancy (name +:+ " (Root)"))
                (fun _ => cache_set tenancy "Root Compartment"));
       gets compartment_cache)
      (fun _ =>
         do tenancy <- gets tenancy_id;
         do_ modify (set_compartment_cache
                       (fun _ => [(tenancy, "Root Compartment")]));
         gets compartment_cache).

(** ** One scan cell, with its retries *)

Definition max_retries : nat := 3.

Definition transient_keywords : list string :=
  ["timeout"; "connection"; "max retries"].

(** [any(keyword in str(e).lower() for keyword in [...])] *)
Definition is_transient (e : exn) : bool :=
  existsb (fun keyword => Str.contains keyword (Str.lower (exn_str e)))
          transient_keywords.

(** The body of [for attempt in range(max_retries)], from iteration
    [attempt] on; [remaining] iterations are left. *)
Fixpoint attempts (region compartment_id : string)
    (remaining attempt : nat) (retry_delay : Z) : M (list Raw.t) :=
  match remaining with
  | O => ret []
  | S remaining' =>
      try_except
        (do_ lift (new_compute_client w region compartment_id attempt);
         do_ count_api_call;
         call (CallListInstances region compartment_id)
              (fun _ => list_instances w region compartment_id attempt))
        (fun e =>
           if (attempt <? max_retries - 1)%nat && is_transient e then
             do_ modify (emit (Sleep retry_delay));
             attempts region compartment_id remaining' (S attempt) (retry_delay * 2)
           else ret [])
  end.

Definition get_stopped_instances_in_region_compartment
    (region compartment_id : string) : M (list Raw.t) :=
  attempts region compartment_id max_retries 0 5.

(** ** Processing one record *)

Definition process_stopped_instance (cache : Dict.t) (instance : Raw.t)
    (region : string) : result StoppedInstance.t :=
  cid ← attribute "compartment_id" (Raw.compartment_id instance);
  let compartment_name := Dict.get_default cid "Unknown" cache in
  let owner :=
    Tags.get_owner_from_tags
      (getattr (Raw.defined_tags instance) (Some []))
      (getattr (Raw.freeform_tags instance) (Some ∅)) in
  created ← attribute "time_created" (Raw.time_created instance);
  let days_since_created :=
    Datetime.calculate_days_since_created (fromisoformat w) (clock w) created in
  name ← attribute "display_name" (Raw.display_name instance);
  iid ← attribute "id" (Raw.id instance);
  shape ← attribute "shape" (Raw.shape instance);
  Ok (StoppedInstance.mk name iid shape region
        (getattr (Raw.availability_domain instance) "Unknown")
        compartment_name cid created days_since_created owner
        (getattr (Raw.fault_domain instance) "Unknown")
        (getattr (Raw.image_id instance) "Unknown")).

(** ** The fan-out scan *)

Definition cross_product (regions compartment_ids : list string) : list task :=
  r ← regions; c ← compartment_ids; [(r, c)].

Definition run_task (t : task) : M (task * list Raw.t) :=
  do instances <- get_stopped_instances_in_region_compartment t.1 t.2;
  ret (t, instances).

(** What the collecting loop adds for one finished future.  A cell
    catches every exception itself, so [future.result()] returns; each
    response is a list of freshly built objects with assignable
    attributes, so [instance.region = region] cannot raise and is the
    update of that one record. *)
Definition collect (done : task * list Raw.t) : list Raw.t :=
  let '((region, _), instances) := done in
  if list_truthy instances then map (Raw.set_region region) instances else [].

Definition set_found (n : Z) (st : Stats) : Stats :=
  mk_stats (regions_scanned st) (compartments_scanned st) n (api_calls_made st).

(** [ThreadPoolExecutor(max_workers=...)]: the constructor refuses a
    worker limit that is not positive, before any task is submitted. *)
Definition thread_pool_executor (max_workers : Z) : result unit :=
  if max_workers <=? 0
  then Raise (Exn "ValueError" "max_workers must be greater than 0")
  else Ok tt.

(** The cells run in the pool and only count and trace in the shared
    state, so they are run here one after the other; the order in which
    their results are collected is the environment's [as_completed]. *)
Definition discover_stopped_instances
    (regions compartment_ids : list string) : M (list Raw.t) :=
  let tasks := cross_product regions compartment_ids in
  do workers <- gets max_workers;
  do_ lift (thread_pool_executor workers);
  do finished <- map_m run_task tasks;
  let all_instances := flat_map collect (as_completed w finished) in
  do_ modify (set_stats (set_found (Z.of_nat (length all_instances))));
  ret all_instances.

(** ** The result processor *)

Definition key (r : StoppedInstance.t) : Z := StoppedInstance.days_since_created r.

(** [list.sort(key=..., reverse=True)]: descending, and stable. *)
Fixpoint insert_desc (x : StoppedInstance.t) (l : list StoppedInstance.t)
    : list StoppedInstance.t :=
  match l with
  | [] => [x]
  | y :: r => if key y <=? key x then x :: l else y :: insert_desc x r
  end.

Definition sort_desc (l : list StoppedInstance.t) : list StoppedInstance.t :=
  fold_right insert_desc [] l.

(** The loop of [process_instances].  The handler formats
    [instance.id] into the warning before it goes on. *)
Fixpoint process_loop (cache : Dict.t) (min_days : Z) (instances : list Raw.t)
    : result (list StoppedInstance.t) :=
  match instances with
  | [] => Ok []
  | instance :: rest =>
      match process_stopped_instance cache instance
              (getattr (Raw.region instance) "unknown") with
      | Ok res =>
          results ← process_loop cache min_days rest;
          Ok (if min_days <=? key res then res :: results else results)
      | Raise _ =>
          _ ← attribute "id" (Raw.id instance);
          process_loop cache min_days rest
      end
  end.

Definition process_instances (instances : list Raw.t) (min_days : Z)
    : M (list StoppedInstance.t) :=
  do cache <- gets compartment_cache;
  do results <- lift (process_loop cache min_days instances);
  ret (sort_desc results).

End Lister.

(** ** The whole run *)

(** What [list_stopped_instances] returns: the "nothing found" exits
    give three values, the full run gives four. *)
Inductive returned :=
| Tuple3 (results : list StoppedInstance.t) (csv_file html_file : string)
| Tuple4 (results : list StoppedInstance.t) (csv_file html_file summary : string).

Definition set_regions_scanned (n : Z) (st : Stats) : Stats :=
  mk_stats n (compartments_scanned st) (stopped_instances_found st) (api_calls_made st).
Definition set_compartments_scanned (n : Z) (st : Stats) : Stats :=
  mk_stats (regions_scanned st) n (stopped_instances_found st) (api_calls_made st).

Record Args := mk_args {
  arg_min_days : Z;
  arg_compartments : option string;
  arg_regions : option string;
  arg_tenancy_id : option string;
  arg_profile : string;
  arg_output_path : string;
  arg_max_workers : Z;
  arg_skip_regions : option string;
  arg_timeout : Z
}.

(** What [parser.parse_args()] makes of the command line: with
    [-h] or [--help] it prints the help and exits with code 0; on an
    unknown argument or a value of the wrong type it prints the usage
    and exits with code 2; otherwise it returns the arguments, typed
    and with their defaults. *)
Inductive command_line :=
| Help
| Invalid
| Parsed (args : Args).

(** How [main] ends. *)
Inductive run_end :=
| HelpExit
| UsageExit
| Completed
| SetupExit
| ScanFailed (e : exn)
| Uncaught (e : exn).

(** The exit code of the process: [parse_args] exits with 0 or 2,
    [sys.exit(1)] in the set-up and in the handler of [main], 1 for an
    uncaught exception, 0 when [main] returns. *)
Definition exit_code (r : run_end) : Z :=
  match r with
  | HelpExit => 0
  | UsageExit => 2
  | Completed => 0
  | SetupExit => 1
  | ScanFailed _ => 1
  | Uncaught _ => 1
  end.

(** Reading a local variable of a function: it raises while the
    variable has not been assigned. *)
Definition local {A} (name : string) (v : option A) : result A :=
  match v with
  | Some a => Ok a
  | None => Raise (Exn "UnboundLocalError" name)
  end.

(** [a, b, c, d = value] *)
Definition unpack4 (r : returned)
    : result (list StoppedInstance.t * string * string * string) :=
  match r with
  | Tuple4 a b c d => Ok (a, b, c, d)
  | Tuple3 _ _ _ =>
      Raise (Exn "ValueError" "not enough values to unpack (expected 4, got 3)")
  end.

(** The same arguments without the [--skip-regions] flag. *)
Definition without_skip_regions (a : Args) : Args :=
  mk_args (arg_min_days a) (arg_compartments a) (arg_regions a)
          (arg_tenancy_id a) (arg_profile a) (arg_output_path a)
          (arg_max_workers a) None (arg_timeout a).

Definition comma_list (o : option string) : option (list string) :=
  if Str.truthy o then Some (Str.split_on "," (default "" o)) else None.

Section Run.

Variable w : World.

Definition list_stopped_instances
    (regions compartment_ids : option (list string))
    (min_days : Z) (output_path : string) : M returned :=
  do regions <-
    (if list_truthy (default [] regions) then ret (default [] regions)
     else get_subscribed_regions w);
  do_ modify (set_stats (set_regions_scanned (Z.of_nat (length regions))));
  do compartments <- get_all_compartments w compartment_ids;
  let compartment_list := Dict.keys compartments in
  do_ modify (set_stats
                (set_compartments_scanned (Z.of_nat (length compartment_list))));
  do stopped_instances <- discover_stopped_instances w regions compartment_list;
  if negb (list_truthy stopped_instances) then
    do_ modify (emit LogNoStoppedInstances);
    ret (Tuple3 [] "" "")
  else
    do results <- process_instances w stopped_instances min_days;
    if negb (list_truthy results) then
      do_ modify (emit (LogNoneOverThreshold min_days));
      ret (Tuple3 [] "" "")
    else
      do csv_file <- lift (csv_report w results output_path);
      do html_file <- lift (html_report w results output_path);
      do summary <- lift (summary_report w results);
      ret (Tuple4 results csv_file html_file summary).

Definition zero_stats : Stats := mk_stats 0 0 0 0.

(** [SimpleStoppedInstanceLister(...)]; [None] when the set-up of the
    configuration ends the process with [sys.exit(1)]. *)
Definition new_lister (args : Args) : option Lister :=
  match from_file w with
  | Raise _ => None
  | Ok config_tenancy =>
      let tenancy :=
        if Str.truthy (arg_tenancy_id args) then arg_tenancy_id args
        else config_tenancy in
      if Str.truthy tenancy
      then Some (mk_lister (default "" tenancy) (arg_max_workers args)
                           zero_stats [] [] [])
      else None
  end.

(** [main].  [parse_args] comes first and may end the process.
    [regions] and [lister] are locals of the function: both are
    unassigned when the skip block runs. *)
Definition main (argv : command_line) : run_end * option Lister :=
  match argv with
  | Help => (HelpExit, None)
  | Invalid => (UsageExit, None)
  | Parsed args =>
  let regions : option (option (list string)) := None in
  let lister : option Lister := None in
  match
    (if Str.truthy (arg_skip_regions args) then
       let skip_regions := Str.split_on "," (default "" (arg_skip_regions args)) in
       rs ← local "regions" regions;
       let kept := filter (fun r => r ∉ skip_regions) (default [] rs) in
       l ← local "lister" lister;
       Ok (Some (Some kept))
     else Ok regions)
  with
  | Raise e => (Uncaught e, None)
  | Ok _ =>
      let compartment_ids := comma_list (arg_compartments args) in
      let regions := comma_list (arg_regions args) in
      match makedirs w (arg_output_path args) with
      | Raise e => (Uncaught e, None)
      | Ok _ =>
          match new_lister args with
          | None => (SetupExit, None)
          | Some lister =>
              match
                (do r <- list_stopped_instances regions compartment_ids
                           (arg_min_days args) (arg_output_path args);
                 lift (unpack4 r)) lister
              with
              | (Ok _, s) => (Completed, Some s)
              | (Raise e, s) => (ScanFailed e, Some s)
              end
          end
      end
  end
  end.

End Run.

(** ** Sample environments *)

Module Sample.

Definition tenancy : string := "ocid1.tenancy.oc1..acme".

Definition instance (name created : string) : Raw.t :=
  Raw.mk (Some ("ocid1.instance.oc1.." ++ name)%string) (Some name)
         (Some "VM.Standard2.1") (Some "ocid1.compartment.oc1..dev")
         (Some (Datetime.TimeStr created))
         (Some (Some [])) (Some (Some {["Owner" := "ops"]}))
         (Some "AD-1") (Some "FD-1") (Some "ocid1.image.oc1..img") None.

(** A tenancy where every call answers; the arguments set what the
    region, compartment and instance listings do. *)
Definition world
    (regions : nat -> result (list RegionSubscription))
    (compartments : nat -> result (list Compartment))
    (client : string -> string -> nat -> result unit)
    (instances : string -> string -> nat -> result (list Raw.t)) : World :=
  mk_world (Ok (Some tenancy)) (fun _ => Ok tt)
           (fun _ => Ok tt) regions
           (fun _ cid => Ok ("name of " ++ cid)%string)
           compartments (fun _ => Ok "acme")
           client instances
           (fun finished => rev finished)
           (Datetime.utc_midnight 2024 3 1) Datetime.fromisoformat_model
           (fun _ path => Ok (path ++ "/Stopped_Instances.csv")%string)
           (fun _ path => Ok (path ++ "/Stopped_Instances.html")%string)
           (fun _ => Ok "summary").

Definition two_regions : list RegionSubscription :=
  [mk_subscription "eu-frankfurt-1" "READY";
   mk_subscription "uk-london-1" "IN_PROGRESS";
   mk_subscription "us-ashburn-1" "READY"].

Definition dev_compartments : list Compartment :=
  [mk_compartment "ocid1.compartment.oc1..dev" "dev" "ACTIVE";
   mk_compartment "ocid1.compartment.oc1..old" "old" "DELETED"].

Definition fresh : Lister := mk_lister tenancy 20 (mk_stats 0 0 0 0) [] [] [].

Definition args : Args :=
  mk_args 0 None None None "DEFAULT" "." 20 None 300.

End Sample.

(** ** Reading a run: outcomes of attempts, and what a trace holds *)

(** How one attempt of a scan cell goes: the compute client cannot be
    built, the listing call raises, or it answers. *)
Inductive attempt_result :=
| ClientFailed (e : exn)
| CallFailed (e : exn)
| Listed (data : list Raw.t).

Definition attempt_outcome (w : World) (region compartment_id : string)
    (attempt : nat) : attempt_result :=
  match new_compute_client w region compartment_id attempt with
  | Raise e => ClientFailed e
  | Ok _ =>
      match list_instances w region compartment_id attempt with
      | Raise e => CallFailed e
      | Ok data => Listed data
      end
  end.

Definition reached_call (o : attempt_result) : bool :=
  match o with
  | ClientFailed _ => false
  | _ => true
  end.

Definition failure (o : attempt_result) : option exn :=
  match o with
  | ClientFailed e | CallFailed e => Some e
  | Listed _ => None
  end.

Definition transient_failure (o : attempt_result) : Prop :=
  exists e, failure o = Some e /\ is_transient e = true.

Definition fatal_failure (o : attempt_result) : Prop :=
  exists e, failure o = Some e /\ is_transient e = false.

(** The delays slept, in order. *)
Definition slept (evs : list event) : list Z :=
  omap (fun e => match e with Sleep d => Some d | _ => None end) evs.

Definition is_listing (e : event) : bool :=
  match e with
  | CallListInstances _ _ => true
  | _ => false
  end.

(** The number of instance listings issued. *)
Definition listing_calls (evs : list event) : nat :=
  length (filter (fun e => is_listing e = true) evs).

(** The events of a run from [before] to [after]. *)
Definition new_events (before after : Lister) : list event :=
  drop (length (trace before)) (trace after).

(** What a scan cell does to the state when an event happens: a
    listing is counted and traced, a sleep is traced. *)
Definition record (s : Lister) (e : event) : Lister :=
  emit e (if is_listing e then set_stats bump_api_calls s else s).

Definition replay (evs : list event) (s : Lister) : Lister :=
  foldl record s evs.

Definition attempt_events (w : World) (region compartment_id : string)
    (attempt : nat) : list event :=
  if reached_call (attempt_outcome w region compartment_id attempt)
  then [CallListInstances region compartment_id] else [].

(** The events of [n] failed attempts that are retried, from
    [attempt] on, the first back-off being [delay]. *)
Fixpoint retry_events (w : World) (region compartment_id : string)
    (attempt n : nat) (delay : Z) : list event :=
  match n with
  | O => []
  | S n' =>
      attempt_events w region compartment_id attempt
      ++ Sleep delay
      :: retry_events w region compartment_id (S attempt) n' (delay * 2)
  end.

(** The records an attempt hands back: those listed, none on failure. *)
Definition listed (o : attempt_result) : list Raw.t :=
  match o with
  | Listed data => data
  | _ => []
  end.

(** Among the attempts [0..k], those that got as far as the listing call. *)
Definition reached_upto (w : World) (region compartment_id : string) (k : nat) : nat :=
  length (filter (fun j => reached_call (attempt_outcome w region compartment_id j) = true)
                 (seq 0 (S k))).

(** ** Reading a scan: what each cell contributes *)

Definition blank : Lister := mk_lister "" 0 (mk_stats 0 0 0 0) [] [] [].

(** What a cell returns; the records do not depend on the state in
    which the cell runs. *)
Definition cell_result (w : World) (t : task) : list Raw.t :=
  match (get_stopped_instances_in_region_compartment w t.1 t.2 blank).1 with
  | Ok data => data
  | Raise _ => []
  end.

(** A cell's records, tagged with the cell's region. *)
Definition tagged (w : World) (t : task) : list Raw.t :=
  map (Raw.set_region t.1) (cell_result w t).

(** ** Reading the processor: the mapped records *)

Definition to_option {A} (r : result A) : option A :=
  match r with
  | Ok a => Some a
  | Raise _ => None
  end.

(** The reports of the records that can be processed, in input order. *)
Definition mapped (w : World) (cache : Dict.t) (instances : list Raw.t)
    : list StoppedInstance.t :=
  omap (fun instance =>
          to_option (process_stopped_instance w cache instance
                       (getattr (Raw.region instance) "unknown")))
       instances.

(** Descending by age. *)
Definition descending (l : list StoppedInstance.t) : Prop :=
  StronglySorted (fun a b => key b <= key a) l.

(** Records of equal age keep the order they have in [l]. *)
Definition stable_wrt (l sorted : list StoppedInstance.t) : Prop :=
  forall k, filter (fun r => key r = k) sorted = filter (fun r => key r = k) l.

(** Records that lack an attribute. *)
Module Malformed.

Definition without_id (i : Raw.t) : Raw.t :=
  Raw.mk None (Raw.display_name i) (Raw.shape i) (Raw.compartment_id i)
         (Raw.time_created i) (Raw.defined_tags i) (Raw.freeform_tags i)
         (Raw.availability_domain i) (Raw.fault_domain i) (Raw.image_id i)
         (Raw.region i).

Definition without_shape (i : Raw.t) : Raw.t :=
  Raw.mk (Raw.id i) (Raw.display_name i) None (Raw.compartment_id i)
         (Raw.time_created i) (Raw.defined_tags i) (Raw.freeform_tags i)
         (Raw.availability_domain i) (Raw.fault_domain i) (Raw.image_id i)
         (Raw.region i).

End Malformed.

(** ** The statistics of the reports

    [generate_html_report] and [generate_summary_report] compute these
    before they format them; the formatting itself is not modelled. *)

Module Report.

(** A [dict] from strings to counters, in insertion order. *)
Definition counts := list (string * Z).

Fixpoint get (k : string) (d : counts) : option Z :=
  match d with
  | [] => None
  | (k', n) :: r => if String.eqb k k' then Some n else get k r
  end.

Fixpoint set (k : string) (n : Z) (d : counts) : counts :=
  match d with
  | [] => [(k, n)]
  | (k', n') :: r =>
      if String.eqb k k' then (k, n) :: r else (k', n') :: set k n r
  end.

(** [d[k] = d.get(k, 0) + 1] *)
Definition increment (k : string) (d : counts) : counts :=
  set k (default 0 (get k d) + 1) d.

(** The breakdown loops: one counter per value of a field. *)
Definition count_by (field : StoppedInstance.t -> string)
    (results : list StoppedInstance.t) : counts :=
  foldl (fun d r => increment (field r) d) [] results.

Definition region_breakdown := count_by StoppedInstance.region.
Definition compartment_breakdown := count_by StoppedInstance.compartment_name.
Definition shape_breakdown := count_by StoppedInstance.shape.
Definition owner_breakdown := count_by StoppedInstance.instance_owner.

(** [len(set(field(r) for r in results))] *)
Definition distinct (field : StoppedInstance.t -> string)
    (results : list StoppedInstance.t) : nat :=
  size (list_to_set (map field results) : gset string).

(** The age histogram. *)
Definition empty_age_ranges : counts :=
  [("0-29 days", 0); ("30-89 days", 0); ("90-179 days", 0);
   ("180-364 days", 0); ("365+ days", 0)].

Definition age_range_of (days : Z) : string :=
  if days <? 30 then "0-29 days"
  else if days <? 90 then "30-89 days"
  else if days <? 180 then "90-179 days"
  else if days <? 365 then "180-364 days"
  else "365+ days".

(** [age_ranges[label] += 1]; the label is always one of the five keys. *)
Definition age_ranges (results : list StoppedInstance.t) : counts :=
  foldl (fun d r => increment (age_range_of (key r)) d) empty_age_ranges results.

(** The style class of a histogram row, chosen from its label. *)
Definition range_class (age_range : string) : string :=
  if Str.contains "365+" age_range then "age-critical"
  else if Str.contains "180-364" age_range then "age-high"
  else if Str.contains "90-179" age_range then "age-medium"
  else "age-low".

(** The style class of an instance row, chosen from its age. *)
Definition age_class (days : Z) : string :=
  if 365 <=? days then "age-critical"
  else if 180 <=? days then "age-high"
  else if 90 <=? days then "age-medium"
  else "age-low".

(** [sorted(d.items(), key=lambda x: x[1], reverse=True)]: descending
    by count, and stable. *)
Fixpoint insert_count (x : string * Z) (l : counts) : counts :=
  match l with
  | [] => [x]
  | y :: r => if y.2 <=? x.2 then x :: l else y :: insert_count x r
  end.

Definition sorted_by_count (d : counts) : counts := fold_right insert_count [] d.

(** [sorted(...)[:n]] *)
Definition top (n : nat) (d : counts) : counts := take n (sorted_by_count d).

(** [sorted(results, key=lambda x: x.days_since_created, reverse=True)[:20]] *)
Definition top_instances (results : list StoppedInstance.t) : list StoppedInstance.t :=
  take 20 (sort_desc results).

(** [max(results, key=lambda x: x.days_since_created)]: the first of the
    oldest; [None] stands for the [ValueError] on an empty list. *)
Fixpoint max_from (best : StoppedInstance.t) (l : list StoppedInstance.t)
    : StoppedInstance.t :=
  match l with
  | [] => best
  | x :: r => if key best <? key x then max_from x r else max_from best r
  end.

Definition oldest_instance (results : list StoppedInstance.t)
    : option StoppedInstance.t :=
  match results with
  | [] => None
  | x :: r => Some (max_from x r)
  end.

(** [sum(r.days_since_created for r in results)] *)
Definition total_days (results : list StoppedInstance.t) : Z :=
  foldl (fun acc r => acc + key r) 0 results.

End Report.

(** The sum of the counters of a dictionary. *)
Definition counts_total (d : Report.counts) : Z := foldr (fun e acc => e.2 + acc) 0 d.

(** Number of the results whose field is [k]. *)
Definition occurrences (field : StoppedInstance.t -> string) (k : string)
    (results : list StoppedInstance.t) : Z :=
  Z.of_nat (length (filter (fun r => field r = k) results)).

(** [comp] is a listed compartment with id [cid] in "ACTIVE" state. *)
Definition is_active (cid : string) (comp : Compartment) : Prop :=
  comp_id comp = cid /\ lifecycle_state comp = "ACTIVE".

(** ** Reading a trace: the capability calls *)

Definition is_call (e : event) : bool :=
  match e with
  | Sleep _ | LogNoStoppedInstances | LogNoneOverThreshold _ => false
  | _ => true
  end.

(** The number of capability calls issued. *)
Definition calls (evs : list event) : nat :=
  length (filter (fun e => is_call e = true) evs).

(** From [s] to [s'] the run only adds events that satisfy [P], and
    counts one API call for each capability call among them. *)
Definition extends (P : event -> Prop) (s s' : Lister) : Prop :=
  exists evs,
    trace s' = trace s ++ evs
    /\ api_calls_made (stats s') = api_calls_made (stats s) + Z.of_nat (calls evs)
    /\ Forall P evs.

Definition identity_event (e : event) : Prop :=
  e = CallListCompartments \/ e = CallGetTenancy
  \/ exists cid, e = CallGetCompartment cid.

Definition scan_event (regions compartment_ids : list string) (e : event) : Prop :=
  (exists r c, r ∈ regions /\ c ∈ compartment_ids /\ e = CallListInstances r c)
  \/ exists d, e = Sleep d.

(** What the resolver and the scan leave alone. *)
Definition same_frame (s s' : Lister) : Prop :=
  tenancy_id s' = tenancy_id s
  /\ region_cache s' = region_cache s
  /\ regions_scanned (stats s') = regions_scanned (stats s)
  /\ compartments_scanned (stats s') = compartments_scanned (stats s)
  /\ max_workers s' = max_workers s.

Definition step (P : event -> Prop) (s s' : Lister) : Prop :=
  extends P s s' /\ same_frame s s'.

(** What [list_stopped_instances] does once the scan is over: an
    error of the scan goes on to the caller. *)
Definition after_scan (w : World) (min_days : Z) (output_path : string)
    (scan : result (list Raw.t)) (s : Lister) : result returned * Lister :=
  match scan with
  | Raise e => (Raise e, s)
  | Ok stopped_instances =>
  if negb (list_truthy stopped_instances) then
    (Ok (Tuple3 [] "" ""), emit LogNoStoppedInstances s)
  else
    match (process_instances w stopped_instances min_days s).1 with
    | Raise e => (Raise e, s)
    | Ok results =>
        if negb (list_truthy results) then
          (Ok (Tuple3 [] "" ""), emit (LogNoneOverThreshold min_days) s)
        else
          match csv_report w results output_path with
          | Raise e => (Raise e, s)
          | Ok csv_file =>
              match html_report w results output_path with
              | Raise e => (Raise e, s)
              | Ok html_file =>
                  match summary_report w results with
                  | Raise e => (Raise e, s)
                  | Ok summary => (Ok (Tuple4 results csv_file html_file summary), s)
                  end
              end
          end
    end
  end.

(* ===================================================================== *)
(** * Properties *)
(* ===================================================================== *)

Example parse_z_scenario :
  Datetime.fromisoformat_model "2024-01-01T00:00:00+00:00"
  = Some (Datetime.mk_datetime 2024 1 1 0 0 0 0 (Some 0)).
Proof. vm_compute. reflexivity. Qed.

Example age_scenario :
  Datetime.calculate_days_since_created Datetime.fromisoformat_model
    (Datetime.utc_midnight 2024 3 1) (Datetime.TimeStr "2024-01-01T00:00:00Z") = 60.
Proof. vm_compute. reflexivity. Qed.

Example age_source_self_test :
  Datetime.calculate_days_since_created Datetime.fromisoformat_model
    (Datetime.utc_midnight 2025 7 4)
    (Datetime.TimeStr "2025-04-15 08:24:12.086000+00:00") = 79.
Proof. vm_compute. reflexivity. Qed.

(** ** Owner extraction *)

Lemma scan_namespaces_dict ns tags rest :
  Tags.scan_namespaces ((ns, Tags.TagDict tags) :: rest)
  = match Tags.first_key Tags.defined_keys tags with
    | Some v => Some v
    | None => Tags.scan_namespaces rest
    end.
Proof. reflexivity. Qed.

Lemma first_key_present keys d k v :
  Tags.first_present keys d k v -> Tags.first_key keys d = Some v.
Proof.
  intros (i & Hk & Hv & Hbefore).
  revert keys Hk Hbefore. induction i as [|i IH]; intros [|k0 ks] Hk Hbefore;
    simpl in *; try discriminate.
  - injection Hk as ->. by rewrite Hv.
  - rewrite (Hbefore O k0); [|lia|done].
    apply IH; [done|]. intros j k' Hj Hl. apply (Hbefore (S j) k'); [lia|done].
Qed.

Lemma first_key_absent keys d :
  Tags.none_present keys d -> Tags.first_key keys d = None.
Proof.
  induction keys as [|k ks IH]; intros Hnone; simpl; [done|].
  rewrite (Hnone k); [|by left].
  apply IH. intros k' Hk'. apply Hnone. by right.
Qed.

Lemma scan_namespaces_silent nss rest :
  Forall Tags.namespace_silent nss ->
  Tags.scan_namespaces (nss ++ rest)%list = Tags.scan_namespaces rest.
Proof.
  induction 1 as [|[ns [tags|]] nss Hs _ IH]; [done| |done].
  unfold Tags.namespace_silent in Hs. simpl in Hs.
  rewrite <- app_comm_cons, scan_namespaces_dict.
  by rewrite (first_key_absent _ _ Hs).
Qed.

Lemma freeform_lookup_truthy (d : Tags.freeform_dict) k v :
  d !! k = Some v -> Tags.freeform_truthy (Some d) = true.
Proof.
  intros Hv. unfold Tags.freeform_truthy. apply bool_decide_eq_true.
  intros ->. by apply lookup_empty_Some in Hv.
Qed.

Lemma no_freeform_match_none freeform :
  Tags.no_freeform_match freeform ->
  (if Tags.freeform_truthy freeform
   then Tags.first_key Tags.freeform_keys (default ∅ freeform) else None) = None.
Proof.
  intros Hno. destruct freeform as [d|]; [|done].
  destruct (Tags.freeform_truthy (Some d)); [|done].
  cbn [from_option id]. apply first_key_absent. by apply Hno.
Qed.

(** C4: the first freeform key present, in the order Owner, CreatedBy,
    Contact, Maintainer, Team, decides the owner whatever the defined
    tags hold; when no freeform key is present the first namespace that
    holds one of Owner, CreatedBy, Contact, ApplicationOwner decides, by
    its first such key; otherwise the owner is "Unknown". *)
Theorem get_owner_from_tags_priority
    (defined : option Tags.defined_dict) (freeform : option Tags.freeform_dict) :
  (forall d k v,
      freeform = Some d ->
      Tags.first_present Tags.freeform_keys d k v ->
      Tags.get_owner_from_tags defined freeform = v)
  /\ (Tags.no_freeform_match freeform ->
      forall pre ns tags post k v,
        defined = Some (pre ++ (ns, Tags.TagDict tags) :: post)%list ->
        Forall Tags.namespace_silent pre ->
        Tags.first_present Tags.defined_keys tags k v ->
        Tags.get_owner_from_tags defined freeform = v)
  /\ (Tags.no_freeform_match freeform ->
      (forall nss, defined = Some nss -> Forall Tags.namespace_silent nss) ->
      Tags.get_owner_from_tags defined freeform = "Unknown").
Proof.
  split; [|split].
  - intros d k v -> Hfirst. unfold Tags.get_owner_from_tags.
    destruct Hfirst as (i & Hk & Hv & Hb).
    rewrite (freeform_lookup_truthy d k v Hv). cbn [from_option id].
    by rewrite (first_key_present _ d k v (ex_intro _ i (conj Hk (conj Hv Hb)))).
  - intros Hno pre ns tags post k v -> Hpre Hfirst.
    unfold Tags.get_owner_from_tags.
    rewrite (no_freeform_match_none _ Hno).
    assert (Tags.defined_truthy (Some (pre ++ (ns, Tags.TagDict tags) :: post)%list) = true)
      as -> by (by destruct pre).
    cbn [from_option id]. rewrite (scan_namespaces_silent _ _ Hpre), scan_namespaces_dict.
    by rewrite (first_key_present _ _ _ _ Hfirst).
  - intros Hno Hdef. unfold Tags.get_owner_from_tags.
    rewrite (no_freeform_match_none _ Hno).
    destruct defined as [nss|]; [|done].
    destruct (Tags.defined_truthy (Some nss)); [|done].
    cbn [from_option id]. specialize (Hdef nss eq_refl).
    rewrite <- (app_nil_r nss). by rewrite (scan_namespaces_silent _ _ Hdef).
Qed.

Lemma get_owner_from_tags_priority_witness :
  let freeform : Tags.freeform_dict := {["Team" := "payments"; "Contact" := "ann"]} in
  let defined : Tags.defined_dict :=
    [("Billing", Tags.NotADict);
     ("Ops", Tags.TagDict {["CostCenter" := "42"]});
     ("Org", Tags.TagDict {["ApplicationOwner" := "bob"; "CreatedBy" := "carl"]})] in
  Tags.get_owner_from_tags (Some defined) (Some freeform) = "ann"
  /\ Tags.get_owner_from_tags (Some defined) (Some ∅) = "carl"
  /\ Tags.get_owner_from_tags (Some (take 2 defined)) None = "Unknown".
Proof.
  cbv zeta. split; [|split].
  - refine (proj1 (get_owner_from_tags_priority _ _) _ "Contact" "ann" eq_refl _).
    exists 2%nat. split; [reflexivity|]. split; [reflexivity|].
    intros [|[|j]] k' Hj Hk'; [| |lia]; injection Hk' as <-; reflexivity.
  - refine (proj1 (proj2 (get_owner_from_tags_priority _ _)) _
              [("Billing", Tags.NotADict);
               ("Ops", Tags.TagDict {["CostCenter" := "42"]})]
              "Org" _ [] "CreatedBy" "carl" eq_refl _ _).
    + intros d [= <-] k Hk. apply lookup_empty.
    + repeat constructor. intros k Hk.
      repeat (apply elem_of_cons in Hk as [->|Hk]; [reflexivity|]).
      by apply elem_of_nil in Hk.
    + exists 1%nat. split; [reflexivity|]. split; [reflexivity|].
      intros [|j] k' Hj Hk'; [|lia]. injection Hk' as <-. reflexivity.
  - refine (proj2 (proj2 (get_owner_from_tags_priority _ _)) _ _).
    + intros d [=].
    + intros nss [= <-]. repeat constructor. intros k Hk.
      repeat (apply elem_of_cons in Hk as [->|Hk]; [reflexivity|]).
      by apply elem_of_nil in Hk.
Defined.

(** ** Age in days *)

Lemma prefix_other_head c old c' r :
  Ascii.eqb c c' = false -> String.prefix (String c old) (String c' r) = false.
Proof.
  intros Hne. simpl. destruct (Ascii.ascii_dec c c') as [->|]; [|done].
  by rewrite Ascii.eqb_refl in Hne.
Qed.

(** Text without the first character of [old] passes through
    [replace] unchanged, whatever follows it. *)
Lemma replace_from_skips c old new body rest :
  Str.mem c body = false ->
  Str.replace_from (String c old) new 0 (body ++ rest)%string
  = (body ++ Str.replace_from (String c old) new 0 rest)%string.
Proof.
  induction body as [|c' r IH]; intros Hmem; [done|].
  simpl in Hmem. apply orb_false_iff in Hmem as [Hne Hr].
  change ((String c' r ++ rest)%string) with (String c' (r ++ rest)%string).
  cbn [Str.replace_from]. rewrite (prefix_other_head _ _ _ _ Hne).
  by rewrite (IH Hr).
Qed.

Lemma string_app_empty_r (s : string) : (s ++ "")%string = s.
Proof.
  induction s as [|c r IH]; [done|].
  change (String c r ++ "")%string with (String c (r ++ "")%string). by rewrite IH.
Qed.

Lemma strip_zone_suffix body suffix :
  Str.mem "Z" body = false -> Str.mem "+" body = false ->
  suffix = "Z" \/ suffix = "+00:00" ->
  Datetime.strip_zone (body ++ suffix)%string = body.
Proof.
  intros HZ Hplus Hsuffix. unfold Datetime.strip_zone, Str.replace.
  rewrite (replace_from_skips _ _ _ _ _ Hplus).
  destruct Hsuffix as [-> | ->].
  - change (Str.replace_from "+00:00" "" 0 "Z") with "Z".
    rewrite (replace_from_skips _ _ _ _ _ HZ).
    change (Str.replace_from "Z" "" 0 "Z") with "".
    apply string_app_empty_r.
  - change (Str.replace_from "+00:00" "" 0 "+00:00") with "".
    rewrite (replace_from_skips _ _ _ _ _ HZ).
    change (Str.replace_from "Z" "" 0 "") with "".
    apply string_app_empty_r.
Qed.

Lemma time_truthy_suffix body suffix :
  suffix = "Z" \/ suffix = "+00:00" ->
  Datetime.time_truthy (Datetime.TimeStr (body ++ suffix)%string) = true.
Proof. intros [-> | ->]; by destruct body. Qed.

Lemma calculate_days_nonneg parser now tc :
  0 <= Datetime.calculate_days_since_created parser now tc.
Proof.
  unfold Datetime.calculate_days_since_created.
  destruct (negb _); [done|].
  destruct (Datetime.created_datetime parser tc) as [dt|e]; simpl; [|done].
  destruct (Datetime.sub_from_now now dt) as [delta|e]; simpl; [lia|done].
Qed.

Lemma calculate_days_of_created parser now s dt c :
  Datetime.time_truthy (Datetime.TimeStr s) = true ->
  Datetime.created_datetime parser (Datetime.TimeStr s) = Ok dt ->
  Datetime.instant dt = Some c ->
  Datetime.calculate_days_since_created parser now (Datetime.TimeStr s)
  = Z.max 0 ((now - c) / Datetime.us_per_day).
Proof.
  intros Ht Hc Hi. unfold Datetime.calculate_days_since_created.
  rewrite Ht, Hc. simpl. unfold Datetime.sub_from_now. by rewrite Hi.
Qed.

(** C5: the age is never negative; [None], the empty string and any
    text the parser rejects give 0; a timestamp ending in "Z" or
    "+00:00" gives the whole days from its instant (read as UTC) to now,
    or 0 if that is negative; "2024-01-01T00:00:00Z" seen on 2024-03-01
    gives 60. *)
Theorem calculate_days_since_created_spec
    (parser : string -> option Datetime.datetime) (now : Z) :
  let age := Datetime.calculate_days_since_created parser now in
  (forall tc, 0 <= age tc)
  /\ age Datetime.TimeNone = 0
  /\ age (Datetime.TimeStr "") = 0
  /\ (forall tc e, Datetime.created_datetime parser tc = Raise e -> age tc = 0)
  /\ (forall dt,
        age (Datetime.TimeObj dt)
        = Z.max 0 ((now - (Datetime.wall_micros dt - default Datetime.utc (Datetime.tzinfo dt)))
                   / Datetime.us_per_day))
  /\ (forall body suffix dt c,
        Str.mem "Z" body = false -> Str.mem "+" body = false ->
        suffix = "Z" \/ suffix = "+00:00" ->
        Str.contains "." body = false ->
        parser (body ++ "+00:00")%string = Some dt ->
        Datetime.instant dt = Some c ->
        age (Datetime.TimeStr (body ++ suffix)%string)
        = Z.max 0 ((now - c) / Datetime.us_per_day))
  /\ (forall body suffix dt,
        Str.mem "Z" body = false -> Str.mem "+" body = false ->
        suffix = "Z" \/ suffix = "+00:00" ->
        Str.contains "." body = true ->
        parser body = Some dt ->
        age (Datetime.TimeStr (body ++ suffix)%string)
        = Z.max 0 ((now - Datetime.wall_micros dt) / Datetime.us_per_day))
  /\ (parser "2024-01-01T00:00:00+00:00"
        = Some (Datetime.mk_datetime 2024 1 1 0 0 0 0 (Some Datetime.utc)) ->
      Datetime.utc_midnight 2024 3 1 <= now < Datetime.utc_midnight 2024 3 2 ->
      age (Datetime.TimeStr "2024-01-01T00:00:00Z") = 60).
Proof.
  intros age. subst age. repeat split.
  - apply calculate_days_nonneg.
  - intros tc e Hraise. unfold Datetime.calculate_days_since_created.
    destruct (negb _); [done|]. by rewrite Hraise.
  - intros dt. unfold Datetime.calculate_days_since_created. cbn.
    unfold Datetime.sub_from_now, Datetime.instant.
    destruct (Datetime.tzinfo dt) as [off|] eqn:Htz; cbn; [by rewrite Htz|done].
  - intros body suffix dt c HZ Hplus Hsuffix Hdot Hparse Hinstant.
    apply (calculate_days_of_created _ _ _ dt); [by apply time_truthy_suffix| |done].
    unfold Datetime.created_datetime.
    rewrite (strip_zone_suffix _ _ HZ Hplus Hsuffix), Hdot.
    unfold Datetime.parse. by rewrite Hparse.
  - intros body suffix dt HZ Hplus Hsuffix Hdot Hparse.
    replace (now - Datetime.wall_micros dt)
      with (now - (Datetime.wall_micros dt - Datetime.utc)) by (unfold Datetime.utc; lia).
    apply (calculate_days_of_created _ _ _ (Datetime.replace_tzinfo dt Datetime.utc));
      [by apply time_truthy_suffix| |done].
    unfold Datetime.created_datetime.
    rewrite (strip_zone_suffix _ _ HZ Hplus Hsuffix), Hdot.
    unfold Datetime.parse. by rewrite Hparse.
  - intros Hparse Hnow.
    rewrite (calculate_days_of_created _ _ _
               (Datetime.mk_datetime 2024 1 1 0 0 0 0 (Some Datetime.utc))
               (Datetime.utc_midnight 2024 1 1)); [|done| |done].
    + change (Datetime.utc_midnight 2024 3 1)
        with (Datetime.utc_midnight 2024 1 1 + 60 * Datetime.us_per_day) in Hnow.
      change (Datetime.utc_midnight 2024 3 2)
        with (Datetime.utc_midnight 2024 1 1 + 61 * Datetime.us_per_day) in Hnow.
      assert ((now - Datetime.utc_midnight 2024 1 1) / Datetime.us_per_day = 60) as ->;
        [|done].
      symmetry. apply (Z.div_unique_pos _ _ _
        (now - Datetime.utc_midnight 2024 1 1 - 60 * Datetime.us_per_day));
        unfold Datetime.us_per_day in *; lia.
    + change (Datetime.created_datetime parser (Datetime.TimeStr "2024-01-01T00:00:00Z"))
        with (Datetime.parse parser "2024-01-01T00:00:00+00:00").
      unfold Datetime.parse. by rewrite Hparse.
Qed.

Lemma calculate_days_since_created_spec_witness :
  let age := Datetime.calculate_days_since_created Datetime.fromisoformat_model
               (Datetime.utc_midnight 2024 3 1) in
  age (Datetime.TimeStr "2024-01-01T00:00:00Z") = 60
  /\ age (Datetime.TimeStr "2024-02-28T23:59:59.500+00:00") = 1
  /\ age (Datetime.TimeStr "2031-05-05T00:00:00Z") = 0
  /\ age (Datetime.TimeStr "yesterday") = 0.
Proof.
  pose proof (calculate_days_since_created_spec Datetime.fromisoformat_model
                (Datetime.utc_midnight 2024 3 1))
    as (_ & _ & _ & Hbad & _ & Hplain & Hfrac & Hscen).
  cbv zeta. split; [|split; [|split]].
  - apply Hscen; [vm_compute; reflexivity|vm_compute; split; [discriminate|reflexivity]].
  - refine (eq_trans (Hfrac "2024-02-28T23:59:59.500" "+00:00"
               (Datetime.mk_datetime 2024 2 28 23 59 59 500000 None) _ _ _ _ _) _);
      [reflexivity|reflexivity|by right|reflexivity|vm_compute; reflexivity
      |vm_compute; reflexivity].
  - refine (eq_trans (Hplain "2031-05-05T00:00:00" "Z"
               (Datetime.mk_datetime 2031 5 5 0 0 0 0 (Some 0))
               (Datetime.utc_midnight 2031 5 5) _ _ _ _ _ _) _);
      [reflexivity|reflexivity|by left|reflexivity|vm_compute; reflexivity
      |vm_compute; reflexivity|vm_compute; reflexivity].
  - apply (Hbad _ (Exn "ValueError" "Invalid isoformat string")).
    vm_compute. reflexivity.
Defined.

(** ** The resolver *)

(** Unfolds the monad so that an effectful definition computes. *)
Ltac run_monad :=
  unfold count_api_call, cache_set, identity_client, call in *;
  unfold bind, try_except, ret, raise, gets, modify, lift in *;
  cbn beta iota zeta in *.

Lemma elem_of_ready_regions subs r :
  r ∈ ready_regions subs <->
  exists sub, sub ∈ subs /\ region_name sub = r /\ status sub = "READY".
Proof.
  unfold ready_regions. rewrite list_elem_of_fmap. split.
  - intros (sub & -> & Hin). apply list_elem_of_filter in Hin as [Hst Hin]. eauto.
  - intros (sub & Hin & <- & Hst). exists sub. split; [done|].
    by apply list_elem_of_filter.
Qed.

(** C8: on an empty cache the regions returned are exactly the names of
    the subscriptions whose status is "READY"; when the identity client
    or the listing call raises, the two built-in regions are returned
    and nothing is raised. *)
Theorem get_subscribed_regions_spec (w : World) (s : Lister) :
  region_cache s = [] ->
  let t := length (trace s) in
  (forall subs,
      new_identity_client w t = Ok tt ->
      list_region_subscriptions w t = Ok subs ->
      (get_subscribed_regions w s).1 = Ok (ready_regions subs)
      /\ forall r, r ∈ ready_regions subs <->
           exists sub, sub ∈ subs /\ region_name sub = r /\ status sub = "READY")
  /\ (forall e,
      new_identity_client w t = Raise e \/
      (new_identity_client w t = Ok tt /\ list_region_subscriptions w t = Raise e) ->
      (get_subscribed_regions w s).1 = Ok ["us-ashburn-1"; "us-phoenix-1"]).
Proof.
  intros Hempty t. subst t. unfold get_subscribed_regions. run_monad.
  rewrite Hempty. cbn [list_truthy]. split.
  - intros subs Hclient Hlist. rewrite Hclient. cbn. rewrite Hlist. cbn.
    split; [done|]. apply elem_of_ready_regions.
  - intros e [Hclient | [Hclient Hlist]]; rewrite Hclient; cbn; [done|].
    by rewrite Hlist.
Qed.

Lemma get_subscribed_regions_spec_witness :
  let w := Sample.world (fun _ => Ok Sample.two_regions)
             (fun _ => Ok Sample.dev_compartments)
             (fun _ _ _ => Ok tt) (fun _ _ _ => Ok []) in
  let w' := Sample.world (fun _ => Raise (Exn "ServiceError" "NotAuthenticated"))
              (fun _ => Ok Sample.dev_compartments)
              (fun _ _ _ => Ok tt) (fun _ _ _ => Ok []) in
  (get_subscribed_regions w Sample.fresh).1 = Ok ["eu-frankfurt-1"; "us-ashburn-1"]
  /\ (get_subscribed_regions w' Sample.fresh).1 = Ok ["us-ashburn-1"; "us-phoenix-1"].
Proof.
  cbv zeta. split.
  - apply (proj1 (get_subscribed_regions_spec _ Sample.fresh eq_refl)
             Sample.two_regions); reflexivity.
  - apply (proj2 (get_subscribed_regions_spec _ Sample.fresh eq_refl)
             (Exn "ServiceError" "NotAuthenticated")).
    right. split; reflexivity.
Defined.

Lemma dict_get_default_other k k' v :
  k <> k' -> Dict.get_default k "Unknown" [(k', v)] = "Unknown".
Proof.
  intros Hne. unfold Dict.get_default. simpl.
  destruct (String.eqb_spec k k'); [done|done].
Qed.

Lemma process_stopped_instance_compartment w cache inst region rep :
  process_stopped_instance w cache inst region = Ok rep ->
  exists cid,
    Raw.compartment_id inst = Some cid
    /\ StoppedInstance.compartment_id rep = cid
    /\ StoppedInstance.compartment_name rep = Dict.get_default cid "Unknown" cache.
Proof.
  unfold process_stopped_instance, attribute.
  destruct (Raw.compartment_id inst) as [cid|]; [|done].
  destruct (Raw.time_created inst); [|done].
  destruct (Raw.display_name inst); [|done].
  destruct (Raw.id inst); [|done].
  destruct (Raw.shape inst); [|done].
  cbn. intros [= <-]. by exists cid.
Qed.

(** C10: without explicit ids, when the identity client or the listing
    of compartments raises, [get_all_compartments] still returns: the
    cache is the single entry from the tenancy id to "Root Compartment",
    and every other compartment id is named "Unknown" afterwards, also
    in the reports. *)
Theorem get_all_compartments_listing_failure
    (w : World) (s : Lister) (ids : option (list string)) (e : exn) :
  compartment_cache s = [] ->
  list_truthy (default [] ids) = false ->
  new_identity_client w (length (trace s)) = Raise e \/
  (new_identity_client w (length (trace s)) = Ok tt
   /\ list_compartments w (length (trace s)) = Raise e) ->
  let root := [(tenancy_id s, "Root Compartment")] in
  let s' := (get_all_compartments w ids s).2 in
  (get_all_compartments w ids s).1 = Ok root
  /\ compartment_cache s' = root
  /\ (forall cid, cid <> tenancy_id s ->
        Dict.get_default cid "Unknown" (compartment_cache s') = "Unknown")
  /\ (forall inst region rep,
        Raw.compartment_id inst <> Some (tenancy_id s) ->
        process_stopped_instance w (compartment_cache s') inst region = Ok rep ->
        StoppedInstance.compartment_name rep = "Unknown").
Proof.
  intros Hempty Hids Hfail root s'.
  assert (get_all_compartments w ids s
          = (Ok root, set_compartment_cache (fun _ => root)
                        (match new_identity_client w (length (trace s)) with
                         | Ok _ => emit CallListCompartments (set_stats bump_api_calls s)
                         | Raise _ => s
                         end))) as Hrun.
  { unfold get_all_compartments. run_monad. rewrite Hempty. cbn [Dict.truthy].
    destruct Hfail as [Hclient | [Hclient Hlist]]; rewrite Hclient; cbn.
    - done.
    - rewrite Hids. cbn. rewrite Hlist. by cbn. }
  subst s'. rewrite Hrun. cbn [fst snd].
  assert (compartment_cache
            (set_compartment_cache (fun _ => root)
               (match new_identity_client w (length (trace s)) with
                | Ok _ => emit CallListCompartments (set_stats bump_api_calls s)
                | Raise _ => s
                end)) = root) as -> by done.
  repeat split.
  - intros cid Hne. by apply dict_get_default_other.
  - intros inst region rep Hne Hrep.
    apply process_stopped_instance_compartment in Hrep as (cid & Hcid & _ & ->).
    apply dict_get_default_other. intros ->. by apply Hne.
Qed.

Lemma get_all_compartments_listing_failure_witness :
  let w := Sample.world (fun _ => Ok Sample.two_regions)
             (fun _ => Raise (Exn "ServiceError" "NotAuthorizedOrNotFound"))
             (fun _ _ _ => Ok tt) (fun _ _ _ => Ok []) in
  (get_all_compartments w None Sample.fresh).1
  = Ok [(Sample.tenancy, "Root Compartment")]
  /\ Dict.get_default "ocid1.compartment.oc1..dev" "Unknown"
       (compartment_cache (get_all_compartments w None Sample.fresh).2) = "Unknown".
Proof.
  cbv zeta.
  pose proof (get_all_compartments_listing_failure
                (Sample.world (fun _ => Ok Sample.two_regions)
                   (fun _ => Raise (Exn "ServiceError" "NotAuthorizedOrNotFound"))
                   (fun _ _ _ => Ok tt) (fun _ _ _ => Ok []))
                Sample.fresh None (Exn "ServiceError" "NotAuthorizedOrNotFound")
                eq_refl eq_refl (or_intror (conj eq_refl eq_refl)))
    as (Hret & _ & Hother & _).
  split; [exact Hret|]. apply Hother. discriminate.
Defined.

(** *** Memoization *)

Lemma dict_set_truthy k v d : Dict.truthy (Dict.set k v d) = true.
Proof. destruct d as [|[k' v'] r]; simpl; [done|]. by destruct (String.eqb k k'). Qed.

Lemma bind_ok {A B} (m : M A) (k : A -> M B) s a s1 :
  m s = (Ok a, s1) -> bind m k s = k a s1.
Proof. intros H. unfold bind. by rewrite H. Qed.

Lemma bind_raise {A B} (m : M A) (k : A -> M B) s e s1 :
  m s = (Raise e, s1) -> bind m k s = (Raise e, s1).
Proof. intros H. unfold bind. by rewrite H. Qed.

Lemma try_ok {A} (m : M A) h s a s1 :
  m s = (Ok a, s1) -> try_except m h s = (Ok a, s1).
Proof. intros H. unfold try_except. by rewrite H. Qed.

Lemma try_raise {A} (m : M A) h s e s1 :
  m s = (Raise e, s1) -> try_except m h s = h e s1.
Proof. intros H. unfold try_except. by rewrite H. Qed.

Lemma get_subscribed_regions_returns_cache w s :
  exists s', get_subscribed_regions w s = (Ok (region_cache s'), s').
Proof.
  unfold get_subscribed_regions. run_monad.
  destruct (list_truthy (region_cache s)); [by exists s|].
  destruct (new_identity_client w (length (trace s))); [|eexists; reflexivity].
  destruct (list_region_subscriptions w _); eexists; reflexivity.
Qed.

Lemma get_subscribed_regions_cached w s :
  region_cache s <> [] -> get_subscribed_regions w s = (Ok (region_cache s), s).
Proof.
  intros Hne. unfold get_subscribed_regions. run_monad.
  by destruct (region_cache s).
Qed.

Lemma explicit_body_sets w comp_id s :
  exists s', explicit_body w comp_id s = (Ok tt, s')
             /\ Dict.truthy (compartment_cache s') = true.
Proof.
  unfold explicit_body. run_monad.
  destruct (get_compartment w _ comp_id);
    (eexists; split; [reflexivity|]); apply dict_set_truthy.
Qed.

Lemma explicit_loop_sets w ids s :
  exists s', for_each ids (explicit_body w) s = (Ok tt, s')
             /\ (Dict.truthy (compartment_cache s) || list_truthy ids
                 -> Dict.truthy (compartment_cache s') = true).
Proof.
  revert s. induction ids as [|comp_id ids IH]; intros s.
  - exists s. split; [done|]. rewrite orb_false_r. by intros ?%Is_true_true.
  - destruct (explicit_body_sets w comp_id s) as (s1 & Hs1 & Ht1).
    destruct (IH s1) as (s' & Hs' & Ht').
    exists s'. cbn [for_each]. rewrite (bind_ok _ _ _ _ _ Hs1). split; [done|].
    intros _. apply Ht'. by rewrite Ht1.
Qed.

Lemma active_loop_returns comps s :
  exists s', for_each comps active_body s = (Ok tt, s').
Proof.
  revert s. induction comps as [|comp comps IH]; intros s; [by exists s|].
  cbn [for_each]. unfold active_body at 1.
  destruct (String.eqb (lifecycle_state comp) "ACTIVE").
  - erewrite bind_ok; [apply IH|reflexivity].
  - erewrite bind_ok; [apply IH|reflexivity].
Qed.

Lemma root_body_sets w s :
  exists s',
    (do tenancy <- gets tenancy_id;
     try_except
       (do_ count_api_call;
        do name <- call CallGetTenancy (get_tenancy w);
        cache_set tenancy (name ++ " (Root)")%string)
       (fun _ => cache_set tenancy "Root Compartment")) s = (Ok tt, s')
    /\ Dict.truthy (compartment_cache s') = true.
Proof.
  run_monad.
  destruct (get_tenancy w _);
    (eexists; split; [reflexivity|]); apply dict_set_truthy.
Qed.

Lemma get_all_compartments_returns_cache w ids s :
  exists s', get_all_compartments w ids s = (Ok (compartment_cache s'), s')
             /\ Dict.truthy (compartment_cache s') = true.
Proof.
  unfold get_all_compartments.
  erewrite bind_ok; [|reflexivity].
  destruct (Dict.truthy (compartment_cache s)) eqn:Hcache; [by exists s|].
  destruct (new_identity_client w (length (trace s))) as [[]|e] eqn:Hclient.
  2:{ erewrite try_raise;
        [|erewrite bind_raise; [reflexivity|unfold identity_client; by rewrite Hclient]].
      eexists. split; [reflexivity|done]. }
  destruct (list_truthy (default [] ids)) eqn:Hids.
  - destruct (explicit_loop_sets w (default [] ids) s) as (s' & Hrun & Ht).
    exists s'. split; [|apply Ht; by rewrite Hids, orb_true_r].
    erewrite try_ok; [reflexivity|].
    erewrite bind_ok; [|unfold identity_client; by rewrite Hclient].
    erewrite bind_ok; [reflexivity|exact Hrun].
  - set (s0 := emit CallListCompartments (set_stats bump_api_calls s)).
    destruct (list_compartments w (length (trace s))) as [comps|e] eqn:Hlist.
    2:{ erewrite try_raise.
        2:{ erewrite bind_ok; [|unfold identity_client; by rewrite Hclient].
            erewrite bind_raise; [reflexivity|].
            erewrite bind_ok; [|reflexivity].
            erewrite bind_raise; [reflexivity|].
            unfold call. cbn. by rewrite Hlist. }
        eexists. split; [reflexivity|done]. }
    destruct (active_loop_returns comps s0) as (s1 & Hloop).
    destruct (root_body_sets w s1) as (s' & Hroot & Ht).
    exists s'. split; [|done].
    erewrite try_ok; [reflexivity|].
    erewrite bind_ok; [|unfold identity_client; by rewrite Hclient].
    erewrite bind_ok; [reflexivity|].
    erewrite bind_ok; [|reflexivity].
    erewrite bind_ok; [|unfold call; cbn; by rewrite Hlist].
    erewrite bind_ok; [|exact Hloop].
    exact Hroot.
Qed.

Lemma get_all_compartments_cached w ids s :
  Dict.truthy (compartment_cache s) = true ->
  get_all_compartments w ids s = (Ok (compartment_cache s), s).
Proof.
  intros Ht. unfold get_all_compartments. unfold bind at 1, gets at 1.
  by rewrite Ht.
Qed.

(** A call on an empty region cache, read off the answers of the
    environment at that time. *)
Lemma get_subscribed_regions_uncached w s :
  region_cache s = [] ->
  get_subscribed_regions w s
  = match new_identity_client w (length (trace s)) with
    | Raise _ => (Ok fallback_regions, set_region_cache fallback_regions s)
    | Ok _ =>
        let s1 := emit CallListRegionSubscriptions (set_stats bump_api_calls s) in
        match list_region_subscriptions w (length (trace s)) with
        | Ok subs => (Ok (ready_regions subs), set_region_cache (ready_regions subs) s1)
        | Raise _ => (Ok fallback_regions, set_region_cache fallback_regions s1)
        end
    end.
Proof.
  intros Hempty. unfold get_subscribed_regions. run_monad. rewrite Hempty.
  cbn [list_truthy].
  destruct (new_identity_client w (length (trace s))); [|done].
  cbn [trace set_stats].
  by destruct (list_region_subscriptions w (length (trace s))).
Qed.

(** C6, as the code has it: a second call of [get_all_compartments]
    gives the result of the first and leaves the whole state (counters,
    caches, trace of capability calls) as it was; a second call of
    [get_subscribed_regions] does so whenever the first one returned at
    least one region.  When the first one returned no region, it had
    asked the identity service and left the region cache empty, and
    the second call is not served from the cache: if the identity
    client can be built it issues and counts the listing call again and
    returns what that call gives now (the "READY" regions, or the two
    built-in regions if it raises); if the client cannot be built it
    returns the two built-in regions without a call. *)
Theorem resolver_memoized (w : World) (s : Lister) :
  (forall ids ids',
      let first := get_all_compartments w ids s in
      get_all_compartments w ids' first.2 = first)
  /\ (let first := get_subscribed_regions w s in
      first.1 <> Ok [] ->
      get_subscribed_regions w first.2 = first)
  /\ (let first := get_subscribed_regions w s in
      let second := get_subscribed_regions w first.2 in
      let now := length (trace first.2) in
      first.1 = Ok [] ->
      region_cache first.2 = []
      /\ trace first.2 = trace s ++ [CallListRegionSubscriptions]
      /\ match new_identity_client w now with
         | Ok _ =>
             trace second.2 = trace first.2 ++ [CallListRegionSubscriptions]
             /\ api_calls_made (stats second.2)
                = api_calls_made (stats first.2) + 1
             /\ second.1
                = Ok (match list_region_subscriptions w now with
                      | Ok subs => ready_regions subs
                      | Raise _ => fallback_regions
                      end)
             /\ second.1 = Ok (region_cache second.2)
         | Raise _ =>
             second
             = (Ok fallback_regions, set_region_cache fallback_regions first.2)
         end).
Proof.
  split; [|split].
  - intros ids ids'.
    destruct (get_all_compartments_returns_cache w ids s) as (s' & Hrun & Ht).
    cbv zeta. rewrite Hrun. cbn [snd]. by apply get_all_compartments_cached.
  - cbv zeta.
    destruct (get_subscribed_regions_returns_cache w s) as (s' & ->).
    cbn [fst snd]. intros Hne. apply get_subscribed_regions_cached.
    intros Hnil. apply Hne. by rewrite Hnil.
  - cbv zeta. intros Hfirst.
    assert (region_cache s = []) as Hcold.
    { destruct (region_cache s) as [|r rs] eqn:Hc; [done|].
      rewrite get_subscribed_regions_cached in Hfirst by (by rewrite Hc).
      cbn in Hfirst. congruence. }
    assert (region_cache (get_subscribed_regions w s).2 = []
            /\ trace (get_subscribed_regions w s).2
               = trace s ++ [CallListRegionSubscriptions]) as [Hempty Htrace].
    { revert Hfirst. rewrite (get_subscribed_regions_uncached w s Hcold).
      destruct (new_identity_client w (length (trace s))); [|done].
      cbv zeta.
      destruct (list_region_subscriptions w (length (trace s))); [|done].
      cbn. by intros [= ->]. }
    split; [exact Hempty|]. split; [exact Htrace|].
    rewrite (get_subscribed_regions_uncached w _ Hempty).
    destruct (new_identity_client w (length (trace (get_subscribed_regions w s).2)));
      [|done].
    cbv zeta.
    by destruct (list_region_subscriptions w
                   (length (trace (get_subscribed_regions w s).2))).
Qed.

Lemma resolver_memoized_witness :
  let w := Sample.world (fun _ => Ok Sample.two_regions)
             (fun _ => Ok Sample.dev_compartments)
             (fun _ _ _ => Ok tt) (fun _ _ _ => Ok []) in
  let none_ready := Sample.world
             (fun t => if (t =? 0)%nat then Ok [] else Ok Sample.two_regions)
             (fun _ => Ok Sample.dev_compartments)
             (fun _ _ _ => Ok tt) (fun _ _ _ => Ok []) in
  let first := get_subscribed_regions w Sample.fresh in
  let first' := get_subscribed_regions none_ready Sample.fresh in
  (first.1 <> Ok [] /\ get_subscribed_regions w first.2 = first)
  /\ (first'.1 = Ok [] /\ region_cache first'.2 = []).
Proof.
  cbv zeta.
  assert ((get_subscribed_regions
             (Sample.world (fun _ => Ok Sample.two_regions)
                (fun _ => Ok Sample.dev_compartments)
                (fun _ _ _ => Ok tt) (fun _ _ _ => Ok [])) Sample.fresh).1 <> Ok [])
    as Hne by (vm_compute; discriminate).
  assert ((get_subscribed_regions
             (Sample.world
                (fun t => if (t =? 0)%nat then Ok [] else Ok Sample.two_regions)
                (fun _ => Ok Sample.dev_compartments)
                (fun _ _ _ => Ok tt) (fun _ _ _ => Ok [])) Sample.fresh).1 = Ok [])
    as Hnone by (vm_compute; reflexivity).
  split.
  - split; [exact Hne|].
    exact (proj1 (proj2 (resolver_memoized _ Sample.fresh)) Hne).
  - split; [exact Hnone|].
    exact (proj1 (proj2 (proj2 (resolver_memoized _ Sample.fresh)) Hnone)).
Defined.

(** With no region in "READY" status the cache stays empty, and the
    next call asks the identity service again; here the second answer
    also differs from the first. *)
Lemma regions_queried_again :
  let w := Sample.world
             (fun t => if (t =? 0)%nat then Ok [] else Ok Sample.two_regions)
             (fun _ => Ok Sample.dev_compartments)
             (fun _ _ _ => Ok tt) (fun _ _ _ => Ok []) in
  let first := get_subscribed_regions w Sample.fresh in
  let second := get_subscribed_regions w first.2 in
  first.1 = Ok []
  /\ second.1 = Ok ["eu-frankfurt-1"; "us-ashburn-1"]
  /\ trace first.2 = [CallListRegionSubscriptions]
  /\ trace second.2 = [CallListRegionSubscriptions; CallListRegionSubscriptions]
  /\ api_calls_made (stats second.2) = 2
  /\ second <> first.
Proof. vm_compute. repeat split. discriminate. Qed.

(** ** One scan cell *)

(** One iteration of the retry loop, read off the attempt's outcome. *)
Lemma attempts_unfold w region compartment_id remaining attempt delay s :
attempts w region compartment_id (S remaining) attempt delay s
= let s1 := replay (attempt_events w region compartment_id attempt) s in
  match failure (attempt_outcome w region compartment_id attempt) with
  | None => (Ok (listed (attempt_outcome w region compartment_id attempt)), s1)
  | Some e =>
      if (attempt <? max_retries - 1)%nat && is_transient e
      then attempts w region compartment_id remaining (S attempt) (delay * 2)
             (replay [Sleep delay] s1)
      else (Ok [], s1)
  end.
Proof.
  unfold attempt_events, attempt_outcome.
  cbn [attempts]. run_monad.
  destruct (new_compute_client w region compartment_id attempt) as [[]|e]; cbn.
  - destruct (list_instances w region compartment_id attempt) as [data|e]; cbn;
      [done|].
    by destruct (_ && _).
  - by destruct (_ && _).
Qed.

Lemma replay_app evs evs' s : replay (evs ++ evs') s = replay evs' (replay evs s).
Proof. apply foldl_app. Qed.

(** [n] transient failures in a row are retried, doubling the delay. *)
Lemma attempts_retries w region compartment_id n remaining attempt delay s :
  (attempt + n <= 2)%nat ->
  (forall j, (attempt <= j < attempt + n)%nat ->
             transient_failure (attempt_outcome w region compartment_id j)) ->
  attempts w region compartment_id (n + remaining) attempt delay s
  = attempts w region compartment_id remaining (attempt + n) (delay * 2 ^ Z.of_nat n)
      (replay (retry_events w region compartment_id attempt n delay) s).
Proof.
  revert attempt delay s. induction n as [|n IH]; intros attempt delay s Hle Hfail.
  - cbn. rewrite Nat.add_0_r. f_equal. lia.
  - destruct (Hfail attempt ltac:(lia)) as (e & He & Htr).
    change (S n + remaining)%nat with (S (n + remaining)).
    rewrite attempts_unfold. cbv zeta. rewrite He, Htr.
    assert ((attempt <? max_retries - 1)%nat = true) as ->
      by (apply Nat.ltb_lt; unfold max_retries; lia).
    cbn [andb]. rewrite IH; [|lia|intros j Hj; apply Hfail; lia].
    cbn [retry_events]. rewrite replay_app.
    f_equal; [lia|rewrite Nat2Z.inj_succ, Z.pow_succ_r; lia].
Qed.

Lemma trace_replay evs s : trace (replay evs s) = trace s ++ evs.
Proof.
  revert s. induction evs as [|e evs IH]; intros s; cbn.
  - by rewrite app_nil_r.
  - fold (replay evs (record s e)). rewrite IH. cbn.
    destruct (is_listing e); cbn; by rewrite <- app_assoc.
Qed.

Lemma listing_calls_cons e evs :
  listing_calls (e :: evs)
  = ((if is_listing e then 1 else 0) + listing_calls evs)%nat.
Proof.
  unfold listing_calls. rewrite filter_cons.
  destruct (decide (is_listing e = true)) as [->|Hn]; [done|].
  by destruct (is_listing e).
Qed.

Lemma listing_calls_app evs evs' :
  listing_calls (evs ++ evs') = (listing_calls evs + listing_calls evs')%nat.
Proof. unfold listing_calls. by rewrite filter_app, length_app. Qed.

Lemma api_calls_replay evs s :
  api_calls_made (stats (replay evs s))
  = api_calls_made (stats s) + Z.of_nat (listing_calls evs).
Proof.
  revert s. induction evs as [|e evs IH]; intros s; [cbn; lia|].
  change (replay (e :: evs) s) with (replay evs (record s e)).
  rewrite IH, listing_calls_cons.
  unfold record. destruct (is_listing e); cbn [stats emit set_stats api_calls_made bump_api_calls]; lia.
Qed.

Lemma new_events_replay evs s : new_events s (replay evs s) = evs.
Proof. unfold new_events. by rewrite trace_replay, drop_app_length. Qed.

Lemma slept_app evs evs' : slept (evs ++ evs') = slept evs ++ slept evs'.
Proof. apply omap_app. Qed.

Lemma slept_attempt_events w r c k : slept (attempt_events w r c k) = [].
Proof. unfold attempt_events. by destruct (reached_call _). Qed.

Lemma listing_calls_attempt_events w r c k :
  listing_calls (attempt_events w r c k)
  = if reached_call (attempt_outcome w r c k) then 1%nat else 0%nat.
Proof. unfold attempt_events. by destruct (reached_call _). Qed.

Lemma slept_retry_events w r c k :
  (k <= 2)%nat -> slept (retry_events w r c 0 k 5) = take k [5; 10].
Proof.
  intros Hk. destruct k as [|[|[|k]]]; [| | |lia]; cbn [retry_events];
    rewrite ?slept_app, ?slept_attempt_events; cbn;
    rewrite ?slept_app, ?slept_attempt_events; done.
Qed.

Lemma listing_calls_run w r c k :
  (k <= 2)%nat ->
  listing_calls (retry_events w r c 0 k 5 ++ attempt_events w r c k)
  = reached_upto w r c k.
Proof.
  intros Hk. unfold reached_upto.
  destruct k as [|[|[|k]]]; [| | |lia]; cbn [retry_events seq];
    rewrite ?listing_calls_app, ?listing_calls_cons, ?listing_calls_app,
            ?listing_calls_cons, ?listing_calls_attempt_events;
    rewrite ?filter_cons, ?filter_nil;
    repeat (destruct (reached_call _); cbn); try done.
Qed.

(** The loop always returns, and only counts and traces on its way. *)
Lemma attempts_confined w r c remaining attempt delay s :
  exists data evs,
    attempts w r c remaining attempt delay s = (Ok data, replay evs s).
Proof.
  revert attempt delay s.
  induction remaining as [|remaining IH]; intros attempt delay s.
  - by exists [], [].
  - rewrite attempts_unfold. cbv zeta.
    destruct (failure (attempt_outcome w r c attempt)) as [e|].
    + destruct (_ && _).
      * destruct (IH (S attempt) (delay * 2)
                    (replay [Sleep delay] (replay (attempt_events w r c attempt) s)))
          as (data & evs & ->).
        exists data, (attempt_events w r c attempt ++ [Sleep delay] ++ evs).
        by rewrite !replay_app.
      * by exists [], (attempt_events w r c attempt).
    + by eexists _, _.
Qed.

(** The run whose last attempt is [k]: the earlier ones failed with a
    transient error and were retried. *)
Lemma cell_run w r c k s :
  (k <= 2)%nat ->
  (forall j, (j < k)%nat -> transient_failure (attempt_outcome w r c j)) ->
  k = 2%nat \/ ~ transient_failure (attempt_outcome w r c k) ->
  get_stopped_instances_in_region_compartment w r c s
  = (Ok (listed (attempt_outcome w r c k)),
     replay (retry_events w r c 0 k 5 ++ attempt_events w r c k) s).
Proof.
  intros Hk Hbefore Hlast. unfold get_stopped_instances_in_region_compartment.
  replace max_retries with (k + S (2 - k))%nat by (unfold max_retries; lia).
  rewrite attempts_retries; [|lia|intros j Hj; apply Hbefore; lia].
  rewrite attempts_unfold, replay_app. cbv zeta. cbn [Nat.add].
  destruct (attempt_outcome w r c k) as [e|e|data] eqn:Ho; cbn [failure listed];
    [| |done].
  all: destruct ((k <? max_retries - 1)%nat && is_transient e) eqn:Hretry; [|done].
  all: apply andb_true_iff in Hretry as [Hlt Htr].
  all: apply Nat.ltb_lt in Hlt; unfold max_retries in Hlt.
  all: destruct Hlast as [-> | Hnot]; [lia|].
  all: exfalso; apply Hnot; by exists e.
Qed.

Lemma timeout_is_transient e :
  Str.contains "timeout" (Str.lower (exn_str e)) = true -> is_transient e = true.
Proof. intros H. unfold is_transient. cbn. by rewrite H. Qed.

(** C2, as the code has it.  A cell always returns and touches only
    the call counter and the trace; [api_calls_made] grows by one for
    every attempt that gets as far as the listing call, whether the call
    answers or raises, and not for an attempt whose compute client
    cannot be built.  When attempt [k] is the last one (the third, or
    the first that does not fail with a transient error) the cell
    returns what that attempt listed, nothing if it failed, after
    sleeping 5 and then 10 seconds before the retries.  Two timeouts of
    the listing call followed by one instance give that instance, three
    counted calls and the delays 5 and 10. *)
Theorem cell_retry_spec (w : World) (region compartment_id : string) (s : Lister) :
  let run := get_stopped_instances_in_region_compartment w region compartment_id s in
  let evs := new_events s run.2 in
  let outcome := attempt_outcome w region compartment_id in
  (exists data, run.1 = Ok data)
  /\ trace run.2 = trace s ++ evs
  /\ api_calls_made (stats run.2)
     = api_calls_made (stats s) + Z.of_nat (listing_calls evs)
  /\ (forall k,
        (k <= 2)%nat ->
        (forall j, (j < k)%nat -> transient_failure (outcome j)) ->
        k = 2%nat \/ ~ transient_failure (outcome k) ->
        run.1 = Ok (listed (outcome k))
        /\ (is_Some (failure (outcome k)) -> run.1 = Ok [])
        /\ slept evs = take k [5; 10]
        /\ listing_calls evs = reached_upto w region compartment_id k)
  /\ (forall e0 e1 instance,
        outcome 0%nat = CallFailed e0 ->
        outcome 1%nat = CallFailed e1 ->
        Str.contains "timeout" (Str.lower (exn_str e0)) = true ->
        Str.contains "timeout" (Str.lower (exn_str e1)) = true ->
        outcome 2%nat = Listed [instance] ->
        run.1 = Ok [instance]
        /\ slept evs = [5; 10]
        /\ api_calls_made (stats run.2) = api_calls_made (stats s) + 3).
Proof.
  intros run evs outcome.
  assert (forall k,
    (k <= 2)%nat ->
    (forall j, (j < k)%nat -> transient_failure (outcome j)) ->
    k = 2%nat \/ ~ transient_failure (outcome k) ->
    run.1 = Ok (listed (outcome k))
    /\ (is_Some (failure (outcome k)) -> run.1 = Ok [])
    /\ slept evs = take k [5; 10]
    /\ listing_calls evs = reached_upto w region compartment_id k) as Hlast.
  { intros k Hk Hbefore Hfinal. subst run evs outcome.
    rewrite (cell_run w region compartment_id k s Hk Hbefore Hfinal).
    cbn [fst snd]. rewrite new_events_replay. repeat split.
    - intros [e He]. by destruct (attempt_outcome w region compartment_id k).
    - rewrite slept_app, slept_attempt_events, app_nil_r.
      by apply slept_retry_events.
    - by apply listing_calls_run. }
  destruct (attempts_confined w region compartment_id max_retries 0 5 s)
    as (data & evs0 & Hrun).
  assert (run = (Ok data, replay evs0 s)) as Hrun' by exact Hrun.
  assert (evs = evs0) as Hevs
    by (subst evs; rewrite Hrun'; apply new_events_replay).
  split; [exists data; by rewrite Hrun'|].
  split; [rewrite Hevs, Hrun'; apply trace_replay|].
  assert (api_calls_made (stats run.2)
          = api_calls_made (stats s) + Z.of_nat (listing_calls evs)) as Hapi
    by (rewrite Hevs, Hrun'; apply api_calls_replay).
  split; [exact Hapi|]. split; [exact Hlast|].
  intros e0 e1 instance H0 H1 Ht0 Ht1 H2.
  destruct (Hlast 2%nat) as (Hres & _ & Hslept & Hcalls); [lia| |by left|].
  { intros j Hj. destruct j as [|[|j]]; [| |lia].
    - exists e0. rewrite H0. split; [done|by apply timeout_is_transient].
    - exists e1. rewrite H1. split; [done|by apply timeout_is_transient]. }
  rewrite H2 in Hres. split; [exact Hres|]. split; [exact Hslept|].
  rewrite Hapi, Hcalls. unfold reached_upto. cbn [seq].
  rewrite !filter_cons, filter_nil. fold outcome. rewrite H0, H1, H2. by cbn.
Qed.

Lemma cell_retry_spec_witness :
  let flaky attempt :=
    if (attempt <? 2)%nat
    then Raise (Exn "RequestException" "Read Timeout while listing instances")
    else Ok [Sample.instance "vm1" "2024-01-01T00:00:00Z"] in
  let w := Sample.world (fun _ => Ok Sample.two_regions)
             (fun _ => Ok Sample.dev_compartments)
             (fun _ _ _ => Ok tt) (fun _ _ => flaky) in
  let run := get_stopped_instances_in_region_compartment w
               "us-ashburn-1" "ocid1.compartment.oc1..dev" Sample.fresh in
  run.1 = Ok [Sample.instance "vm1" "2024-01-01T00:00:00Z"]
  /\ slept (new_events Sample.fresh run.2) = [5; 10]
  /\ api_calls_made (stats run.2) = 3.
Proof.
  cbv zeta.
  refine (proj2 (proj2 (proj2 (proj2 (cell_retry_spec _ _ _ Sample.fresh))))
            (Exn "RequestException" "Read Timeout while listing instances")
            (Exn "RequestException" "Read Timeout while listing instances")
            (Sample.instance "vm1" "2024-01-01T00:00:00Z") _ _ _ _ _);
    reflexivity.
Defined.

(** An attempt that fails while the compute client is built is not
    counted: the cell below would list one instance, yet it returns
    none, and [api_calls_made] and the trace stay as they were. *)
Lemma failed_attempt_not_counted :
  let w := Sample.world (fun _ => Ok Sample.two_regions)
             (fun _ => Ok Sample.dev_compartments)
             (fun _ _ _ =>
                Raise (Exn "InvalidPrivateKey"
                         "The provided key is not a private key, or the provided passphrase is incorrect."))
             (fun _ _ _ => Ok [Sample.instance "vm1" "2024-01-01T00:00:00Z"]) in
  let run := get_stopped_instances_in_region_compartment w
               "us-ashburn-1" "ocid1.compartment.oc1..dev" Sample.fresh in
  failure (attempt_outcome w "us-ashburn-1" "ocid1.compartment.oc1..dev" 0)
  = Some (Exn "InvalidPrivateKey"
            "The provided key is not a private key, or the provided passphrase is incorrect.")
  /\ run.1 = Ok []
  /\ api_calls_made (stats run.2) = api_calls_made (stats Sample.fresh)
  /\ trace run.2 = [].
Proof. vm_compute. repeat split. Qed.

(** ** The fan-out scan *)

Lemma attempts_result_any_state w r c remaining attempt delay s s' :
  (attempts w r c remaining attempt delay s).1
  = (attempts w r c remaining attempt delay s').1.
Proof.
  revert attempt delay s s'.
  induction remaining as [|remaining IH]; intros attempt delay s s'; [done|].
  rewrite !attempts_unfold. cbv zeta.
  destruct (failure (attempt_outcome w r c attempt)); [|done].
  destruct (_ && _); [apply IH|done].
Qed.

Lemma cell_returns w t s :
  exists s', get_stopped_instances_in_region_compartment w t.1 t.2 s
             = (Ok (cell_result w t), s')
             /\ tenancy_id s' = tenancy_id s
             /\ compartment_cache s' = compartment_cache s
             /\ region_cache s' = region_cache s.
Proof.
  unfold cell_result, get_stopped_instances_in_region_compartment.
  rewrite (attempts_result_any_state w t.1 t.2 max_retries 0 5 blank s).
  destruct (attempts_confined w t.1 t.2 max_retries 0 5 s) as (data & evs & ->).
  exists (replay evs s). split; [done|].
  clear. revert s. induction evs as [|e evs IH]; intros s; [done|].
  change (replay (e :: evs) s) with (replay evs (record s e)).
  destruct (IH (record s e)) as (-> & -> & ->).
  unfold record. by destruct (is_listing e).
Qed.

Lemma run_tasks_returns w tasks s :
  exists s', map_m (run_task w) tasks s
             = (Ok (map (fun t => (t, cell_result w t)) tasks), s')
             /\ compartment_cache s' = compartment_cache s
             /\ region_cache s' = region_cache s.
Proof.
  revert s. induction tasks as [|t tasks IH]; intros s; [by exists s|].
  destruct (cell_returns w t s) as (s1 & Hcell & _ & Hc1 & Hr1).
  destruct (IH s1) as (s' & Hrest & Hc & Hr).
  exists s'. split; [|by rewrite Hc, Hr].
  cbn [map_m map]. unfold run_task at 1.
  erewrite bind_ok; [|erewrite bind_ok; [reflexivity|exact Hcell]].
  erewrite bind_ok; [reflexivity|exact Hrest].
Qed.

Lemma collect_tagged w t : collect (t, cell_result w t) = tagged w t.
Proof.
  unfold collect, tagged. destruct t as [region c]. cbn [fst].
  by destruct (cell_result w (region, c)).
Qed.

Lemma flat_map_collect w tasks :
  flat_map collect (map (fun t => (t, cell_result w t)) tasks)
  = flat_map (tagged w) tasks.
Proof.
  induction tasks as [|t tasks IH]; [done|].
  cbn [map flat_map]. by rewrite collect_tagged, IH.
Qed.

Lemma length_flat_map_tagged w tasks :
  length (flat_map (tagged w) tasks)
  = sum_list (map (fun t => length (cell_result w t)) tasks).
Proof.
  induction tasks as [|t tasks IH]; [done|].
  cbn [flat_map map]. rewrite length_app, IH. unfold tagged.
  by rewrite length_map.
Qed.

(** The pool: with a positive worker limit the scan is the run of its
    cells; otherwise the constructor of the pool raises before any
    cell is run. *)
Lemma discover_with_pool w regions cids s :
  0 < max_workers s ->
  discover_stopped_instances w regions cids s
  = (do finished <- map_m (run_task w) (cross_product regions cids);
     do_ modify (set_stats
                   (set_found
                      (Z.of_nat
                         (length (flat_map collect (as_completed w finished))))));
     ret (flat_map collect (as_completed w finished))) s.
Proof.
  intros Hpos. unfold discover_stopped_instances, thread_pool_executor.
  unfold bind at 1. unfold gets. unfold bind at 1. unfold lift.
  by rewrite (proj2 (Z.leb_gt _ _) Hpos).
Qed.

Lemma discover_without_pool w regions cids s :
  max_workers s <= 0 ->
  discover_stopped_instances w regions cids s
  = (Raise (Exn "ValueError" "max_workers must be greater than 0"), s).
Proof.
  intros Hneg. unfold discover_stopped_instances, thread_pool_executor.
  unfold bind at 1. unfold gets. unfold bind at 1. unfold lift.
  by rewrite (proj2 (Z.leb_le _ _) Hneg).
Qed.

(** C7: with a pool of at least one worker, whatever order the pool
    hands the futures back in, the scan returns the cells' results,
    each record tagged with its cell's region, every record once: the
    count is the sum of the cells' counts, a failed cell counting for
    nothing. *)
Theorem discover_stopped_instances_spec
    (w : World) (regions compartment_ids : list string) (s : Lister) :
  (forall finished, as_completed w finished ≡ₚ finished) ->
  0 < max_workers s ->
  let tasks := cross_product regions compartment_ids in
  let run := discover_stopped_instances w regions compartment_ids s in
  (forall t s0,
      (get_stopped_instances_in_region_compartment w t.1 t.2 s0).1
      = Ok (cell_result w t))
  /\ exists all_instances,
      run.1 = Ok all_instances
      /\ all_instances ≡ₚ flat_map (tagged w) tasks
      /\ length all_instances
         = sum_list (map (fun t => length (cell_result w t)) tasks)
      /\ Forall (fun instance =>
                   exists t raw,
                     t ∈ tasks /\ raw ∈ cell_result w t
                     /\ instance = Raw.set_region t.1 raw
                     /\ Raw.region instance = Some t.1) all_instances
      /\ stopped_instances_found (stats run.2)
         = Z.of_nat (length all_instances).
Proof.
  intros Hperm Hpool tasks run. split.
  { intros t s0. by destruct (cell_returns w t s0) as (s' & -> & _). }
  destruct (run_tasks_returns w tasks s) as (s1 & Hrun & _).
  exists (flat_map collect
            (as_completed w (map (fun t => (t, cell_result w t)) tasks))).
  assert (flat_map collect
            (as_completed w (map (fun t => (t, cell_result w t)) tasks))
          ≡ₚ flat_map (tagged w) tasks) as Hall.
  { rewrite <- flat_map_collect. apply Permutation_flat_map, Hperm. }
  assert (run = (Ok (flat_map collect
                       (as_completed w (map (fun t => (t, cell_result w t)) tasks))),
                 set_stats
                   (set_found
                      (Z.of_nat
                         (length
                            (flat_map collect
                               (as_completed w
                                  (map (fun t => (t, cell_result w t)) tasks))))))
                   s1)) as ->.
  { subst run. rewrite discover_with_pool by done. fold tasks.
    erewrite bind_ok; [|exact Hrun]. reflexivity. }
  cbn [fst snd]. split; [done|]. split; [exact Hall|]. split.
  { rewrite Hall. apply length_flat_map_tagged. }
  split; [|done].
  rewrite Forall_forall. intros instance Hin.
  rewrite Hall in Hin. apply list_elem_of_In, in_flat_map in Hin as (t & Ht & Hin).
  unfold tagged in Hin. apply in_map_iff in Hin as (raw & <- & Hraw).
  exists t, raw. by rewrite !list_elem_of_In.
Qed.

Lemma discover_stopped_instances_spec_witness :
  let flaky (attempt : nat) :=
    if (attempt <? 2)%nat
    then Raise (Exn "RequestException" "Read Timeout while listing instances")
    else Ok [Sample.instance "vm1" "2024-01-01T00:00:00Z"] in
  let w := Sample.world (fun _ => Ok Sample.two_regions)
             (fun _ => Ok Sample.dev_compartments)
             (fun _ _ _ => Ok tt)
             (fun region c attempt =>
                if String.eqb region "us-ashburn-1" && String.eqb c "c2"
                then flaky attempt else Ok []) in
  let run := discover_stopped_instances w
               ["eu-frankfurt-1"; "us-ashburn-1"] ["c1"; "c2"; "c3"] Sample.fresh in
  (forall finished, as_completed w finished ≡ₚ finished)
  /\ 0 < max_workers Sample.fresh
  /\ (exists all_instances,
        run.1 = Ok all_instances /\ length all_instances = 1%nat)
  /\ api_calls_made (stats run.2) = 8.
Proof.
  cbv zeta.
  assert (forall finished : list (task * list Raw.t), rev finished ≡ₚ finished)
    as Hperm by (intros finished; symmetry; apply Permutation_rev).
  assert (0 < max_workers Sample.fresh) as Hpool by reflexivity.
  split; [exact Hperm|]. split; [exact Hpool|]. split; [|vm_compute; reflexivity].
  destruct (discover_stopped_instances_spec
              (Sample.world (fun _ => Ok Sample.two_regions)
                 (fun _ => Ok Sample.dev_compartments)
                 (fun _ _ _ => Ok tt)
                 (fun region c attempt =>
                    if String.eqb region "us-ashburn-1" && String.eqb c "c2"
                    then (if (attempt <? 2)%nat
                          then Raise (Exn "RequestException"
                                        "Read Timeout while listing instances")
                          else Ok [Sample.instance "vm1" "2024-01-01T00:00:00Z"])
                    else Ok []))
              ["eu-frankfurt-1"; "us-ashburn-1"] ["c1"; "c2"; "c3"]
              Sample.fresh Hperm Hpool)
    as (_ & all_instances & Hrun & _ & Hlen & _).
  exists all_instances. split; [exact Hrun|].
  rewrite Hlen. vm_compute. reflexivity.
Defined.

(** ** The result processor *)

Lemma insert_desc_perm x l : insert_desc x l ≡ₚ x :: l.
Proof.
  induction l as [|y r IH]; cbn; [done|].
  destruct (key y <=? key x); [done|].
  rewrite IH. apply perm_swap.
Qed.

Lemma sort_desc_perm l : sort_desc l ≡ₚ l.
Proof.
  induction l as [|x l IH]; cbn; [done|].
  fold (sort_desc l). by rewrite insert_desc_perm, IH.
Qed.

Lemma insert_desc_descending x l :
  descending l -> descending (insert_desc x l).
Proof.
  unfold descending. induction 1 as [|y r Hr IH Hy]; cbn.
  - by repeat constructor.
  - destruct (Z.leb_spec (key y) (key x)) as [Hle|Hgt].
    + constructor; [by constructor|].
      constructor; [done|].
      eapply Forall_impl; [exact Hy|]. cbn. intros z Hz. lia.
    + constructor; [done|].
      rewrite insert_desc_perm. constructor; [lia|done].
Qed.

Lemma sort_desc_descending l : descending (sort_desc l).
Proof.
  induction l as [|x l IH]; cbn; [constructor|].
  by apply insert_desc_descending.
Qed.

Lemma insert_desc_filter x l k :
  filter (fun r => key r = k) (insert_desc x l)
  = filter (fun r => key r = k) (x :: l).
Proof.
  induction l as [|y r IH]; cbn [insert_desc]; [done|].
  destruct (Z.leb_spec (key y) (key x)) as [Hle|Hgt]; [done|].
  rewrite (filter_cons _ y), IH, !filter_cons.
  destruct (decide (key y = k)) as [Hy|Hy]; [|done].
  destruct (decide (key x = k)) as [Hx|Hx]; [lia|done].
Qed.

Lemma sort_desc_stable l : stable_wrt l (sort_desc l).
Proof.
  intros k. induction l as [|x l IH]; [done|].
  cbn [sort_desc fold_right]. fold (sort_desc l).
  by rewrite insert_desc_filter, !filter_cons, IH.
Qed.

Lemma process_needs_id w cache instance region :
  Raw.id instance = None ->
  to_option (process_stopped_instance w cache instance region) = None.
Proof.
  intros Hid. unfold process_stopped_instance, attribute. rewrite Hid.
  destruct (Raw.compartment_id instance); [|done].
  destruct (Raw.time_created instance); [|done].
  by destruct (Raw.display_name instance).
Qed.

Lemma mapped_cons w cache instance rest :
  mapped w cache (instance :: rest)
  = match to_option (process_stopped_instance w cache instance
                       (getattr (Raw.region instance) "unknown")) with
    | Some r => r :: mapped w cache rest
    | None => mapped w cache rest
    end.
Proof. reflexivity. Qed.

(** While every record has a readable [id], the loop keeps the mapped
    records of at least [min_days] days and skips the others. *)
Lemma process_loop_ok w cache min_days instances :
  Forall (fun i => is_Some (Raw.id i)) instances ->
  process_loop w cache min_days instances
  = Ok (filter (fun r => min_days <= key r) (mapped w cache instances)).
Proof.
  induction 1 as [|instance rest [iid Hid] _ IH]; [done|].
  cbn [process_loop]. rewrite mapped_cons.
  destruct (process_stopped_instance w cache instance _) as [res|e];
    cbn [to_option].
  - rewrite IH. cbn [mbind result_bind rbind]. rewrite filter_cons.
    destruct (Z.leb_spec min_days (key res)); by case_decide; try lia.
  - by rewrite Hid.
Qed.

(** A record without [id] makes the loop raise: the handler reads
    [instance.id] for its warning. *)
Lemma process_loop_raises w cache min_days instances :
  Exists (fun i => Raw.id i = None) instances ->
  process_loop w cache min_days instances = Raise (Exn "AttributeError" "id").
Proof.
  induction 1 as [instance rest Hid|instance rest _ IH]; cbn [process_loop].
  - pose proof (process_needs_id w cache instance
                  (getattr (Raw.region instance) "unknown") Hid) as Hnone.
    destruct (process_stopped_instance w cache instance _); [done|].
    by rewrite Hid.
  - destruct (process_stopped_instance w cache instance _) as [res|e]; cbn.
    + by rewrite IH.
    + destruct (Raw.id instance) eqn:Hid; cbn; [exact IH|done].
Qed.

(** What [process_instances] returns on records that all have an
    [id]: the mapped records of at least [min_days] days, descending by
    age, ties in input order; records that cannot be processed are
    left out. *)
Lemma process_instances_sorted w instances min_days s :
  Forall (fun i => is_Some (Raw.id i)) instances ->
  let kept := filter (fun r => min_days <= key r)
                     (mapped w (compartment_cache s) instances) in
  exists results,
    process_instances w instances min_days s = (Ok results, s)
    /\ results ≡ₚ kept
    /\ descending results
    /\ stable_wrt kept results.
Proof.
  intros Hids kept. exists (sort_desc kept). split.
  - unfold process_instances. run_monad.
    by rewrite (process_loop_ok _ _ _ _ Hids).
  - split; [apply sort_desc_perm|].
    split; [apply sort_desc_descending|apply sort_desc_stable].
Qed.

Lemma elem_of_mapped w cache instances rep :
  rep ∈ mapped w cache instances <->
  exists instance,
    instance ∈ instances
    /\ process_stopped_instance w cache instance
         (getattr (Raw.region instance) "unknown") = Ok rep.
Proof.
  unfold mapped. rewrite list_elem_of_omap. split.
  - intros (instance & Hin & Hrep). exists instance. split; [done|].
    by destruct (process_stopped_instance _ _ _ _) as [r|]; simplify_eq/=.
  - intros (instance & Hin & Hrep). exists instance. split; [done|].
    by rewrite Hrep.
Qed.





(** ** The whole run *)

(** Whenever [list_stopped_instances] takes one of its "nothing found"
    exits, the four-name unpacking in [main] raises and the run is
    reported as failed. *)
Lemma main_nothing_found w args lister results csv html s :
  Str.truthy (arg_skip_regions args) = false ->
  makedirs w (arg_output_path args) = Ok tt ->
  new_lister w args = Some lister ->
  list_stopped_instances w (comma_list (arg_regions args))
    (comma_list (arg_compartments args))
    (arg_min_days args) (arg_output_path args) lister
  = (Ok (Tuple3 results csv html), s) ->
  main w (Parsed args)
  = (ScanFailed (Exn "ValueError" "not enough values to unpack (expected 4, got 3)"),
     Some s).
Proof.
  intros Hskip Hdirs Hnew Hrun. unfold main.
  rewrite Hskip, Hdirs, Hnew.
  erewrite bind_ok; [|exact Hrun]. reflexivity.
Qed.

(** C1 on an empty scan universe: with no region in "READY" status the
    scan has no cell, [list_stopped_instances] logs that no stopped
    instance was found and returns three values, and [main], which
    unpacks four, ends with "Scan failed" and exit code 1. *)
Theorem main_fails_on_empty_universe :
  let w := Sample.world (fun _ => Ok [mk_subscription "uk-london-1" "IN_PROGRESS"])
             (fun _ => Ok Sample.dev_compartments)
             (fun _ _ _ => Ok tt) (fun _ _ _ => Ok []) in
  let run := main w (Parsed Sample.args) in
  run.1 = ScanFailed (Exn "ValueError" "not enough values to unpack (expected 4, got 3)")
  /\ exit_code run.1 = 1
  /\ exists s,
       run.2 = Some s
       /\ regions_scanned (stats s) = 0
       /\ listing_calls (trace s) = 0%nat
       /\ last (trace s) = Some LogNoStoppedInstances.
Proof.
  cbv zeta. split; [vm_compute; reflexivity|]. split; [vm_compute; reflexivity|].
  eexists. split; [vm_compute; reflexivity|]. repeat split.
Qed.

(** C9, as the code has it.  [parse_args] comes first: [-h] or
    [--help] ends the run with code 0 and an invalid argument with
    code 2.  Once the arguments are parsed: when [--skip-regions]
    carries a non-empty value, [main] reads its local [regions] before
    any assignment and ends with an uncaught [UnboundLocalError] and
    exit code 1; no lister has been created and nothing has been
    scanned, whatever the other arguments and the environment are.
    With the empty string as its value the block is not entered, and
    the run is the one without the flag. *)
Theorem main_skip_regions_unbound (w : World) :
  (forall args skip,
      arg_skip_regions args = Some skip ->
      skip <> "" ->
      main w (Parsed args) = (Uncaught (Exn "UnboundLocalError" "regions"), None)
      /\ exit_code (main w (Parsed args)).1 = 1)
  /\ (forall args,
        arg_skip_regions args = Some "" ->
        arg_skip_regions (without_skip_regions args) = None
        /\ main w (Parsed args) = main w (Parsed (without_skip_regions args)))
  /\ (main w Help = (HelpExit, None) /\ exit_code (main w Help).1 = 0)
  /\ (main w Invalid = (UsageExit, None) /\ exit_code (main w Invalid).1 = 2).
Proof.
  split; [|split; [|done]].
  - intros args skip Hskip Hne.
    assert (main w (Parsed args)
            = (Uncaught (Exn "UnboundLocalError" "regions"), None)) as Hmain.
    { unfold main. rewrite Hskip. destruct skip as [|c skip]; [done|]. reflexivity. }
    split; [exact Hmain|]. by rewrite Hmain.
  - intros args Hskip. split; [done|].
    destruct args as [min_days comps regs ten prof out workers skip tmo].
    cbn in Hskip. subst skip. reflexivity.
Qed.

Lemma main_skip_regions_unbound_witness :
  let w := Sample.world (fun _ => Ok Sample.two_regions)
             (fun _ => Ok Sample.dev_compartments)
             (fun _ _ _ => Ok tt) (fun _ _ _ => Ok []) in
  let args := mk_args 30 None None None "DEFAULT" "." 20 (Some "uk-london-1") 300 in
  arg_skip_regions args = Some "uk-london-1"
  /\ main w (Parsed args) = (Uncaught (Exn "UnboundLocalError" "regions"), None)
  /\ exit_code (main w (Parsed args)).1 = 1.
Proof.
  cbv zeta. split; [reflexivity|].
  apply (proj1 (main_skip_regions_unbound
                  (Sample.world (fun _ => Ok Sample.two_regions)
                     (fun _ => Ok Sample.dev_compartments)
                     (fun _ _ _ => Ok tt) (fun _ _ _ => Ok [])))
           _ "uk-london-1"); [reflexivity|discriminate].
Defined.

(** With [--skip-regions ""] the flag is supplied, the block is not
    entered, and the run scans and completes. *)
Lemma main_skip_regions_empty_value :
  let w := Sample.world (fun _ => Ok Sample.two_regions)
             (fun _ => Ok Sample.dev_compartments)
             (fun _ _ _ => Ok tt)
             (fun _ _ _ => Ok [Sample.instance "vm1" "2024-01-01T00:00:00Z"]) in
  let args := mk_args 0 None None None "DEFAULT" "." 20 (Some "") 300 in
  let run := main w (Parsed args) in
  arg_skip_regions args = Some ""
  /\ run.1 = Completed
  /\ exit_code run.1 = 0
  /\ exists s, run.2 = Some s /\ listing_calls (trace s) = 4%nat.
Proof.
  cbv zeta. split; [reflexivity|]. split; [vm_compute; reflexivity|].
  split; [vm_compute; reflexivity|].
  eexists. split; [vm_compute; reflexivity|]. vm_compute. reflexivity.
Qed.

(** * Further properties *)

(** ** The retry loop: what it costs at most *)

Lemma transient_failure_dec o : {transient_failure o} + {~ transient_failure o}.
Proof.
  destruct (failure o) as [e|] eqn:Hf.
  - destruct (is_transient e) eqn:Ht.
    + left. by exists e.
    + right. intros (e' & He' & Ht'). congruence.
  - right. intros (e' & He' & _). congruence.
Qed.

(** Every run of a cell has a last attempt among the first three. *)
Lemma cell_final_attempt w r c :
  exists k, (k <= 2)%nat
    /\ (forall j, (j < k)%nat -> transient_failure (attempt_outcome w r c j))
    /\ (k = 2%nat \/ ~ transient_failure (attempt_outcome w r c k)).
Proof.
  destruct (transient_failure_dec (attempt_outcome w r c 0)) as [H0|H0].
  - destruct (transient_failure_dec (attempt_outcome w r c 1)) as [H1|H1].
    + exists 2%nat. split; [lia|]. split; [|by left].
      intros [|[|j]] Hj; [done|done|lia].
    + exists 1%nat. split; [lia|]. split; [|by right].
      intros [|j] Hj; [done|lia].
  - exists 0%nat. split; [lia|]. split; [|by right]. intros j Hj. lia.
Qed.

Lemma reached_upto_le w r c k : (reached_upto w r c k <= S k)%nat.
Proof.
  unfold reached_upto.
  etrans; [apply length_filter|]. by rewrite length_seq.
Qed.

Lemma cell_events_kind w r c k e :
  e ∈ retry_events w r c 0 k 5 ++ attempt_events w r c k ->
  e = CallListInstances r c \/ exists d, e = Sleep d.
Proof.
  assert (forall j e, e ∈ attempt_events w r c j -> e = CallListInstances r c) as Hatt.
  { intros j e'. unfold attempt_events. destruct (reached_call _).
    - by intros ->%list_elem_of_singleton.
    - by intros ?%elem_of_nil. }
  assert (forall n a d e, e ∈ retry_events w r c a n d ->
            e = CallListInstances r c \/ exists d', e = Sleep d') as Hretry.
  { induction n as [|n IH]; intros a d e'; cbn [retry_events].
    - by intros ?%elem_of_nil.
    - rewrite elem_of_app, elem_of_cons.
      intros [Hin|[->|Hin]]; [left; by eapply Hatt|right; by eexists|by eapply IH]. }
  rewrite elem_of_app. intros [Hin|Hin]; [by eapply Hretry|left; by eapply Hatt].
Qed.

(** The events of a cell's run, whatever the state it starts from. *)
Lemma cell_trace w r c s :
  exists evs,
    get_stopped_instances_in_region_compartment w r c s
    = (Ok (cell_result w (r, c)), replay evs s)
    /\ (listing_calls evs <= 3)%nat
    /\ slept evs `prefix_of` [5; 10]
    /\ (forall e, e ∈ evs -> e = CallListInstances r c \/ exists d, e = Sleep d).
Proof.
  destruct (cell_final_attempt w r c) as (k & Hk & Hbefore & Hlast).
  exists (retry_events w r c 0 k 5 ++ attempt_events w r c k).
  split; [|split; [|split]].
  - rewrite (cell_run w r c k s Hk Hbefore Hlast). f_equal.
    unfold cell_result. cbn [fst snd].
    by rewrite (cell_run w r c k blank Hk Hbefore Hlast).
  - rewrite listing_calls_run by done.
    etrans; [apply reached_upto_le|lia].
  - rewrite slept_app, slept_attempt_events, app_nil_r, slept_retry_events by done.
    apply prefix_take.
  - apply cell_events_kind.
Qed.

Lemma replay_keeps evs s :
  tenancy_id (replay evs s) = tenancy_id s
  /\ compartment_cache (replay evs s) = compartment_cache s
  /\ region_cache (replay evs s) = region_cache s
  /\ regions_scanned (stats (replay evs s)) = regions_scanned (stats s)
  /\ compartments_scanned (stats (replay evs s)) = compartments_scanned (stats s)
  /\ stopped_instances_found (stats (replay evs s))
     = stopped_instances_found (stats s).
Proof.
  revert s. induction evs as [|e evs IH]; intros s; [done|].
  change (replay (e :: evs) s) with (replay evs (record s e)).
  destruct (IH (record s e)) as (-> & -> & -> & -> & -> & ->).
  unfold record. by destruct (is_listing e).
Qed.

(** X1: whatever the environment does, one scan cell issues at most
    three instance listings, sleeps 5 and then 10 seconds at most (so
    never more than 15 seconds in all), does nothing else to the
    outside, and leaves the caches and the other counters alone. *)
Theorem cell_effort_bounded (w : World) (region compartment_id : string) (s : Lister) :
  let run := get_stopped_instances_in_region_compartment w region compartment_id s in
  let evs := new_events s run.2 in
  (listing_calls evs <= 3)%nat
  /\ slept evs `prefix_of` [5; 10]
  /\ (forall e, e ∈ evs ->
        e = CallListInstances region compartment_id \/ exists d, e = Sleep d)
  /\ compartment_cache run.2 = compartment_cache s
  /\ region_cache run.2 = region_cache s
  /\ regions_scanned (stats run.2) = regions_scanned (stats s)
  /\ compartments_scanned (stats run.2) = compartments_scanned (stats s)
  /\ stopped_instances_found (stats run.2) = stopped_instances_found (stats s).
Proof.
  destruct (cell_trace w region compartment_id s) as (evs & Hrun & Hcalls & Hslept & Hkind).
  cbv zeta. rewrite Hrun. cbn [snd]. rewrite new_events_replay.
  destruct (replay_keeps evs s) as (_ & Hc & Hr & Hrs & Hcs & Hf).
  by repeat split.
Qed.

(** ** The scan: how many cells, how many calls *)

Lemma cross_product_cons r (regions compartment_ids : list string) :
  cross_product (r :: regions) compartment_ids
  = map (pair r) compartment_ids ++ cross_product regions compartment_ids.
Proof.
  unfold cross_product. cbn [mbind list_bind]. f_equal.
Qed.

Lemma cross_product_length (regions compartment_ids : list string) :
  length (cross_product regions compartment_ids)
  = (length regions * length compartment_ids)%nat.
Proof.
  induction regions as [|r regions IH]; [done|].
  rewrite cross_product_cons, length_app, length_map. cbn [length Nat.mul].
  f_equal. exact IH.
Qed.

Lemma elem_of_cross_product (regions compartment_ids : list string) r c :
  (r, c) ∈ cross_product regions compartment_ids
  <-> r ∈ regions /\ c ∈ compartment_ids.
Proof.
  unfold cross_product. rewrite list_elem_of_bind. split.
  - intros (r' & Hin & Hr). apply list_elem_of_bind in Hin as (c' & Hin & Hc).
    apply list_elem_of_singleton in Hin. by simplify_eq.
  - intros [Hr Hc]. exists r. split; [|done].
    apply list_elem_of_bind. exists c. split; [|done]. by apply list_elem_of_singleton.
Qed.

Lemma run_tasks_trace w tasks s :
  exists evs,
    map_m (run_task w) tasks s
    = (Ok (map (fun t => (t, cell_result w t)) tasks), replay evs s)
    /\ (listing_calls evs <= 3 * length tasks)%nat
    /\ (forall e, e ∈ evs ->
          (exists t, t ∈ tasks /\ e = CallListInstances t.1 t.2)
          \/ exists d, e = Sleep d).
Proof.
  revert s. induction tasks as [|[r c] tasks IH]; intros s.
  - exists []. split; [done|]. split; [done|]. by intros e ?%elem_of_nil.
  - destruct (cell_trace w r c s) as (evs1 & Hcell & Hcalls1 & _ & Hkind1).
    destruct (IH (replay evs1 s)) as (evs2 & Hrest & Hcalls2 & Hkind2).
    exists (evs1 ++ evs2). split; [|split].
    + cbn [map_m map]. unfold run_task at 1.
      erewrite bind_ok; [|erewrite bind_ok; [reflexivity|exact Hcell]].
      erewrite bind_ok; [|exact Hrest]. by rewrite replay_app.
    + rewrite listing_calls_app. cbn [length]. lia.
    + intros e [Hin|Hin]%elem_of_app.
      * destruct (Hkind1 e Hin) as [->|Hs]; [left|by right].
        exists (r, c). split; [by left|done].
      * destruct (Hkind2 e Hin) as [(t & Ht & ->)|Hs]; [left|by right].
        exists t. split; [by right|done].
Qed.

Lemma new_events_same s : new_events s s = [].
Proof. unfold new_events. apply drop_all. Qed.

(** X2: a scan has one cell per pair of a region and a compartment; it
    issues at most three listings per cell and only listings of its own
    cells; [api_calls_made] grows by exactly the number of listings
    issued; with a pool of at least one worker the scan never raises;
    with a worker limit that is not positive it raises [ValueError]
    before any cell is run; in both cases it leaves both caches and
    the two "scanned" counters as they were. *)
Theorem discover_stopped_instances_accounting
    (w : World) (regions compartment_ids : list string) (s : Lister) :
  let tasks := cross_product regions compartment_ids in
  let run := discover_stopped_instances w regions compartment_ids s in
  let evs := new_events s run.2 in
  length tasks = (length regions * length compartment_ids)%nat
  /\ (forall r c, (r, c) ∈ tasks <-> r ∈ regions /\ c ∈ compartment_ids)
  /\ (0 < max_workers s -> exists all_instances, run.1 = Ok all_instances)
  /\ (max_workers s <= 0 ->
      run = (Raise (Exn "ValueError" "max_workers must be greater than 0"), s))
  /\ (listing_calls evs <= 3 * (length regions * length compartment_ids))%nat
  /\ (forall r c, CallListInstances r c ∈ evs -> r ∈ regions /\ c ∈ compartment_ids)
  /\ api_calls_made (stats run.2)
     = api_calls_made (stats s) + Z.of_nat (listing_calls evs)
  /\ compartment_cache run.2 = compartment_cache s
  /\ region_cache run.2 = region_cache s
  /\ regions_scanned (stats run.2) = regions_scanned (stats s)
  /\ compartments_scanned (stats run.2) = compartments_scanned (stats s).
Proof.
  intros tasks run evs.
  split; [apply cross_product_length|].
  split; [apply elem_of_cross_product|].
  destruct (decide (0 < max_workers s)) as [Hpool|Hnone].
  - destruct (run_tasks_trace w tasks s) as (evs0 & Hrun & Hcalls & Hkind).
    assert (exists all_instances,
              run = (Ok all_instances,
                     set_stats (set_found (Z.of_nat (length all_instances)))
                               (replay evs0 s))) as (all_instances & Hrun').
    { eexists. subst run. rewrite discover_with_pool by done. fold tasks.
      erewrite bind_ok; [|exact Hrun]. reflexivity. }
    assert (evs = evs0) as ->.
    { subst evs. rewrite Hrun'. cbn [snd]. unfold new_events.
      change (trace (set_stats _ (replay evs0 s))) with (trace (replay evs0 s)).
      by rewrite trace_replay, drop_app_length. }
    destruct (replay_keeps evs0 s) as (_ & Hc & Hr & Hrs & Hcs & _).
    split; [intros _; exists all_instances; by rewrite Hrun'|].
    split; [lia|].
    split; [by rewrite <- cross_product_length|].
    split.
    { intros r c Hin. destruct (Hkind _ Hin) as [(t & Ht & Heq)|(d & Heq)]; [|done].
      injection Heq as -> ->. apply elem_of_cross_product. by destruct t. }
    rewrite Hrun'. cbn [snd].
    split; [|done].
    change (api_calls_made (stats (set_stats _ (replay evs0 s))))
      with (api_calls_made (stats (replay evs0 s))).
    apply api_calls_replay.
  - assert (run = (Raise (Exn "ValueError" "max_workers must be greater than 0"), s))
      as Hrun by (subst run; apply discover_without_pool; lia).
    assert (evs = []) as ->
      by (subst evs; rewrite Hrun; apply new_events_same).
    split; [lia|]. split; [done|]. split; [cbn; lia|].
    split; [by intros r c ?%elem_of_nil|].
    rewrite Hrun. cbn. repeat split. lia.
Qed.

Lemma discover_stopped_instances_accounting_witness :
  let w := Sample.world (fun _ => Ok Sample.two_regions)
             (fun _ => Ok Sample.dev_compartments)
             (fun _ _ _ => Ok tt)
             (fun _ _ _ => Ok [Sample.instance "vm1" "2024-01-01T00:00:00Z"]) in
  let no_worker := mk_lister Sample.tenancy 0 (mk_stats 0 0 0 0) [] [] [] in
  (0 < max_workers Sample.fresh
   /\ exists all_instances,
        (discover_stopped_instances w ["us-ashburn-1"] ["c1"] Sample.fresh).1
        = Ok all_instances)
  /\ max_workers no_worker <= 0
  /\ discover_stopped_instances w ["us-ashburn-1"] ["c1"] no_worker
     = (Raise (Exn "ValueError" "max_workers must be greater than 0"), no_worker).
Proof.
  cbv zeta. split; [split; [reflexivity|]|split; [discriminate|]].
  - apply (discover_stopped_instances_accounting
             (Sample.world (fun _ => Ok Sample.two_regions)
                (fun _ => Ok Sample.dev_compartments)
                (fun _ _ _ => Ok tt)
                (fun _ _ _ => Ok [Sample.instance "vm1" "2024-01-01T00:00:00Z"]))
             ["us-ashburn-1"] ["c1"] Sample.fresh).
    reflexivity.
  - apply (discover_stopped_instances_accounting
             (Sample.world (fun _ => Ok Sample.two_regions)
                (fun _ => Ok Sample.dev_compartments)
                (fun _ _ _ => Ok tt)
                (fun _ _ _ => Ok [Sample.instance "vm1" "2024-01-01T00:00:00Z"]))
             ["us-ashburn-1"] ["c1"]
             (mk_lister Sample.tenancy 0 (mk_stats 0 0 0 0) [] [] [])).
    discriminate.
Defined.

(** ** The processor: one record *)

Lemma process_stopped_instance_inv w cache instance region rep :
  process_stopped_instance w cache instance region = Ok rep ->
  exists cid created name iid shape,
    Raw.compartment_id instance = Some cid
    /\ Raw.time_created instance = Some created
    /\ Raw.display_name instance = Some name
    /\ Raw.id instance = Some iid
    /\ Raw.shape instance = Some shape
    /\ rep = StoppedInstance.mk name iid shape region
               (getattr (Raw.availability_domain instance) "Unknown")
               (Dict.get_default cid "Unknown" cache) cid created
               (Datetime.calculate_days_since_created (fromisoformat w) (clock w) created)
               (Tags.get_owner_from_tags
                  (getattr (Raw.defined_tags instance) (Some []))
                  (getattr (Raw.freeform_tags instance) (Some ∅)))
               (getattr (Raw.fault_domain instance) "Unknown")
               (getattr (Raw.image_id instance) "Unknown").
Proof.
  unfold process_stopped_instance, attribute.
  destruct (Raw.compartment_id instance) as [cid|]; [|done].
  destruct (Raw.time_created instance) as [created|]; [|done].
  destruct (Raw.display_name instance) as [name|]; [|done].
  destruct (Raw.id instance) as [iid|]; [|done].
  destruct (Raw.shape instance) as [shape|]; [|done].
  cbn. intros [= <-]. by exists cid, created, name, iid, shape.
Qed.

(** X3: a record is turned into a report exactly when it has the five
    attributes [compartment_id], [time_created], [display_name], [id]
    and [shape]; the other attributes default to "Unknown".  Every
    report carries the region it was asked for, an age that is not
    negative, and as compartment name the cache entry of its
    compartment id, "Unknown" when the cache has none. *)
Theorem process_stopped_instance_report
    (w : World) (cache : Dict.t) (instance : Raw.t) (region : string) :
  ((exists rep, process_stopped_instance w cache instance region = Ok rep)
   <-> is_Some (Raw.compartment_id instance)
       /\ is_Some (Raw.time_created instance)
       /\ is_Some (Raw.display_name instance)
       /\ is_Some (Raw.id instance)
       /\ is_Some (Raw.shape instance))
  /\ forall rep,
      process_stopped_instance w cache instance region = Ok rep ->
      StoppedInstance.region rep = region
      /\ 0 <= StoppedInstance.days_since_created rep
      /\ Raw.id instance = Some (StoppedInstance.instance_id rep)
      /\ Raw.compartment_id instance = Some (StoppedInstance.compartment_id rep)
      /\ StoppedInstance.compartment_name rep
         = default "Unknown" (Dict.get (StoppedInstance.compartment_id rep) cache)
      /\ StoppedInstance.availability_domain rep
         = default "Unknown" (Raw.availability_domain instance)
      /\ StoppedInstance.fault_domain rep
         = default "Unknown" (Raw.fault_domain instance)
      /\ StoppedInstance.image_id rep = default "Unknown" (Raw.image_id instance).
Proof.
  split.
  - split.
    + intros (rep & Hrep).
      apply process_stopped_instance_inv in Hrep
        as (cid & created & name & iid & shape & -> & -> & -> & -> & -> & _).
      by repeat split.
    + intros ([cid Hc] & [created Ht] & [name Hn] & [iid Hi] & [shape Hs]).
      unfold process_stopped_instance, attribute.
      rewrite Hc, Ht, Hn, Hi, Hs. by eexists.
  - intros rep Hrep.
    apply process_stopped_instance_inv in Hrep
      as (cid & created & name & iid & shape & Hc & Ht & Hn & Hi & Hs & ->).
    cbn. repeat split; try done. apply calculate_days_nonneg.
Qed.

(** ** The processor: a batch *)

Lemma length_mapped w cache instances :
  (length (mapped w cache instances) <= length instances)%nat.
Proof.
  induction instances as [|instance rest IH]; [done|].
  rewrite mapped_cons. destruct (to_option _); cbn [length]; lia.
Qed.

(** X4: a batch fails exactly when one of its records has no [id]: the
    error is then the [AttributeError] raised inside the handler, and
    in every case the lister's state is left as it was. *)
Theorem process_instances_raises_iff
    (w : World) (instances : list Raw.t) (min_days : Z) (s : Lister) :
  let run := process_instances w instances min_days s in
  run.2 = s
  /\ ((exists e, run.1 = Raise e) <-> Exists (fun i => Raw.id i = None) instances)
  /\ (forall e, run.1 = Raise e -> e = Exn "AttributeError" "id").
Proof.
  cbv zeta. unfold process_instances. run_monad.
  destruct (decide (Exists (fun i => Raw.id i = None) instances)) as [Hex|Hall].
  - rewrite (process_loop_raises _ _ _ _ Hex). cbn.
    split; [done|]. split; [|by intros e [= <-]].
    split; [done|]. intros _. by eexists.
  - assert (Forall (fun i => is_Some (Raw.id i)) instances) as Hids.
    { apply Forall_forall. intros i Hin.
      destruct (Raw.id i) eqn:Hid; [done|].
      exfalso. apply Hall, Exists_exists. by exists i. }
    rewrite (process_loop_ok _ _ _ _ Hids). cbn.
    split; [done|]. split; [|done].
    split; [by intros (e & ?)|done].
Qed.

(** X5: when every record has an [id], the batch returns, without
    touching the state, the reports of the records that can be
    processed and are at least [min_days] days old: each of them once,
    oldest first, ties in input order.  Every report returned is the
    report of a record of the batch, is at least [min_days] and at
    least 0 days old, and there are never more reports than records. *)
Theorem process_instances_report
    (w : World) (instances : list Raw.t) (min_days : Z) (s : Lister) :
  Forall (fun i => is_Some (Raw.id i)) instances ->
  let kept := filter (fun r => min_days <= key r)
                     (mapped w (compartment_cache s) instances) in
  exists results,
    process_instances w instances min_days s = (Ok results, s)
    /\ results ≡ₚ kept
    /\ descending results
    /\ stable_wrt kept results
    /\ (length results <= length instances)%nat
    /\ forall rep, rep ∈ results ->
         min_days <= key rep /\ 0 <= key rep
         /\ exists instance,
              instance ∈ instances
              /\ process_stopped_instance w (compartment_cache s) instance
                   (getattr (Raw.region instance) "unknown") = Ok rep.
Proof.
  intros Hids kept. exists (sort_desc kept).
  split.
  { unfold process_instances. run_monad. by rewrite (process_loop_ok _ _ _ _ Hids). }
  split; [apply sort_desc_perm|].
  split; [apply sort_desc_descending|].
  split; [apply sort_desc_stable|].
  split.
  { rewrite sort_desc_perm. subst kept.
    etrans; [apply length_filter|apply length_mapped]. }
  intros rep Hin. rewrite sort_desc_perm in Hin. subst kept.
  apply list_elem_of_filter in Hin as [Hmin Hin].
  apply elem_of_mapped in Hin as (instance & Hin & Hrep).
  split; [done|]. split; [|by exists instance].
  apply process_stopped_instance_inv in Hrep as (? & ? & ? & ? & ? & _ & _ & _ & _ & _ & ->).
  apply calculate_days_nonneg.
Qed.

(** *** Raising the threshold *)

Lemma insert_desc_front x l :
  Forall (fun z => key z <= key x) l -> insert_desc x l = x :: l.
Proof.
  destruct 1 as [|y r Hy _]; [done|]. cbn [insert_desc].
  by destruct (Z.leb_spec (key y) (key x)); [|lia].
Qed.

Lemma insert_desc_filter_pred (P : StoppedInstance.t -> Prop)
    `{forall r, Decision (P r)} x l :
  descending l ->
  filter P (insert_desc x l)
  = if decide (P x) then insert_desc x (filter P l) else filter P l.
Proof.
  unfold descending. induction 1 as [|y r Hr IH Hy].
  - cbn [insert_desc]. rewrite filter_cons, filter_nil. by case_decide.
  - cbn [insert_desc]. destruct (Z.leb_spec (key y) (key x)) as [Hle|Hgt].
    + rewrite (filter_cons _ x). case_decide; [|done].
      symmetry. apply insert_desc_front.
      apply Forall_forall. intros z [Hz Hin]%list_elem_of_filter.
      apply elem_of_cons in Hin as [->|Hin]; [done|].
      rewrite Forall_forall in Hy. specialize (Hy z Hin). cbn in Hy. lia.
    + rewrite (filter_cons _ y), IH, (filter_cons _ y).
      destruct (decide (P y)); [|done].
      destruct (decide (P x)); [|done].
      cbn [insert_desc]. by destruct (Z.leb_spec (key y) (key x)); [lia|].
Qed.

(** Filtering before the stable sort or after it gives the same list. *)
Lemma sort_desc_filter (P : StoppedInstance.t -> Prop)
    `{forall r, Decision (P r)} l :
  sort_desc (filter P l) = filter P (sort_desc l).
Proof.
  induction l as [|x l IH]; [done|].
  cbn [sort_desc fold_right]. fold (sort_desc l).
  rewrite insert_desc_filter_pred by apply sort_desc_descending.
  rewrite filter_cons. destruct (decide (P x)); [|done].
  cbn [sort_desc fold_right]. fold (sort_desc (filter P l)). by rewrite IH.
Qed.

Lemma filter_threshold_twice (lo hi : Z) (l : list StoppedInstance.t) :
  lo <= hi ->
  filter (fun r => hi <= key r) (filter (fun r => lo <= key r) l)
  = filter (fun r => hi <= key r) l.
Proof.
  intros Hle. induction l as [|x l IH]; [done|].
  rewrite !(filter_cons _ x).
  destruct (decide (lo <= key x)), (decide (hi <= key x));
    rewrite ?filter_cons; repeat case_decide; try lia; by rewrite ?IH.
Qed.

Lemma process_instances_ok_inv w instances min_days s results :
  (process_instances w instances min_days s).1 = Ok results ->
  results = sort_desc (filter (fun r => min_days <= key r)
                              (mapped w (compartment_cache s) instances))
  /\ Forall (fun i => is_Some (Raw.id i)) instances.
Proof.
  unfold process_instances. run_monad.
  destruct (decide (Exists (fun i => Raw.id i = None) instances)) as [Hex|Hall].
  - by rewrite (process_loop_raises _ _ _ _ Hex).
  - assert (Forall (fun i => is_Some (Raw.id i)) instances) as Hids.
    { apply Forall_forall. intros i Hin.
      destruct (Raw.id i) eqn:Hid; [done|].
      exfalso. apply Hall, Exists_exists. by exists i. }
    rewrite (process_loop_ok _ _ _ _ Hids). cbn. by intros [= <-].
Qed.

(** X6: raising the threshold only strikes rows out: the reports for a
    higher [min_days] are the reports for the lower one without the
    rows that are too young, in the same order. *)
Theorem process_instances_threshold
    (w : World) (instances : list Raw.t) (lo hi : Z) (s : Lister)
    (results : list StoppedInstance.t) :
  lo <= hi ->
  (process_instances w instances lo s).1 = Ok results ->
  (process_instances w instances hi s).1
  = Ok (filter (fun r => hi <= key r) results).
Proof.
  intros Hle Hlo.
  apply process_instances_ok_inv in Hlo as [-> Hids].
  unfold process_instances. run_monad.
  rewrite (process_loop_ok _ _ _ _ Hids). cbn. f_equal.
  by rewrite <- sort_desc_filter, filter_threshold_twice.
Qed.

Lemma process_instances_threshold_witness :
  let w := Sample.world (fun _ => Ok Sample.two_regions)
             (fun _ => Ok Sample.dev_compartments)
             (fun _ _ _ => Ok tt) (fun _ _ _ => Ok []) in
  let batch := [Sample.instance "vm1" "2024-01-01T00:00:00Z";
                Sample.instance "vm2" "2023-06-01T00:00:00Z";
                Malformed.without_shape (Sample.instance "vm3" "2020-01-01T00:00:00Z")] in
  exists old young,
    (process_instances w batch 0 Sample.fresh).1 = Ok [old; young]
    /\ (process_instances w batch 100 Sample.fresh).1 = Ok [old]
    /\ StoppedInstance.instance_name old = "vm2".
Proof.
  cbv zeta. eexists _, _.
  assert ((process_instances
             (Sample.world (fun _ => Ok Sample.two_regions)
                (fun _ => Ok Sample.dev_compartments)
                (fun _ _ _ => Ok tt) (fun _ _ _ => Ok []))
             [Sample.instance "vm1" "2024-01-01T00:00:00Z";
              Sample.instance "vm2" "2023-06-01T00:00:00Z";
              Malformed.without_shape (Sample.instance "vm3" "2020-01-01T00:00:00Z")]
             0 Sample.fresh).1 = Ok _) as Hlo by (vm_compute; reflexivity).
  split; [exact Hlo|]. split; [|reflexivity].
  rewrite (process_instances_threshold _ _ 0 100 _ _ ltac:(lia) Hlo).
  vm_compute. reflexivity.
Defined.

(** X7: with a threshold of 0 or less (0 is the default) nothing is
    filtered out: every record that can be processed is reported. *)
Theorem process_instances_default_threshold
    (w : World) (instances : list Raw.t) (min_days : Z) (s : Lister)
    (results : list StoppedInstance.t) :
  min_days <= 0 ->
  (process_instances w instances min_days s).1 = Ok results ->
  results ≡ₚ mapped w (compartment_cache s) instances.
Proof.
  intros Hmin Hrun.
  apply process_instances_ok_inv in Hrun as [-> _].
  rewrite sort_desc_perm.
  assert (forall l, Forall (fun r => 0 <= key r) l ->
                    filter (fun r => min_days <= key r) l = l) as Hall.
  { induction 1 as [|x l Hx _ IH]; [done|].
    rewrite filter_cons, IH. case_decide; [done|lia]. }
  rewrite Hall; [done|].
  apply Forall_forall. intros rep Hin.
  apply elem_of_mapped in Hin as (instance & _ & Hrep).
  apply process_stopped_instance_inv in Hrep
    as (? & ? & ? & ? & ? & _ & _ & _ & _ & _ & ->).
  apply calculate_days_nonneg.
Qed.

Lemma process_instances_default_threshold_witness :
  let w := Sample.world (fun _ => Ok Sample.two_regions)
             (fun _ => Ok Sample.dev_compartments)
             (fun _ _ _ => Ok tt) (fun _ _ _ => Ok []) in
  let batch := [Sample.instance "vm1" "2031-01-01T00:00:00Z";
                Sample.instance "vm2" "2023-06-01T00:00:00Z"] in
  exists results,
    (process_instances w batch 0 Sample.fresh).1 = Ok results
    /\ results ≡ₚ mapped w (compartment_cache Sample.fresh) batch
    /\ length results = 2%nat.
Proof.
  cbv zeta. eexists.
  assert ((process_instances
             (Sample.world (fun _ => Ok Sample.two_regions)
                (fun _ => Ok Sample.dev_compartments)
                (fun _ _ _ => Ok tt) (fun _ _ _ => Ok []))
             [Sample.instance "vm1" "2031-01-01T00:00:00Z";
              Sample.instance "vm2" "2023-06-01T00:00:00Z"]
             0 Sample.fresh).1 = Ok _) as Hrun by (vm_compute; reflexivity).
  split; [exact Hrun|].
  split; [exact (process_instances_default_threshold _ _ 0 _ _ ltac:(lia) Hrun)|].
  reflexivity.
Defined.

(** ** The statistics of the reports *)

Lemma counts_get_set_eq k n d : Report.get k (Report.set k n d) = Some n.
Proof.
  induction d as [|[k' n'] r IH]; cbn.
  - by rewrite String.eqb_refl.
  - destruct (String.eqb_spec k k') as [->|Hne]; cbn.
    + by rewrite String.eqb_refl.
    + by destruct (String.eqb_spec k k').
Qed.

Lemma counts_get_set_ne k k' n d :
  k <> k' -> Report.get k' (Report.set k n d) = Report.get k' d.
Proof.
  intros Hne. induction d as [|[k0 n0] r IH]; cbn.
  - by destruct (String.eqb_spec k' k).
  - destruct (String.eqb_spec k k0) as [->|Hne0]; cbn.
    + by destruct (String.eqb_spec k' k0).
    + by rewrite IH.
Qed.

Lemma counts_keys_get k d : k ∈ map fst d <-> is_Some (Report.get k d).
Proof.
  induction d as [|[k' n'] r IH]; cbn.
  - split; [by intros ?%elem_of_nil|by intros [? ?]].
  - rewrite elem_of_cons, IH.
    destruct (String.eqb_spec k k') as [->|Hne]; [by split; eauto|].
    split; [by intros [?|?]|by right].
Qed.

Lemma counts_keys_set k n d :
  map fst (Report.set k n d)
  = if decide (k ∈ map fst d) then map fst d else map fst d ++ [k].
Proof.
  induction d as [|[k' n'] r IH]; cbn; [done|].
  destruct (String.eqb_spec k k') as [->|Hne]; cbn.
  - by rewrite decide_True by (by left).
  - rewrite IH. destruct (decide (k ∈ map fst r)).
    + by rewrite decide_True by (by right).
    + rewrite decide_False; [done|]. by intros [?|?]%elem_of_cons.
Qed.

Lemma counts_keys_nodup_set k n d :
  NoDup (map fst d) -> NoDup (map fst (Report.set k n d)).
Proof.
  intros Hd. rewrite counts_keys_set. case_decide; [done|].
  apply NoDup_app. split; [done|]. split; [|apply NoDup_singleton].
  by intros x Hx ->%list_elem_of_singleton.
Qed.

Lemma counts_total_set k n d :
  counts_total (Report.set k n d)
  = counts_total d - default 0 (Report.get k d) + n.
Proof.
  induction d as [|[k' n'] r IH]; [cbn; lia|].
  cbn [Report.set Report.get].
  destruct (String.eqb_spec k k') as [->|Hne]; [cbn; lia|].
  change (counts_total ((k', n') :: ?l)) with (n' + counts_total l).
  rewrite IH. lia.
Qed.

(** The loop [d[f(r)] = d.get(f(r), 0) + 1], from any dictionary. *)
Lemma counting_loop field results d :
  let d' := foldl (fun d r => Report.increment (field r) d) d results in
  (forall k, default 0 (Report.get k d')
             = default 0 (Report.get k d) + occurrences field k results)
  /\ (forall k, is_Some (Report.get k d')
                <-> is_Some (Report.get k d) \/ k ∈ map field results)
  /\ (NoDup (map fst d) -> NoDup (map fst d'))
  /\ counts_total d' = counts_total d + Z.of_nat (length results).
Proof.
  revert d. induction results as [|r results IH]; intros d; cbn [foldl].
  - cbv zeta. unfold occurrences. cbn. repeat split; try done; try lia.
    + by left.
    + by intros [?|?%elem_of_nil].
  - destruct (IH (Report.increment (field r) d)) as (Hget & Hsome & Hnd & Htot).
    cbv zeta. split; [|split; [|split]].
    + intros k. rewrite Hget. unfold occurrences, Report.increment.
      rewrite filter_cons. destruct (decide (field r = k)) as [<-|Hne].
      * rewrite counts_get_set_eq. cbn [from_option id length]. lia.
      * rewrite counts_get_set_ne by done. lia.
    + intros k. rewrite Hsome. unfold Report.increment. cbn [map].
      rewrite elem_of_cons. destruct (decide (field r = k)) as [<-|Hne].
      * rewrite counts_get_set_eq. split; [by right; left|by left].
      * rewrite counts_get_set_ne by done.
        split; [intros [?|?]; by eauto|intros [?|[?|?]]; by eauto].
    + intros Hd. apply Hnd. by apply counts_keys_nodup_set.
    + rewrite Htot. unfold Report.increment. rewrite counts_total_set.
      cbn [length]. lia.
Qed.

(** X8: a breakdown has one row per distinct value of the field, in
    the order in which the values first occur; the counter of a value
    is the number of reports that have it, values that do not occur
    have no row, the counters add up to the number of reports, and the
    number of rows is the number of distinct values shown on the
    statistics card. *)
Theorem count_by_spec (field : StoppedInstance.t -> string)
    (results : list StoppedInstance.t) :
  let d := Report.count_by field results in
  (forall k, Report.get k d
             = if decide (k ∈ map field results)
               then Some (occurrences field k results) else None)
  /\ (forall k, k ∈ map fst d <-> k ∈ map field results)
  /\ NoDup (map fst d)
  /\ counts_total d = Z.of_nat (length results)
  /\ length d = Report.distinct field results.
Proof.
  destruct (counting_loop field results []) as (Hget & Hsome & Hnd & Htot).
  cbv zeta in *. fold (Report.count_by field results) in *.
  assert (forall k, k ∈ map fst (Report.count_by field results)
                    <-> k ∈ map field results) as Hkeys.
  { intros k. rewrite counts_keys_get, Hsome. cbn.
    split; [by intros [[? ?]|?]|by right]. }
  split; [|split; [done|split; [by apply Hnd, NoDup_nil|split]]].
  - intros k. specialize (Hget k). specialize (Hsome k). cbn in Hget, Hsome.
    destruct (decide (k ∈ map field results)) as [Hin|Hnin].
    + destruct (Report.get k (Report.count_by field results)) as [n|].
      * cbn in Hget. f_equal. lia.
      * exfalso. apply (is_Some_None (A:=Z)), Hsome. by right.
    + destruct (Report.get k (Report.count_by field results)) as [n|] eqn:Hk; [|done].
      exfalso. apply Hnin, Hkeys, counts_keys_get. by rewrite Hk.
  - rewrite Htot. cbn. lia.
  - unfold Report.distinct.
    rewrite <- (length_map fst), <- (size_list_to_set (C:=gset string));
      [|by apply Hnd, NoDup_nil].
    f_equal. apply set_eq. intros k. by rewrite !elem_of_list_to_set, Hkeys.
Qed.

Lemma age_range_of_cases days :
  (days < 30 /\ Report.age_range_of days = "0-29 days")
  \/ (30 <= days < 90 /\ Report.age_range_of days = "30-89 days")
  \/ (90 <= days < 180 /\ Report.age_range_of days = "90-179 days")
  \/ (180 <= days < 365 /\ Report.age_range_of days = "180-364 days")
  \/ (365 <= days /\ Report.age_range_of days = "365+ days").
Proof.
  unfold Report.age_range_of.
  destruct (Z.ltb_spec days 30); [by left|right].
  destruct (Z.ltb_spec days 90); [left; split; [lia|done]|right].
  destruct (Z.ltb_spec days 180); [left; split; [lia|done]|right].
  destruct (Z.ltb_spec days 365); [left; split; [lia|done]|right].
  done.
Qed.

Lemma age_range_of_iff days :
  (Report.age_range_of days = "0-29 days" <-> days < 30)
  /\ (Report.age_range_of days = "30-89 days" <-> 30 <= days < 90)
  /\ (Report.age_range_of days = "90-179 days" <-> 90 <= days < 180)
  /\ (Report.age_range_of days = "180-364 days" <-> 180 <= days < 365)
  /\ (Report.age_range_of days = "365+ days" <-> 365 <= days).
Proof.
  destruct (age_range_of_cases days)
    as [[H ->]|[[H ->]|[[H ->]|[[H ->]|[H ->]]]]];
    repeat split; intros; try done; try lia.
Qed.

Lemma age_ranges_keys results :
  map fst (Report.age_ranges results) = map fst Report.empty_age_ranges.
Proof.
  unfold Report.age_ranges.
  assert (forall d0 : Report.counts,
            (forall days, Report.age_range_of days ∈ map fst d0) ->
            map fst (foldl (fun d r => Report.increment (Report.age_range_of (key r)) d)
                           d0 results) = map fst d0) as Hinv.
  { induction results as [|r results IH]; intros d0 Hd0; [done|].
    cbn [foldl]. rewrite IH.
    - unfold Report.increment. rewrite counts_keys_set.
      by rewrite decide_True by apply Hd0.
    - intros days. unfold Report.increment. rewrite counts_keys_set.
      by rewrite decide_True by apply Hd0. }
  apply Hinv. intros days.
  destruct (age_range_of_cases days)
    as [[_ ->]|[[_ ->]|[[_ ->]|[[_ ->]|[_ ->]]]]]; cbn; set_solver.
Qed.

Lemma age_ranges_get results label :
  label ∈ map fst Report.empty_age_ranges ->
  Report.get label (Report.age_ranges results)
  = Some (occurrences (fun r => Report.age_range_of (key r)) label results).
Proof.
  intros Hlabel.
  destruct (counting_loop (fun r => Report.age_range_of (key r)) results
              Report.empty_age_ranges) as (Hget & _).
  cbv zeta in Hget. fold (Report.age_ranges results) in Hget.
  specialize (Hget label).
  assert (is_Some (Report.get label (Report.age_ranges results))) as [n Hn].
  { apply counts_keys_get. by rewrite age_ranges_keys. }
  assert (default 0 (Report.get label Report.empty_age_ranges) = 0) as Hzero.
  { cbn in Hlabel. repeat (apply elem_of_cons in Hlabel as [->|Hlabel]; [done|]).
    by apply elem_of_nil in Hlabel. }
  rewrite Hn, Hzero in Hget. cbn [from_option id] in Hget. rewrite Hn. f_equal. lia.
Qed.

(** X9: the age histogram always has the five rows 0-29, 30-89,
    90-179, 180-364 and 365+ days, in this order; each report is
    counted in exactly the row its age falls in (an age below 30,
    negative ones included, in the first, 365 or more in the last), so
    the five counters add up to the number of reports. *)
Theorem age_ranges_spec (results : list StoppedInstance.t) :
  let d := Report.age_ranges results in
  let within (lo hi : Z) :=
    Z.of_nat (length (filter (fun r => lo <= key r < hi) results)) in
  map fst d = ["0-29 days"; "30-89 days"; "90-179 days"; "180-364 days"; "365+ days"]
  /\ Report.get "0-29 days" d
     = Some (Z.of_nat (length (filter (fun r => key r < 30) results)))
  /\ Report.get "30-89 days" d = Some (within 30 90)
  /\ Report.get "90-179 days" d = Some (within 90 180)
  /\ Report.get "180-364 days" d = Some (within 180 365)
  /\ Report.get "365+ days" d
     = Some (Z.of_nat (length (filter (fun r => 365 <= key r) results)))
  /\ counts_total d = Z.of_nat (length results).
Proof.
  intros d within. subst d within.
  split; [apply age_ranges_keys|].
  rewrite !age_ranges_get by (cbn; set_solver).
  unfold occurrences.
  repeat split.
  1-5: do 3 f_equal; apply list_filter_iff; intros r;
       destruct (age_range_of_iff (key r)) as (H1 & H2 & H3 & H4 & H5); done.
  destruct (counting_loop (fun r => Report.age_range_of (key r)) results
              Report.empty_age_ranges) as (_ & _ & _ & Htot).
  cbv zeta in Htot. fold (Report.age_ranges results) in Htot.
  rewrite Htot. cbn. lia.
Qed.

(** X10: the two places that choose a row's style agree: the class a
    histogram row gets from its label is the class every instance row
    of that age range gets from its age, which is "age-critical" from
    365 days, "age-high" from 180, "age-medium" from 90 and "age-low"
    below. *)
Theorem range_class_matches_age_class (days : Z) :
  Report.range_class (Report.age_range_of days) = Report.age_class days
  /\ (Report.age_class days = "age-critical" <-> 365 <= days)
  /\ (Report.age_class days = "age-high" <-> 180 <= days < 365)
  /\ (Report.age_class days = "age-medium" <-> 90 <= days < 180)
  /\ (Report.age_class days = "age-low" <-> days < 90).
Proof.
  unfold Report.age_class.
  destruct (age_range_of_cases days)
    as [[H ->]|[[H ->]|[[H ->]|[[H ->]|[H ->]]]]];
    destruct (Z.leb_spec 365 days), (Z.leb_spec 180 days), (Z.leb_spec 90 days);
    try lia; repeat split; intros; try done; try lia.
Qed.

(** *** The "top" tables *)

Lemma insert_count_perm x l : Report.insert_count x l ≡ₚ x :: l.
Proof.
  induction l as [|y r IH]; cbn; [done|].
  destruct (y.2 <=? x.2); [done|]. rewrite IH. apply perm_swap.
Qed.

Lemma sorted_by_count_perm d : Report.sorted_by_count d ≡ₚ d.
Proof.
  induction d as [|x d IH]; cbn; [done|].
  fold (Report.sorted_by_count d). by rewrite insert_count_perm, IH.
Qed.

Lemma insert_count_sorted x l :
  StronglySorted (fun a b : string * Z => b.2 <= a.2) l ->
  StronglySorted (fun a b : string * Z => b.2 <= a.2) (Report.insert_count x l).
Proof.
  induction 1 as [|y r Hr IH Hy]; cbn.
  - by repeat constructor.
  - destruct (Z.leb_spec y.2 x.2) as [Hle|Hgt].
    + constructor; [by constructor|].
      constructor; [done|].
      eapply Forall_impl; [exact Hy|]. cbn. intros z Hz. lia.
    + constructor; [done|].
      rewrite insert_count_perm. constructor; [lia|done].
Qed.

Lemma sorted_by_count_sorted d :
  StronglySorted (fun a b : string * Z => b.2 <= a.2) (Report.sorted_by_count d).
Proof.
  induction d as [|x d IH]; cbn; [constructor|].
  by apply insert_count_sorted.
Qed.

Lemma strongly_sorted_across {A} (R : A -> A -> Prop) (l1 l2 : list A) :
  StronglySorted R (l1 ++ l2) ->
  forall x y, x ∈ l1 -> y ∈ l2 -> R x y.
Proof.
  induction l1 as [|a l1 IH]; cbn; intros Hs x y Hx Hy.
  - by apply elem_of_nil in Hx.
  - apply StronglySorted_inv in Hs as [Hs Ha].
    apply elem_of_cons in Hx as [->|Hx]; [|by apply IH].
    rewrite Forall_forall in Ha. apply Ha, elem_of_app. by right.
Qed.

Lemma strongly_sorted_prefix {A} (R : A -> A -> Prop) (l1 l2 : list A) :
  StronglySorted R (l1 ++ l2) -> StronglySorted R l1.
Proof.
  induction l1 as [|a l1 IH]; cbn; intros Hs; [constructor|].
  apply StronglySorted_inv in Hs as [Hs Ha].
  constructor; [by apply IH|].
  rewrite Forall_forall in Ha. apply Forall_forall. intros x Hx.
  apply Ha, elem_of_app. by left.
Qed.

(** X11: a "top [n]" table shows [n] rows of the breakdown, all of them
    when it has no more than [n]; the rows are rows of the breakdown,
    in descending order of their counters, and no row that is left out
    has a higher counter than a row that is shown. *)
Theorem top_spec (n : nat) (d : Report.counts) :
  let rows := Report.top n d in
  length rows = (n `min` length d)%nat
  /\ StronglySorted (fun a b : string * Z => b.2 <= a.2) rows
  /\ (exists left_out,
        rows ++ left_out ≡ₚ d
        /\ forall shown hidden,
             shown ∈ rows -> hidden ∈ left_out -> hidden.2 <= shown.2)
  /\ ((length d <= n)%nat -> rows ≡ₚ d).
Proof.
  cbv zeta. unfold Report.top.
  pose proof (sorted_by_count_perm d) as Hperm.
  pose proof (sorted_by_count_sorted d) as Hsorted.
  split; [|split; [|split]].
  - by rewrite length_take, Hperm.
  - rewrite <- (take_drop n (Report.sorted_by_count d)) in Hsorted.
    by apply strongly_sorted_prefix in Hsorted.
  - exists (drop n (Report.sorted_by_count d)). split.
    + by rewrite take_drop.
    + rewrite <- (take_drop n (Report.sorted_by_count d)) in Hsorted.
      intros shown hidden Hs Hh.
      by apply (strongly_sorted_across _ _ _ Hsorted shown hidden).
  - intros Hlen. rewrite take_ge; [done|]. by rewrite Hperm.
Qed.

(** *** The oldest instances *)

Lemma sort_desc_descending_id l : descending l -> sort_desc l = l.
Proof.
  unfold descending. induction 1 as [|x l Hl IH Hx]; [done|].
  cbn [sort_desc fold_right]. fold (sort_desc l). rewrite IH.
  by apply insert_desc_front.
Qed.

Lemma max_from_spec best l :
  let m := Report.max_from best l in
  (m = best /\ Forall (fun r => key r <= key best) l)
  \/ (exists pre post,
        l = pre ++ m :: post
        /\ key best < key m
        /\ Forall (fun r => key r < key m) pre
        /\ Forall (fun r => key r <= key m) post).
Proof.
  revert best. induction l as [|x l IH]; intros best; cbn [Report.max_from].
  - left. by split.
  - destruct (Z.ltb_spec (key best) (key x)) as [Hlt|Hge].
    + right. destruct (IH x) as [[Hm Hall]|(pre & post & Hl & Hk & Hpre & Hpost)].
      * exists [], l. cbv zeta in Hm. rewrite Hm. by repeat split.
      * exists (x :: pre), post. cbv zeta in *. repeat split; try done.
        -- cbn. by f_equal.
        -- lia.
        -- by constructor.
    + destruct (IH best) as [[Hm Hall]|(pre & post & Hl & Hk & Hpre & Hpost)].
      * left. split; [done|]. by constructor.
      * right. exists (x :: pre), post. cbv zeta in *. repeat split; try done.
        -- cbn. by f_equal.
        -- constructor; [lia|done].
Qed.

(** X12: the "oldest instance" of the reports is a report of the list
    whose age no other report exceeds, and among reports of that age
    the first one; only the empty list has none. *)
Theorem oldest_instance_spec (results : list StoppedInstance.t) :
  match Report.oldest_instance results with
  | None => results = []
  | Some oldest =>
      exists pre post,
        results = pre ++ oldest :: post
        /\ Forall (fun r => key r < key oldest) pre
        /\ Forall (fun r => key r <= key oldest) post
  end.
Proof.
  destruct results as [|x l]; [done|]. cbn [Report.oldest_instance].
  destruct (max_from_spec x l) as [[Hm Hall]|(pre & post & Hl & Hk & Hpre & Hpost)];
    cbv zeta in *.
  - exists [], l. by rewrite Hm.
  - exists (x :: pre), post. repeat split.
    + cbn. by f_equal.
    + by constructor.
    + done.
Qed.

(** X13: on what [process_instances] returns, which is already sorted,
    sorting again changes nothing: the "Top 20" table is the first 20
    rows of the full inventory, and the "oldest instance" is its first
    row. *)
Theorem reports_lead_with_the_oldest
    (w : World) (instances : list Raw.t) (min_days : Z) (s : Lister)
    (results : list StoppedInstance.t) :
  (process_instances w instances min_days s).1 = Ok results ->
  Report.top_instances results = take 20 results
  /\ Report.oldest_instance results = head results.
Proof.
  intros Hrun. apply process_instances_ok_inv in Hrun as [-> _].
  pose proof (sort_desc_descending
                (filter (fun r => min_days <= key r)
                        (mapped w (compartment_cache s) instances))) as Hdesc.
  split.
  - unfold Report.top_instances. by rewrite (sort_desc_descending_id _ Hdesc).
  - destruct (sort_desc _) as [|x l]; [done|]. cbn [Report.oldest_instance head].
    f_equal. apply StronglySorted_inv in Hdesc as [_ Hx].
    destruct (max_from_spec x l) as [[Hm _]|(pre & post & Hl & Hk & _)]; [done|].
    cbv zeta in *. exfalso. rewrite Forall_forall in Hx.
    assert (Report.max_from x l ∈ l) as Hin
      by (rewrite Hl at 2; apply elem_of_app; right; by left).
    specialize (Hx _ Hin). cbn in Hx. lia.
Qed.

Lemma process_instances_report_witness :
  let w := Sample.world (fun _ => Ok Sample.two_regions)
             (fun _ => Ok Sample.dev_compartments)
             (fun _ _ _ => Ok tt) (fun _ _ _ => Ok []) in
  let batch := [Sample.instance "vm1" "2024-01-01T00:00:00Z";
                Malformed.without_shape (Sample.instance "vm3" "2020-01-01T00:00:00Z");
                Sample.instance "vm2" "2023-06-01T00:00:00Z"] in
  Forall (fun i => is_Some (Raw.id i)) batch
  /\ exists results,
       process_instances w batch 0 Sample.fresh = (Ok results, Sample.fresh)
       /\ descending results
       /\ (length results <= 3)%nat.
Proof.
  cbv zeta.
  assert (Forall (fun i => is_Some (Raw.id i))
            [Sample.instance "vm1" "2024-01-01T00:00:00Z";
             Malformed.without_shape (Sample.instance "vm3" "2020-01-01T00:00:00Z");
             Sample.instance "vm2" "2023-06-01T00:00:00Z"]) as Hids
    by (repeat constructor; by eexists).
  split; [exact Hids|].
  destruct (process_instances_report
              (Sample.world (fun _ => Ok Sample.two_regions)
                 (fun _ => Ok Sample.dev_compartments)
                 (fun _ _ _ => Ok tt) (fun _ _ _ => Ok []))
              _ 0 Sample.fresh Hids)
    as (results & Hrun & _ & Hdesc & _ & Hlen & _).
  exists results. by repeat split.
Defined.

Lemma reports_lead_with_the_oldest_witness :
  let w := Sample.world (fun _ => Ok Sample.two_regions)
             (fun _ => Ok Sample.dev_compartments)
             (fun _ _ _ => Ok tt) (fun _ _ _ => Ok []) in
  let batch := [Sample.instance "vm1" "2024-01-01T00:00:00Z";
                Sample.instance "vm2" "2023-06-01T00:00:00Z"] in
  exists results,
    (process_instances w batch 0 Sample.fresh).1 = Ok results
    /\ Report.top_instances results = take 20 results
    /\ StoppedInstance.instance_name <$> Report.oldest_instance results = Some "vm2".
Proof.
  cbv zeta. eexists.
  assert ((process_instances
             (Sample.world (fun _ => Ok Sample.two_regions)
                (fun _ => Ok Sample.dev_compartments)
                (fun _ _ _ => Ok tt) (fun _ _ _ => Ok []))
             [Sample.instance "vm1" "2024-01-01T00:00:00Z";
              Sample.instance "vm2" "2023-06-01T00:00:00Z"]
             0 Sample.fresh).1 = Ok _) as Hrun by (vm_compute; reflexivity).
  split; [exact Hrun|].
  destruct (reports_lead_with_the_oldest _ _ _ _ _ Hrun) as [Htop Hold].
  split; [exact Htop|]. rewrite Hold. reflexivity.
Defined.

(** ** Age in days: time and zones *)

Lemma age_of_instant parser now tc dt c :
  Datetime.time_truthy tc = true ->
  Datetime.created_datetime parser tc = Ok dt ->
  Datetime.instant dt = Some c ->
  Datetime.calculate_days_since_created parser now tc
  = Z.max 0 ((now - c) / Datetime.us_per_day).
Proof.
  intros Ht Hc Hi. unfold Datetime.calculate_days_since_created.
  rewrite Ht, Hc. cbn. unfold Datetime.sub_from_now. by rewrite Hi.
Qed.

Lemma age_without_instant parser now tc :
  Datetime.time_truthy tc = false
  \/ (exists e, Datetime.created_datetime parser tc = Raise e)
  \/ (exists dt, Datetime.created_datetime parser tc = Ok dt
                 /\ Datetime.instant dt = None) ->
  Datetime.calculate_days_since_created parser now tc = 0.
Proof.
  unfold Datetime.calculate_days_since_created.
  intros [->|[(e & ->)|(dt & -> & Hi)]]; [done| |].
  - by destruct (negb _).
  - destruct (negb _); [done|]. cbn. unfold Datetime.sub_from_now. by rewrite Hi.
Qed.

(** Every input either has a creation instant, or its age is 0 at all times. *)
Lemma age_cases parser tc :
  (exists dt c, Datetime.time_truthy tc = true
                /\ Datetime.created_datetime parser tc = Ok dt
                /\ Datetime.instant dt = Some c)
  \/ (forall now, Datetime.calculate_days_since_created parser now tc = 0).
Proof.
  destruct (Datetime.time_truthy tc) eqn:Ht.
  - destruct (Datetime.created_datetime parser tc) as [dt|e] eqn:Hc.
    + destruct (Datetime.instant dt) as [c|] eqn:Hi.
      * left. by exists dt, c.
      * right. intros now. apply age_without_instant. right. right. by exists dt.
    + right. intros now. apply age_without_instant. right. left. by exists e.
  - right. intros now. apply age_without_instant. by left.
Qed.

(** X14: the age never decreases as time passes, and for a record
    created in the past it grows by exactly one for every 24 hours. *)
Theorem age_advances_with_time
    (parser : string -> option Datetime.datetime) (tc : Datetime.time_value)
    (now later : Z) :
  now <= later ->
  let age := fun t => Datetime.calculate_days_since_created parser t tc in
  age now <= age later
  /\ (forall dt c,
        Datetime.time_truthy tc = true ->
        Datetime.created_datetime parser tc = Ok dt ->
        Datetime.instant dt = Some c ->
        c <= now ->
        age (now + Datetime.us_per_day) = age now + 1).
Proof.
  intros Hle age. subst age. cbv beta. split.
  - destruct (age_cases parser tc) as [(dt & c & Ht & Hc & Hi)|Hzero].
    + rewrite !(age_of_instant _ _ _ dt c) by done.
      apply Z.max_le_compat_l, Z.div_le_mono; [done|lia].
    + by rewrite !Hzero.
  - intros dt c Ht Hc Hi Hpast.
    rewrite !(age_of_instant _ _ _ dt c) by done.
    replace (now + Datetime.us_per_day - c)
      with (now - c + 1 * Datetime.us_per_day) by lia.
    rewrite Z.div_add by done.
    assert (0 <= (now - c) / Datetime.us_per_day)
      by (apply Z.div_pos; [lia|done]).
    lia.
Qed.

Lemma age_advances_with_time_witness :
  let age := fun t =>
    Datetime.calculate_days_since_created Datetime.fromisoformat_model t
      (Datetime.TimeStr "2024-01-01T00:00:00Z") in
  age (Datetime.utc_midnight 2024 3 1) <= age (Datetime.utc_midnight 2024 3 15)
  /\ age (Datetime.utc_midnight 2024 3 1 + Datetime.us_per_day)
     = age (Datetime.utc_midnight 2024 3 1) + 1.
Proof.
  cbv zeta beta.
  destruct (age_advances_with_time Datetime.fromisoformat_model
              (Datetime.TimeStr "2024-01-01T00:00:00Z")
              (Datetime.utc_midnight 2024 3 1) (Datetime.utc_midnight 2024 3 15))
    as [Hmono _]; [vm_compute; discriminate|].
  split; [exact Hmono|].
  destruct (age_advances_with_time Datetime.fromisoformat_model
              (Datetime.TimeStr "2024-01-01T00:00:00Z")
              (Datetime.utc_midnight 2024 3 1) (Datetime.utc_midnight 2024 3 1))
    as [_ Hstep]; [lia|].
  apply (Hstep (Datetime.mk_datetime 2024 1 1 0 0 0 0 (Some 0))
               (Datetime.utc_midnight 2024 1 1));
    [reflexivity|vm_compute; reflexivity|reflexivity|vm_compute; discriminate].
Defined.

(** X15: for [datetime] objects the age depends on the instant only:
    two aware values that denote the same instant in different zones
    give the same age, and a naive value is read as UTC. *)
Theorem age_of_datetime_objects
    (parser : string -> option Datetime.datetime) (now : Z)
    (dt1 dt2 : Datetime.datetime) :
  let age := Datetime.calculate_days_since_created parser now in
  (forall o1 o2,
      Datetime.tzinfo dt1 = Some o1 -> Datetime.tzinfo dt2 = Some o2 ->
      Datetime.wall_micros dt1 - o1 = Datetime.wall_micros dt2 - o2 ->
      age (Datetime.TimeObj dt1) = age (Datetime.TimeObj dt2))
  /\ (Datetime.tzinfo dt1 = None ->
      age (Datetime.TimeObj dt1)
      = age (Datetime.TimeObj (Datetime.replace_tzinfo dt1 Datetime.utc))).
Proof.
  cbv zeta. split.
  - intros o1 o2 H1 H2 Heq.
    rewrite (age_of_instant _ _ _ dt1 (Datetime.wall_micros dt1 - o1));
      [|done|by cbn; rewrite H1|by unfold Datetime.instant; rewrite H1].
    rewrite (age_of_instant _ _ _ dt2 (Datetime.wall_micros dt2 - o2));
      [|done|by cbn; rewrite H2|by unfold Datetime.instant; rewrite H2].
    by rewrite Heq.
  - intros Hnaive.
    rewrite (age_of_instant _ _ _ (Datetime.replace_tzinfo dt1 Datetime.utc)
               (Datetime.wall_micros dt1 - Datetime.utc));
      [|done|by cbn; rewrite Hnaive|done].
    by rewrite (age_of_instant _ _ _ (Datetime.replace_tzinfo dt1 Datetime.utc)
                  (Datetime.wall_micros dt1 - Datetime.utc)).
Qed.

Lemma age_of_datetime_objects_witness :
  let age := Datetime.calculate_days_since_created Datetime.fromisoformat_model
               (Datetime.utc_midnight 2024 3 1) in
  age (Datetime.TimeObj (Datetime.mk_datetime 2024 1 1 5 30 0 0 (Some 19800000000)))
  = age (Datetime.TimeObj (Datetime.mk_datetime 2024 1 1 0 0 0 0 (Some 0))).
Proof.
  cbv zeta.
  apply (proj1 (age_of_datetime_objects Datetime.fromisoformat_model
                  (Datetime.utc_midnight 2024 3 1)
                  (Datetime.mk_datetime 2024 1 1 5 30 0 0 (Some 19800000000))
                  (Datetime.mk_datetime 2024 1 1 0 0 0 0 (Some 0)))
               19800000000 0); [reflexivity|reflexivity|vm_compute; reflexivity].
Defined.

(** X16: a timestamp text with a fraction of a second keeps its
    wall-clock fields, and whatever offset the parser reads is replaced
    by UTC, not converted: the age is counted from the wall-clock time
    read as UTC. *)
Theorem age_fraction_drops_offset
    (parser : string -> option Datetime.datetime) (now : Z)
    (s : string) (dt : Datetime.datetime) :
  s <> "" ->
  Str.contains "." (Datetime.strip_zone s) = true ->
  parser (Datetime.strip_zone s) = Some dt ->
  Datetime.calculate_days_since_created parser now (Datetime.TimeStr s)
  = Z.max 0 ((now - Datetime.wall_micros dt) / Datetime.us_per_day)
  /\ Datetime.calculate_days_since_created parser now (Datetime.TimeStr s)
     = Datetime.calculate_days_since_created parser now
         (Datetime.TimeObj (Datetime.replace_tzinfo dt Datetime.utc)).
Proof.
  intros Hs Hdot Hparse.
  assert (Datetime.calculate_days_since_created parser now (Datetime.TimeStr s)
          = Z.max 0 ((now - (Datetime.wall_micros dt - Datetime.utc))
                     / Datetime.us_per_day)) as Hage.
  { apply (age_of_instant _ _ _ (Datetime.replace_tzinfo dt Datetime.utc)).
    - by destruct s.
    - unfold Datetime.created_datetime. rewrite Hdot.
      unfold Datetime.parse. by rewrite Hparse.
    - done. }
  split.
  - rewrite Hage. unfold Datetime.utc. do 2 f_equal. lia.
  - rewrite Hage. symmetry.
    by apply (age_of_instant _ _ _ (Datetime.replace_tzinfo dt Datetime.utc)).
Qed.

Lemma age_fraction_drops_offset_witness :
  let now := Datetime.utc_midnight 2024 1 2 in
  Datetime.calculate_days_since_created Datetime.fromisoformat_model now
    (Datetime.TimeStr "2024-01-01T02:00:00.000+05:30") = 0
  /\ Datetime.calculate_days_since_created Datetime.fromisoformat_model now
       (Datetime.TimeObj (Datetime.mk_datetime 2024 1 1 2 0 0 0 (Some 19800000000))) = 1.
Proof.
  cbv zeta. split; [|vm_compute; reflexivity].
  rewrite (proj1 (age_fraction_drops_offset Datetime.fromisoformat_model
                    (Datetime.utc_midnight 2024 1 2)
                    "2024-01-01T02:00:00.000+05:30"
                    (Datetime.mk_datetime 2024 1 1 2 0 0 0 (Some 19800000000))
                    ltac:(discriminate) ltac:(vm_compute; reflexivity)
                    ltac:(vm_compute; reflexivity))).
  vm_compute. reflexivity.
Defined.

(** ** The compartment cache *)

Lemma dict_get_set_eq k v d : Dict.get k (Dict.set k v d) = Some v.
Proof.
  induction d as [|[k' v'] r IH]; cbn.
  - by rewrite String.eqb_refl.
  - destruct (String.eqb_spec k k') as [->|Hne]; cbn.
    + by rewrite String.eqb_refl.
    + by destruct (String.eqb_spec k k').
Qed.

Lemma dict_get_set_ne k k' v d :
  k <> k' -> Dict.get k' (Dict.set k v d) = Dict.get k' d.
Proof.
  intros Hne. induction d as [|[k0 v0] r IH]; cbn.
  - by destruct (String.eqb_spec k' k).
  - destruct (String.eqb_spec k k0) as [->|Hne0]; cbn.
    + by destruct (String.eqb_spec k' k0).
    + by rewrite IH.
Qed.

Lemma dict_keys_get k d : k ∈ Dict.keys d <-> is_Some (Dict.get k d).
Proof.
  unfold Dict.keys. induction d as [|[k' v'] r IH]; cbn.
  - split; [by intros ?%elem_of_nil|by intros [? ?]].
  - rewrite elem_of_cons, IH.
    destruct (String.eqb_spec k k') as [->|Hne]; [by split; eauto|].
    split; [by intros [?|?]|by right].
Qed.

Lemma dict_keys_set k v d :
  Dict.keys (Dict.set k v d)
  = if decide (k ∈ Dict.keys d) then Dict.keys d else Dict.keys d ++ [k].
Proof.
  unfold Dict.keys. induction d as [|[k' v'] r IH]; cbn; [done|].
  destruct (String.eqb_spec k k') as [->|Hne]; cbn.
  - by rewrite decide_True by (by left).
  - rewrite IH. destruct (decide (k ∈ map fst r)).
    + by rewrite decide_True by (by right).
    + rewrite decide_False; [done|]. by intros [?|?]%elem_of_cons.
Qed.

Lemma dict_keys_nodup_set k v d :
  NoDup (Dict.keys d) -> NoDup (Dict.keys (Dict.set k v d)).
Proof.
  intros Hd. rewrite dict_keys_set. case_decide; [done|].
  apply NoDup_app. split; [done|]. split; [|apply NoDup_singleton].
  by intros x Hx ->%list_elem_of_singleton.
Qed.

(** One explicit id: a counted call, then the name or "Unknown". *)
Lemma explicit_body_run w cid s :
  explicit_body w cid s
  = (Ok tt,
     set_compartment_cache
       (Dict.set cid (match get_compartment w (length (trace s)) cid with
                      | Ok name => name
                      | Raise _ => "Unknown"
                      end))
       (emit (CallGetCompartment cid) (set_stats bump_api_calls s))).
Proof.
  unfold explicit_body. run_monad. cbn [trace set_stats].
  by destruct (get_compartment w (length (trace s)) cid).
Qed.

Lemma explicit_loop_spec w ids s :
  exists s',
    for_each ids (explicit_body w) s = (Ok tt, s')
    /\ api_calls_made (stats s') = api_calls_made (stats s) + Z.of_nat (length ids)
    /\ trace s' = trace s ++ map CallGetCompartment ids
    /\ (forall cid, cid ∈ Dict.keys (compartment_cache s')
                    <-> cid ∈ Dict.keys (compartment_cache s) \/ cid ∈ ids)
    /\ (forall cid, cid ∉ ids ->
          Dict.get cid (compartment_cache s') = Dict.get cid (compartment_cache s))
    /\ (forall cid name, cid ∈ ids ->
          Dict.get cid (compartment_cache s') = Some name ->
          name = "Unknown" \/ exists t, get_compartment w t cid = Ok name)
    /\ (NoDup (Dict.keys (compartment_cache s)) ->
        NoDup (Dict.keys (compartment_cache s'))).
Proof.
  revert s. induction ids as [|cid ids IH]; intros s.
  - exists s. cbn [for_each length map]. rewrite app_nil_r.
    split; [done|]. split; [lia|]. split; [done|]. split.
    { intros cid. split; [by left|]. by intros [?|?%elem_of_nil]. }
    split; [done|]. split; [|done].
    by intros cid name ?%elem_of_nil.
  - set (v := match get_compartment w (length (trace s)) cid with
              | Ok name => name
              | Raise _ => "Unknown"
              end).
    set (s1 := set_compartment_cache (Dict.set cid v)
                 (emit (CallGetCompartment cid) (set_stats bump_api_calls s))).
    destruct (IH s1) as (s' & Hrun & Hapi & Htrace & Hkeys & Hother & Hname & Hnd).
    exists s'. split; [|split; [|split; [|split; [|split; [|split]]]]].
    + cbn [for_each]. erewrite bind_ok; [exact Hrun|apply explicit_body_run].
    + rewrite Hapi. subst s1. cbn. lia.
    + rewrite Htrace. subst s1. cbn. by rewrite <- app_assoc.
    + intros c. rewrite Hkeys. subst s1. cbn [compartment_cache set_compartment_cache emit set_stats].
      rewrite !dict_keys_get. rewrite elem_of_cons.
      destruct (decide (cid = c)) as [->|Hne].
      * rewrite dict_get_set_eq. split; [by right; left|by left].
      * rewrite dict_get_set_ne by done.
        split; [intros [?|?]; by eauto|intros [?|[?|?]]; by eauto].
    + intros c Hc. rewrite Hother by (intros ?; apply Hc; by right).
      subst s1. cbn [compartment_cache set_compartment_cache emit set_stats].
      apply dict_get_set_ne. intros ->. apply Hc. by left.
    + intros c name Hc Hget.
      destruct (decide (c ∈ ids)) as [Hin|Hnin]; [by apply Hname|].
      apply elem_of_cons in Hc as [->|Hc]; [|done].
      rewrite Hother in Hget by done.
      subst s1. cbn [compartment_cache set_compartment_cache emit set_stats] in Hget.
      rewrite dict_get_set_eq in Hget. injection Hget as <-. subst v.
      destruct (get_compartment w (length (trace s)) cid) eqn:Hg; [right|by left].
      by eexists.
    + intros Hd. apply Hnd. subst s1.
      cbn [compartment_cache set_compartment_cache emit set_stats].
      by apply dict_keys_nodup_set.
Qed.

(** X17: with explicit compartment ids, on an empty cache, the cache
    becomes exactly these ids, each one once (the tenancy root is not
    added); an id is named by a successful [get_compartment] answer or
    is "Unknown"; one call is counted and issued per id, in order, and
    nothing is raised even if every lookup fails. *)
Theorem get_all_compartments_explicit
    (w : World) (s : Lister) (ids : list string) :
  compartment_cache s = [] ->
  ids <> [] ->
  new_identity_client w (length (trace s)) = Ok tt ->
  let run := get_all_compartments w (Some ids) s in
  exists cache,
    run.1 = Ok cache
    /\ compartment_cache run.2 = cache
    /\ (forall cid, cid ∈ Dict.keys cache <-> cid ∈ ids)
    /\ NoDup (Dict.keys cache)
    /\ (forall cid name,
          Dict.get cid cache = Some name ->
          name = "Unknown" \/ exists t, get_compartment w t cid = Ok name)
    /\ api_calls_made (stats run.2)
       = api_calls_made (stats s) + Z.of_nat (length ids)
    /\ trace run.2 = trace s ++ map CallGetCompartment ids.
Proof.
  intros Hempty Hids Hclient run.
  destruct (explicit_loop_spec w ids s)
    as (s' & Hloop & Hapi & Htrace & Hkeys & Hother & Hname & Hnd).
  assert (run = (Ok (compartment_cache s'), s')) as ->.
  { subst run. unfold get_all_compartments.
    erewrite bind_ok; [|reflexivity]. rewrite Hempty. cbn [Dict.truthy].
    erewrite try_ok; [reflexivity|].
    erewrite bind_ok; [|unfold identity_client; by rewrite Hclient].
    assert (list_truthy (default [] (Some ids)) = true) as -> by (by destruct ids).
    erewrite bind_ok; [reflexivity|exact Hloop]. }
  exists (compartment_cache s'). cbn [fst snd].
  split; [done|]. split; [done|]. split.
  { intros cid. rewrite Hkeys, Hempty. cbn. split; [by intros [?%elem_of_nil|?]|by right]. }
  split; [apply Hnd; rewrite Hempty; constructor|].
  split; [|by split].
  intros cid name Hget. apply Hname; [|done].
  assert (cid ∈ Dict.keys (compartment_cache s')) as Hin
    by (apply dict_keys_get; by rewrite Hget).
  apply Hkeys in Hin as [Hin|Hin]; [|done].
  rewrite Hempty in Hin. by apply elem_of_nil in Hin.
Qed.

Lemma get_all_compartments_explicit_witness :
  let w := mk_world (Ok (Some Sample.tenancy)) (fun _ => Ok tt)
             (fun _ => Ok tt) (fun _ => Ok Sample.two_regions)
             (fun _ cid => if String.eqb cid "ocid1.compartment.oc1..dev"
                           then Ok "dev"
                           else Raise (Exn "ServiceError" "NotAuthorizedOrNotFound"))
             (fun _ => Ok Sample.dev_compartments) (fun _ => Ok "acme")
             (fun _ _ _ => Ok tt) (fun _ _ _ => Ok [])
             (fun finished => finished)
             (Datetime.utc_midnight 2024 3 1) Datetime.fromisoformat_model
             (fun _ path => Ok path) (fun _ path => Ok path) (fun _ => Ok "summary") in
  let run := get_all_compartments w
               (Some ["ocid1.compartment.oc1..dev"; "ocid1.compartment.oc1..gone"])
               Sample.fresh in
  run.1 = Ok [("ocid1.compartment.oc1..dev", "dev");
              ("ocid1.compartment.oc1..gone", "Unknown")]
  /\ api_calls_made (stats run.2) = 2.
Proof.
  cbv zeta.
  destruct (get_all_compartments_explicit
              (mk_world (Ok (Some Sample.tenancy)) (fun _ => Ok tt)
                 (fun _ => Ok tt) (fun _ => Ok Sample.two_regions)
                 (fun _ cid => if String.eqb cid "ocid1.compartment.oc1..dev"
                               then Ok "dev"
                               else Raise (Exn "ServiceError" "NotAuthorizedOrNotFound"))
                 (fun _ => Ok Sample.dev_compartments) (fun _ => Ok "acme")
                 (fun _ _ _ => Ok tt) (fun _ _ _ => Ok [])
                 (fun finished => finished)
                 (Datetime.utc_midnight 2024 3 1) Datetime.fromisoformat_model
                 (fun _ path => Ok path) (fun _ path => Ok path) (fun _ => Ok "summary"))
              Sample.fresh
              ["ocid1.compartment.oc1..dev"; "ocid1.compartment.oc1..gone"]
              eq_refl ltac:(discriminate) eq_refl)
    as (cache & _ & _ & _ & _ & _ & Hapi & _).
  split; [vm_compute; reflexivity|exact Hapi].
Defined.

Lemma active_loop_spec comps s :
  exists s',
    for_each comps active_body s = (Ok tt, s')
    /\ stats s' = stats s /\ trace s' = trace s /\ tenancy_id s' = tenancy_id s
    /\ (forall cid, cid ∈ Dict.keys (compartment_cache s')
                    <-> cid ∈ Dict.keys (compartment_cache s)
                        \/ exists comp, comp ∈ comps /\ is_active cid comp)
    /\ (forall cid name,
          Dict.get cid (compartment_cache s') = Some name ->
          Dict.get cid (compartment_cache s) = Some name
          \/ exists comp, comp ∈ comps /\ is_active cid comp /\ comp_name comp = name)
    /\ (NoDup (Dict.keys (compartment_cache s)) ->
        NoDup (Dict.keys (compartment_cache s'))).
Proof.
  revert s. induction comps as [|comp comps IH]; intros s.
  - exists s. split; [done|]. split; [done|]. split; [done|]. split; [done|].
    split; [|split; [by left|done]].
    intros cid. split; [by left|]. intros [?|(c & Hc & _)]; [done|].
    by apply elem_of_nil in Hc.
  - cbn [for_each]. unfold active_body at 1.
    destruct (String.eqb_spec (lifecycle_state comp) "ACTIVE") as [Hact|Hina].
    + set (s1 := set_compartment_cache (Dict.set (comp_id comp) (comp_name comp)) s).
      destruct (IH s1) as (s' & Hrun & Hst & Htr & Hten & Hkeys & Hget & Hnd).
      exists s'. split; [by erewrite bind_ok; [exact Hrun|reflexivity]|].
      split; [done|]. split; [done|]. split; [done|]. split; [|split].
      * intros cid. rewrite Hkeys. subst s1. cbn [compartment_cache set_compartment_cache].
        rewrite !dict_keys_get.
        destruct (decide (comp_id comp = cid)) as [Heq|Hne].
        -- rewrite <- Heq, dict_get_set_eq.
           split; [intros _; right; exists comp; split; [by left|done]|by left].
        -- rewrite dict_get_set_ne by done. split.
           ++ intros [?|(c & Hc & Ha)]; [by left|]. right. exists c. split; [by right|done].
           ++ intros [?|(c & Hc & Ha)]; [by left|].
              apply elem_of_cons in Hc as [->|Hc]; [by destruct Ha|].
              right. by exists c.
      * intros cid name Hc. destruct (Hget cid name Hc) as [Hold|(c & Hin & Ha & Hn)].
        -- subst s1. cbn [compartment_cache set_compartment_cache] in Hold.
           destruct (decide (comp_id comp = cid)) as [Heq|Hne].
           ++ rewrite <- Heq, dict_get_set_eq in Hold. injection Hold as <-.
              right. exists comp. split; [by left|done].
           ++ rewrite dict_get_set_ne in Hold by done. by left.
        -- right. exists c. split; [by right|done].
      * intros Hd. apply Hnd. subst s1. by apply dict_keys_nodup_set.
    + destruct (IH s) as (s' & Hrun & Hst & Htr & Hten & Hkeys & Hget & Hnd).
      exists s'. split; [by erewrite bind_ok; [exact Hrun|reflexivity]|].
      split; [done|]. split; [done|]. split; [done|]. split; [|split; [|done]].
      * intros cid. rewrite Hkeys. split.
        -- intros [?|(c & Hc & Ha)]; [by left|]. right. exists c. split; [by right|done].
        -- intros [?|(c & Hc & Ha)]; [by left|].
           apply elem_of_cons in Hc as [->|Hc]; [by destruct Ha|].
           right. by exists c.
      * intros cid name Hc. destruct (Hget cid name Hc) as [?|(c & Hin & Ha & Hn)];
          [by left|]. right. exists c. split; [by right|done].
Qed.

(** The root entry: a counted call, then the tenancy's name or the
    fallback name. *)
Lemma root_body_run w s :
  (do tenancy <- gets tenancy_id;
   try_except
     (do_ count_api_call;
      do name <- call CallGetTenancy (get_tenancy w);
      cache_set tenancy (name +:+ " (Root)"))
     (fun _ => cache_set tenancy "Root Compartment")) s
  = (Ok tt,
     set_compartment_cache
       (Dict.set (tenancy_id s)
                 (match get_tenancy w (length (trace s)) with
                  | Ok name => name +:+ " (Root)"
                  | Raise _ => "Root Compartment"
                  end))
       (emit CallGetTenancy (set_stats bump_api_calls s))).
Proof.
  run_monad. cbn [trace set_stats tenancy_id].
  by destruct (get_tenancy w (length (trace s))).
Qed.

(** X18: without explicit ids, when the listing answers, the cache
    holds the tenancy id, named after the tenancy with " (Root)"
    appended, or "Root Compartment" if the tenancy cannot be read, and
    besides it exactly the listed compartments in "ACTIVE" state, each
    id once and under a name the listing gave it; two calls are counted
    and issued. *)
Theorem get_all_compartments_listed
    (w : World) (s : Lister) (ids : option (list string)) (comps : list Compartment) :
  compartment_cache s = [] ->
  list_truthy (default [] ids) = false ->
  new_identity_client w (length (trace s)) = Ok tt ->
  list_compartments w (length (trace s)) = Ok comps ->
  let run := get_all_compartments w ids s in
  let root := match get_tenancy w (S (length (trace s))) with
              | Ok name => name +:+ " (Root)"
              | Raise _ => "Root Compartment"
              end in
  exists cache,
    run.1 = Ok cache
    /\ compartment_cache run.2 = cache
    /\ Dict.get (tenancy_id s) cache = Some root
    /\ (forall cid, cid <> tenancy_id s ->
          (cid ∈ Dict.keys cache <-> exists comp, comp ∈ comps /\ is_active cid comp))
    /\ (forall cid name, cid <> tenancy_id s ->
          Dict.get cid cache = Some name ->
          exists comp, comp ∈ comps /\ is_active cid comp /\ comp_name comp = name)
    /\ NoDup (Dict.keys cache)
    /\ api_calls_made (stats run.2) = api_calls_made (stats s) + 2
    /\ trace run.2 = trace s ++ [CallListCompartments; CallGetTenancy].
Proof.
  intros Hempty Hids Hclient Hlist run root.
  set (s0 := emit CallListCompartments (set_stats bump_api_calls s)).
  destruct (active_loop_spec comps s0)
    as (s1 & Hloop & Hst & Htr & Hten & Hkeys & Hget & Hnd).
  set (s2 := set_compartment_cache (Dict.set (tenancy_id s1)
               (match get_tenancy w (length (trace s1)) with
                | Ok name => name +:+ " (Root)"
                | Raise _ => "Root Compartment"
                end))
               (emit CallGetTenancy (set_stats bump_api_calls s1))).
  assert (run = (Ok (compartment_cache s2), s2)) as ->.
  { subst run. unfold get_all_compartments.
    erewrite bind_ok; [|reflexivity]. rewrite Hempty. cbn [Dict.truthy].
    erewrite try_ok; [reflexivity|].
    erewrite bind_ok; [|unfold identity_client; by rewrite Hclient].
    rewrite Hids.
    erewrite bind_ok; [reflexivity|].
    erewrite bind_ok; [|reflexivity].
    erewrite bind_ok; [|unfold call; cbn [trace set_stats]; by rewrite Hlist].
    erewrite bind_ok; [|exact Hloop].
    apply root_body_run. }
  assert (length (trace s1) = S (length (trace s))) as Hlen.
  { rewrite Htr. subst s0. cbn. rewrite length_app. cbn. lia. }
  assert (tenancy_id s1 = tenancy_id s) as Hten' by (by rewrite Hten).
  assert (compartment_cache s0 = []) as Hempty0 by done.
  exists (compartment_cache s2). cbn [fst snd].
  subst s2. cbn [compartment_cache set_compartment_cache emit set_stats stats trace
                 api_calls_made bump_api_calls].
  rewrite Hlen, Hten'. fold root.
  split; [done|]. split; [done|]. split; [apply dict_get_set_eq|].
  split; [|split; [|split; [|split]]].
  - intros cid Hne. rewrite dict_keys_get, dict_get_set_ne by done.
    rewrite <- dict_keys_get, Hkeys, Hempty0. cbn.
    split; [by intros [?%elem_of_nil|?]|by right].
  - intros cid name Hne Hc. rewrite dict_get_set_ne in Hc by done.
    destruct (Hget cid name Hc) as [Hold|?]; [|done].
    by rewrite Hempty0 in Hold.
  - apply dict_keys_nodup_set, Hnd. rewrite Hempty0. constructor.
  - rewrite Hst. subst s0. cbn. lia.
  - rewrite Htr. subst s0. cbn. by rewrite <- app_assoc.
Qed.

Lemma get_all_compartments_listed_witness :
  let w := Sample.world (fun _ => Ok Sample.two_regions)
             (fun _ => Ok Sample.dev_compartments)
             (fun _ _ _ => Ok tt) (fun _ _ _ => Ok []) in
  (get_all_compartments w None Sample.fresh).1
  = Ok [("ocid1.compartment.oc1..dev", "dev"); (Sample.tenancy, "acme (Root)")]
  /\ api_calls_made (stats (get_all_compartments w None Sample.fresh).2) = 2.
Proof.
  cbv zeta.
  destruct (get_all_compartments_listed
              (Sample.world (fun _ => Ok Sample.two_regions)
                 (fun _ => Ok Sample.dev_compartments)
                 (fun _ _ _ => Ok tt) (fun _ _ _ => Ok []))
              Sample.fresh None Sample.dev_compartments
              eq_refl eq_refl eq_refl eq_refl)
    as (cache & _ & _ & _ & _ & _ & _ & Hapi & _).
  split; [vm_compute; reflexivity|exact Hapi].
Defined.

(** ** The whole run: calls and counters *)

Lemma calls_app evs evs' : calls (evs ++ evs') = (calls evs + calls evs')%nat.
Proof. unfold calls. by rewrite filter_app, length_app. Qed.

Lemma extends_refl P s : extends P s s.
Proof. exists []. rewrite app_nil_r. split; [done|]. split; [cbn; lia|constructor]. Qed.

Lemma extends_trans P s1 s2 s3 :
  extends P s1 s2 -> extends P s2 s3 -> extends P s1 s3.
Proof.
  intros (e1 & Ht1 & Ha1 & Hp1) (e2 & Ht2 & Ha2 & Hp2).
  exists (e1 ++ e2). rewrite Ht2, Ht1, <- app_assoc. split; [done|].
  split; [rewrite Ha2, Ha1, calls_app; lia|by apply Forall_app].
Qed.

Lemma extends_weaken (P Q : event -> Prop) s s' :
  (forall e, P e -> Q e) -> extends P s s' -> extends Q s s'.
Proof.
  intros HPQ (evs & Ht & Ha & Hp). exists evs. split; [done|]. split; [done|].
  by eapply Forall_impl.
Qed.

(** A step that changes neither the trace nor the call counter. *)
Lemma extends_silent P s s' :
  trace s' = trace s ->
  api_calls_made (stats s') = api_calls_made (stats s) ->
  extends P s s'.
Proof.
  intros Ht Ha. exists []. rewrite app_nil_r. split; [done|].
  split; [cbn; lia|constructor].
Qed.

(** A counted capability call. *)
Lemma extends_call (P : event -> Prop) e s :
  is_call e = true -> P e ->
  extends P s (emit e (set_stats bump_api_calls s)).
Proof.
  intros He Hp. exists [e]. split; [done|]. split; [|by repeat constructor].
  unfold calls. rewrite filter_cons, decide_True by done. cbn. lia.
Qed.

(** An event that is not a call. *)
Lemma extends_note (P : event -> Prop) e s :
  is_call e = false -> P e -> extends P s (emit e s).
Proof.
  intros He Hp. exists [e]. split; [done|]. split; [|by repeat constructor].
  unfold calls. rewrite filter_cons, decide_False by (by rewrite He). cbn. lia.
Qed.

Lemma get_subscribed_regions_extends w s :
  let run := get_subscribed_regions w s in
  extends (fun e => e = CallListRegionSubscriptions) s run.2
  /\ compartment_cache run.2 = compartment_cache s
  /\ tenancy_id run.2 = tenancy_id s
  /\ (exists regions, run.1 = Ok regions).
Proof.
  unfold get_subscribed_regions. run_monad.
  destruct (list_truthy (region_cache s)).
  { split; [apply extends_refl|]. by eauto. }
  destruct (new_identity_client w (length (trace s))).
  2:{ cbn. split; [by apply extends_silent|]. by eauto. }
  cbn [trace set_stats].
  destruct (list_region_subscriptions w (length (trace s))); cbn [fst snd].
  - split; [|by eauto].
    eapply extends_trans; [by apply (extends_call _ CallListRegionSubscriptions)|].
    by apply extends_silent.
  - split; [|by eauto].
    eapply extends_trans; [by apply (extends_call _ CallListRegionSubscriptions)|].
    by apply extends_silent.
Qed.

Lemma get_subscribed_regions_max_workers w s :
  max_workers (get_subscribed_regions w s).2 = max_workers s.
Proof.
  unfold get_subscribed_regions. run_monad.
  destruct (list_truthy (region_cache s)); [done|].
  destruct (new_identity_client w (length (trace s))); [|done].
  cbn [trace set_stats].
  by destruct (list_region_subscriptions w (length (trace s))).
Qed.

Lemma replay_max_workers evs s : max_workers (replay evs s) = max_workers s.
Proof.
  revert s. induction evs as [|e evs IH]; intros s; [done|].
  change (replay (e :: evs) s) with (replay evs (record s e)).
  rewrite IH. unfold record. by destruct (is_listing e).
Qed.

Lemma same_frame_refl s : same_frame s s.
Proof. by repeat split. Qed.

Lemma same_frame_trans s1 s2 s3 :
  same_frame s1 s2 -> same_frame s2 s3 -> same_frame s1 s3.
Proof.
  intros (H1 & H2 & H3 & H4 & H5) (K1 & K2 & K3 & K4 & K5).
  repeat split; congruence.
Qed.

Lemma step_refl P s : step P s s.
Proof. split; [apply extends_refl|apply same_frame_refl]. Qed.

Lemma step_trans P s1 s2 s3 : step P s1 s2 -> step P s2 s3 -> step P s1 s3.
Proof.
  intros [E1 F1] [E2 F2].
  split; [by eapply extends_trans|by eapply same_frame_trans].
Qed.

Lemma step_weaken (P Q : event -> Prop) s s' :
  (forall e, P e -> Q e) -> step P s s' -> step Q s s'.
Proof. intros HPQ [E F]. split; [by eapply extends_weaken|done]. Qed.

Lemma for_each_step {A} P (body : A -> M unit) l s :
  (forall a s0, step P s0 (body a s0).2) ->
  step P s (for_each l body s).2.
Proof.
  intros Hbody. revert s. induction l as [|a l IH]; intros s; [apply step_refl|].
  cbn [for_each]. unfold bind.
  specialize (Hbody a s). destruct (body a s) as [[[]|e] s1]; cbn [snd] in *; [|done].
  eapply step_trans; [exact Hbody|apply IH].
Qed.

Lemma explicit_body_step w cid s : step identity_event s (explicit_body w cid s).2.
Proof.
  rewrite explicit_body_run. cbn [snd]. split.
  - eapply extends_trans.
    + apply (extends_call _ (CallGetCompartment cid)); [done|].
      right. right. by exists cid.
    + by apply extends_silent.
  - by repeat split.
Qed.

Lemma active_body_step comp s : step identity_event s (active_body comp s).2.
Proof.
  unfold active_body. destruct (String.eqb _ _); [|apply step_refl].
  split; [by apply extends_silent|by repeat split].
Qed.

Lemma get_all_compartments_step w ids s :
  let run := get_all_compartments w ids s in
  step identity_event s run.2
  /\ run.1 = Ok (compartment_cache run.2).
Proof.
  destruct (get_all_compartments_returns_cache w ids s) as (s' & Hrun & _).
  cbv zeta. rewrite Hrun. cbn [fst snd]. split; [|done].
  revert Hrun. unfold get_all_compartments.
  erewrite bind_ok; [|reflexivity].
  destruct (Dict.truthy (compartment_cache s)).
  { intros [= _ <-]. apply step_refl. }
  destruct (new_identity_client w (length (trace s))) as [[]|e] eqn:Hclient.
  2:{ erewrite try_raise;
        [|erewrite bind_raise; [reflexivity|unfold identity_client; by rewrite Hclient]].
      run_monad. intros [= _ <-].
      split; [by apply extends_silent|by repeat split]. }
  destruct (list_truthy (default [] ids)) eqn:Hids.
  - destruct (explicit_loop_sets w (default [] ids) s) as (s1 & Hloop & _).
    pose proof (for_each_step identity_event (explicit_body w) (default [] ids) s
                  (explicit_body_step w)) as Hstep.
    rewrite Hloop in Hstep. cbn [snd] in Hstep.
    erewrite try_ok.
    2:{ erewrite bind_ok; [|unfold identity_client; by rewrite Hclient].
        erewrite bind_ok; [reflexivity|exact Hloop]. }
    unfold gets. by intros [= _ <-].
  - set (s0 := emit CallListCompartments (set_stats bump_api_calls s)).
    assert (step identity_event s s0) as Hs0.
    { split; [apply extends_call; [done|by left]|by repeat split]. }
    destruct (list_compartments w (length (trace s))) as [comps|e] eqn:Hlist.
    2:{ erewrite try_raise.
        2:{ erewrite bind_ok; [|unfold identity_client; by rewrite Hclient].
            erewrite bind_raise; [reflexivity|].
            erewrite bind_ok; [|reflexivity].
            erewrite bind_raise; [reflexivity|].
            unfold call. cbn. by rewrite Hlist. }
        run_monad. intros [= _ <-].
        eapply step_trans; [exact Hs0|].
        split; [by apply extends_silent|by repeat split]. }
    destruct (active_loop_returns comps s0) as (s1 & Hloop).
    pose proof (for_each_step identity_event active_body comps s0 active_body_step)
      as Hstep1.
    rewrite Hloop in Hstep1. cbn [snd] in Hstep1.
    erewrite try_ok.
    2:{ erewrite bind_ok; [|unfold identity_client; by rewrite Hclient].
        erewrite bind_ok; [reflexivity|].
        erewrite bind_ok; [|reflexivity].
        erewrite bind_ok; [|unfold call; cbn; by rewrite Hlist].
        erewrite bind_ok; [|exact Hloop].
        apply root_body_run. }
    unfold gets. intros [= _ <-].
    eapply step_trans; [exact Hs0|]. eapply step_trans; [exact Hstep1|].
    split.
    + eapply extends_trans; [apply (extends_call _ CallGetTenancy); [done|by right; left]|].
      by apply extends_silent.
    + by repeat split.
Qed.

Lemma calls_of_scan_events regions cids evs :
  Forall (scan_event regions cids) evs -> calls evs = listing_calls evs.
Proof.
  unfold calls, listing_calls. induction 1 as [|e evs He _ IH]; [done|].
  rewrite !filter_cons.
  destruct He as [(r & c & _ & _ & ->)|(d & ->)]; cbn.
  - rewrite !decide_True by done. cbn. by rewrite IH.
  - rewrite !decide_False by done. exact IH.
Qed.

Lemma discover_step w regions cids s :
  let run := discover_stopped_instances w regions cids s in
  step (scan_event regions cids) s run.2
  /\ compartment_cache run.2 = compartment_cache s
  /\ (listing_calls (new_events s run.2) <= 3 * (length regions * length cids))%nat
  /\ (forall stopped,
        run.1 = Ok stopped ->
        0 < max_workers s
        /\ stopped_instances_found (stats run.2) = Z.of_nat (length stopped))
  /\ (0 < max_workers s -> exists stopped, run.1 = Ok stopped)
  /\ (max_workers s <= 0 ->
      run = (Raise (Exn "ValueError" "max_workers must be greater than 0"), s)).
Proof.
  destruct (decide (0 < max_workers s)) as [Hpool|Hnone].
  2:{ cbv zeta. rewrite discover_without_pool by lia. cbn [fst snd].
      rewrite new_events_same.
      split; [apply step_refl|]. split; [done|]. split; [cbn; lia|].
      split; [done|]. split; [lia|done]. }
  destruct (run_tasks_trace w (cross_product regions cids) s)
    as (evs & Hrun & Hcalls & Hkind).
  assert (exists stopped,
            discover_stopped_instances w regions cids s
            = (Ok stopped,
               set_stats (set_found (Z.of_nat (length stopped))) (replay evs s)))
    as (stopped & Hrun').
  { eexists. rewrite discover_with_pool by done.
    erewrite bind_ok; [|exact Hrun]. reflexivity. }
  cbv zeta. rewrite Hrun'. cbn [fst snd].
  destruct (replay_keeps evs s) as (Hten & Hc & Hr & Hrs & Hcs & _).
  assert (Forall (scan_event regions cids) evs) as Hscan.
  { apply Forall_forall. intros e He.
    destruct (Hkind e He) as [([r c] & Ht & ->)|?]; [left|by right].
    apply elem_of_cross_product in Ht as [? ?]. by exists r, c. }
  pose proof (replay_max_workers evs s) as Hmw.
  split; [|split; [done|split; [|split; [|split; [by exists stopped|lia]]]]].
  - split; [|by repeat split].
    exists evs.
    change (trace (set_stats _ (replay evs s))) with (trace (replay evs s)).
    change (api_calls_made (stats (set_stats _ (replay evs s))))
      with (api_calls_made (stats (replay evs s))).
    rewrite trace_replay, api_calls_replay, (calls_of_scan_events _ _ _ Hscan).
    by repeat split.
  - unfold new_events.
    change (trace (set_stats _ (replay evs s))) with (trace (replay evs s)).
    rewrite trace_replay, drop_app_length, <- cross_product_length. exact Hcalls.
  - by intros stopped' [= <-].
Qed.

Lemma process_instances_state w instances min_days s :
  process_instances w instances min_days s
  = ((process_instances w instances min_days s).1, s).
Proof.
  unfold process_instances. run_monad.
  by destruct (process_loop w (compartment_cache s) min_days instances).
Qed.

(** The stages of [list_stopped_instances]: the resolvers always
    return, and what follows the scan is [after_scan]. *)
Lemma list_stopped_instances_run w regions cids min_days output_path l :
  exists regs s1 s2 scan s3,
    (if list_truthy (default [] regions) then ret (default [] regions)
     else get_subscribed_regions w) l = (Ok regs, s1)
    /\ get_all_compartments w cids
         (set_stats (set_regions_scanned (Z.of_nat (length regs))) s1)
       = (Ok (compartment_cache s2), s2)
    /\ discover_stopped_instances w regs (Dict.keys (compartment_cache s2))
         (set_stats (set_compartments_scanned
                       (Z.of_nat (length (Dict.keys (compartment_cache s2))))) s2)
       = (scan, s3)
    /\ list_stopped_instances w regions cids min_days output_path l
       = after_scan w min_days output_path scan s3.
Proof.
  assert (exists regs s1,
            (if list_truthy (default [] regions) then ret (default [] regions)
             else get_subscribed_regions w) l = (Ok regs, s1)) as (regs & s1 & H1).
  { destruct (list_truthy (default [] regions)); [by eexists _, _|].
    destruct (get_subscribed_regions_extends w l) as (_ & _ & _ & regs & Hregs).
    exists regs, (get_subscribed_regions w l).2.
    cbv zeta in Hregs. by destruct (get_subscribed_regions w l) as [? ?]; simplify_eq/=. }
  set (s1' := set_stats (set_regions_scanned (Z.of_nat (length regs))) s1).
  destruct (get_all_compartments_step w cids s1') as [_ H2].
  cbv zeta in H2.
  destruct (get_all_compartments w cids s1') as [r2 s2] eqn:Hrun2. cbn [fst snd] in H2.
  subst r2.
  set (s2' := set_stats (set_compartments_scanned
                           (Z.of_nat (length (Dict.keys (compartment_cache s2))))) s2).
  destruct (discover_stopped_instances w regs (Dict.keys (compartment_cache s2)) s2')
    as [scan s3] eqn:Hrun3.
  exists regs, s1, s2, scan, s3.
  split; [done|]. split; [done|]. split; [done|].
  unfold list_stopped_instances.
  erewrite bind_ok; [|exact H1].
  erewrite bind_ok; [|reflexivity].
  erewrite bind_ok; [|exact Hrun2].
  erewrite bind_ok; [|reflexivity].
  unfold after_scan.
  destruct scan as [stopped|e]; [|by erewrite bind_raise].
  erewrite bind_ok; [|exact Hrun3].
  destruct (negb (list_truthy stopped)); [reflexivity|].
  unfold bind at 1.
  pose proof (process_instances_state w stopped min_days s3) as Hstate.
  destruct (process_instances w stopped min_days s3) as [[results|e] sp];
    cbn [fst] in *; injection Hstate as ->; [|done].
  destruct (negb (list_truthy results)); [reflexivity|].
  run_monad.
  destruct (csv_report w results output_path); [|done].
  destruct (html_report w results output_path); [|done].
  by destruct (summary_report w results).
Qed.

Lemma after_scan_state w min_days output_path scan s :
  let run := after_scan w min_days output_path scan s in
  stats run.2 = stats s
  /\ compartment_cache run.2 = compartment_cache s
  /\ region_cache run.2 = region_cache s
  /\ tenancy_id run.2 = tenancy_id s
  /\ max_workers run.2 = max_workers s
  /\ exists notes,
       trace run.2 = trace s ++ notes
       /\ Forall (fun e => is_call e = false) notes
       /\ listing_calls notes = 0%nat.
Proof.
  unfold after_scan.
  assert (forall e, is_call e = false -> is_listing e = false ->
            exists notes, trace (emit e s) = trace s ++ notes
              /\ Forall (fun e => is_call e = false) notes
              /\ listing_calls notes = 0%nat) as Hnote.
  { intros e Hc Hl. exists [e]. split; [done|]. split; [by repeat constructor|].
    unfold listing_calls. by rewrite filter_cons, decide_False by (by rewrite Hl). }
  assert (exists notes, trace s = trace s ++ notes
            /\ Forall (fun e => is_call e = false) notes
            /\ listing_calls notes = 0%nat) as Hnone.
  { exists []. by rewrite app_nil_r. }
  destruct scan as [stopped|e]; [|by repeat split].
  destruct (negb (list_truthy stopped)); [cbn; repeat split; by apply Hnote|].
  destruct ((process_instances w stopped min_days s).1) as [results|e];
    [|by repeat split].
  destruct (negb (list_truthy results)); [cbn; repeat split; by apply Hnote|].
  destruct (csv_report w results output_path); [|by repeat split].
  destruct (html_report w results output_path); [|by repeat split].
  destruct (summary_report w results); by repeat split.
Qed.

Lemma listing_calls_none (P : event -> Prop) evs :
  (forall e, P e -> is_listing e = false) ->
  Forall P evs -> listing_calls evs = 0%nat.
Proof.
  intros HP. unfold listing_calls. induction 1 as [|e evs He _ IH]; [done|].
  by rewrite filter_cons, decide_False by (by rewrite (HP e He)).
Qed.

Lemma calls_none evs :
  Forall (fun e => is_call e = false) evs -> calls evs = 0%nat.
Proof.
  unfold calls. induction 1 as [|e evs He _ IH]; [done|].
  by rewrite filter_cons, decide_False by (by rewrite He).
Qed.

Lemma identity_event_not_listing e : identity_event e -> is_listing e = false.
Proof. by intros [->|[->|[cid ->]]]. Qed.

(** What one call of [list_stopped_instances] does to the counters and
    the trace, however it ends. *)
Lemma list_stopped_instances_accounted
    (w : World) (regions cids : option (list string))
    (min_days : Z) (output_path : string) (l : Lister) :
  let run := list_stopped_instances w regions cids min_days output_path l in
  let evs := new_events l run.2 in
  trace run.2 = trace l ++ evs
  /\ api_calls_made (stats run.2) = api_calls_made (stats l) + Z.of_nat (calls evs)
  /\ compartments_scanned (stats run.2)
     = Z.of_nat (length (Dict.keys (compartment_cache run.2)))
  /\ Z.of_nat (listing_calls evs)
     <= 3 * regions_scanned (stats run.2) * compartments_scanned (stats run.2)
  /\ tenancy_id run.2 = tenancy_id l
  /\ (list_truthy (default [] regions) = true ->
      regions_scanned (stats run.2) = Z.of_nat (length (default [] regions))
      /\ region_cache run.2 = region_cache l
      /\ CallListRegionSubscriptions ∉ evs)
  /\ (list_truthy (default [] regions) = false ->
      regions_scanned (stats run.2) = Z.of_nat (length (region_cache run.2)))
  /\ max_workers run.2 = max_workers l
  /\ (max_workers l <= 0 ->
      run.1 = Raise (Exn "ValueError" "max_workers must be greater than 0")
      /\ listing_calls evs = 0%nat).
Proof.
  intros run evs.
  destruct (list_stopped_instances_run w regions cids min_days output_path l)
    as (regs & s1 & s2 & stopped & s3 & H1 & H2 & H3 & Hrun).
  set (s1' := set_stats (set_regions_scanned (Z.of_nat (length regs))) s1) in *.
  set (keys := Dict.keys (compartment_cache s2)) in *.
  set (s2' := set_stats (set_compartments_scanned (Z.of_nat (length keys))) s2) in *.
  (* the resolver of regions *)
  assert (exists eA,
            trace s1 = trace l ++ eA
            /\ api_calls_made (stats s1) = api_calls_made (stats l) + Z.of_nat (calls eA)
            /\ Forall (fun e => e = CallListRegionSubscriptions
                                /\ list_truthy (default [] regions) = false) eA
            /\ tenancy_id s1 = tenancy_id l
            /\ max_workers s1 = max_workers l
            /\ (list_truthy (default [] regions) = true ->
                regs = default [] regions /\ region_cache s1 = region_cache l)
            /\ (list_truthy (default [] regions) = false -> regs = region_cache s1))
    as (eA & HtA & HaA & HpA & HtenA & HmwA & HexplA & HresA).
  { destruct (list_truthy (default [] regions)) eqn:Hexpl.
    - injection H1 as <- <-. exists []. rewrite app_nil_r.
      split; [done|]. split; [cbn; lia|]. by repeat split.
    - destruct (get_subscribed_regions_extends w l)
        as ((eA & HtA & HaA & HpA) & _ & Hten & _).
      destruct (get_subscribed_regions_returns_cache w l) as (s' & Hs').
      pose proof (get_subscribed_regions_max_workers w l) as Hmw.
      cbv zeta in *. rewrite H1 in *. cbn [snd] in *.
      exists eA. split; [done|]. split; [done|]. split.
      { eapply Forall_impl; [exact HpA|]. by intros e ->. }
      split; [done|]. split; [done|]. split; [done|].
      intros _. by injection Hs' as -> ->. }
  (* the resolver of compartments *)
  destruct (get_all_compartments_step w cids s1')
    as [[(eC & HtC & HaC & HpC) (HtenC & HrcC & HrsC & HcsC & HmwC)] _].
  cbv zeta in *. rewrite H2 in *. cbn [fst snd] in *.
  (* the scan *)
  destruct (discover_step w regs keys s2')
    as ([(eE & HtE & HaE & HpE) (HtenE & HrcE & HrsE & HcsE & HmwE)]
        & HcacheE & HboundE & HokE & _ & HrefE).
  cbv zeta in *. rewrite H3 in *. cbn [fst snd] in *.
  assert (listing_calls eE <= 3 * (length regs * length keys))%nat as HboundE'.
  { revert HboundE. unfold new_events. by rewrite HtE, drop_app_length. }
  (* what follows the scan *)
  destruct (after_scan_state w min_days output_path stopped s3)
    as (HstF & HcacheF & HrcF & HtenF & HmwF & notes & HtF & HpF & HlF).
  cbv zeta in *. fold run in HstF, HcacheF, HrcF, HtenF, HmwF, HtF.
  rewrite <- Hrun in HstF, HcacheF, HrcF, HtenF, HmwF, HtF.
  fold run in HstF, HcacheF, HrcF, HtenF, HmwF, HtF.
  assert (max_workers s2' = max_workers l) as Hmw2.
  { subst s2'. cbn [max_workers set_stats]. rewrite HmwC.
    subst s1'. cbn [max_workers set_stats]. exact HmwA. }
  assert (trace run.2 = trace l ++ (eA ++ eC ++ eE ++ notes)) as Htrace.
  { rewrite HtF, HtE. subst s2'. cbn [trace set_stats]. rewrite HtC.
    subst s1'. cbn [trace set_stats]. rewrite HtA. by rewrite <- !app_assoc. }
  assert (evs = eA ++ eC ++ eE ++ notes) as Hevs.
  { subst evs. unfold new_events. by rewrite Htrace, drop_app_length. }
  assert (listing_calls eA = 0%nat) as HlA.
  { eapply listing_calls_none; [|exact HpA]. by intros e [-> _]. }
  assert (listing_calls eC = 0%nat) as HlC.
  { eapply listing_calls_none; [|exact HpC]. apply identity_event_not_listing. }
  rewrite Hevs.
  split; [done|]. split.
  { rewrite HstF, HaE. subst s2'. cbn [stats set_stats api_calls_made set_compartments_scanned].
    rewrite HaC. subst s1'. cbn [stats set_stats api_calls_made set_regions_scanned].
    rewrite HaA, !calls_app, (calls_none notes HpF). lia. }
  assert (regions_scanned (stats run.2) = Z.of_nat (length regs)) as Hregs.
  { rewrite HstF, HrsE. subst s2'. cbn [stats set_stats regions_scanned set_compartments_scanned].
    rewrite HrsC. by subst s1'. }
  assert (compartments_scanned (stats run.2) = Z.of_nat (length keys)) as Hcomps.
  { rewrite HstF, HcsE. by subst s2'. }
  assert (region_cache run.2 = region_cache s1) as Hrc.
  { rewrite HrcF, HrcE. subst s2'. cbn [region_cache set_stats]. rewrite HrcC. by subst s1'. }
  split.
  { rewrite Hcomps, HcacheF, HcacheE. by subst s2'. }
  split.
  { rewrite Hregs, Hcomps, !listing_calls_app, HlA, HlC, HlF. nia. }
  split.
  { rewrite HtenF, HtenE. subst s2'. cbn [tenancy_id set_stats]. rewrite HtenC.
    by subst s1'. }
  split.
  - intros Hexpl. destruct (HexplA Hexpl) as [-> Hsame].
    split; [done|]. split; [by rewrite Hrc|].
    rewrite !elem_of_app. intros [Hin|[Hin|[Hin|Hin]]].
    + rewrite Forall_forall in HpA. destruct (HpA _ Hin) as [_ Hno]. congruence.
    + rewrite Forall_forall in HpC. by destruct (HpC _ Hin) as [?|[?|[? ?]]].
    + rewrite Forall_forall in HpE.
      by destruct (HpE _ Hin) as [(? & ? & _ & _ & ?)|[? ?]].
    + rewrite Forall_forall in HpF. by specialize (HpF _ Hin).
  - split; [|split].
    + intros Hres. by rewrite Hregs, Hrc, (HresA Hres).
    + by rewrite HmwF, HmwE.
    + intros Hnone. rewrite <- Hmw2 in Hnone.
      specialize (HrefE Hnone). injection HrefE as -> ->.
      assert (eE = []) as ->.
      { apply (app_inv_head (trace s2')). by rewrite app_nil_r. }
      split; [unfold run; by rewrite Hrun|].
      by rewrite !listing_calls_app, HlA, HlC, HlF.
Qed.

(** X19: one call of [list_stopped_instances], however it ends (with
    a report, with nothing found, with an error of the processor or of
    a renderer, or with the pool's [ValueError] for a worker limit that
    is not positive, which comes after the resolvers and before any
    listing):
    [api_calls_made] grows by exactly the number of capability calls
    issued; [compartments_scanned] is the size of the compartment
    cache; the listings issued are at most three per scan cell, that is
    at most 3 * regions_scanned * compartments_scanned; with explicit
    regions the region subscriptions are never asked for and
    [regions_scanned] is their number, otherwise it is the size of the
    region cache. *)
Theorem list_stopped_instances_accounting
    (w : World) (regions cids : option (list string))
    (min_days : Z) (output_path : string) (l : Lister) :
  let run := list_stopped_instances w regions cids min_days output_path l in
  let evs := new_events l run.2 in
  trace run.2 = trace l ++ evs
  /\ api_calls_made (stats run.2) = api_calls_made (stats l) + Z.of_nat (calls evs)
  /\ compartments_scanned (stats run.2)
     = Z.of_nat (length (Dict.keys (compartment_cache run.2)))
  /\ Z.of_nat (listing_calls evs)
     <= 3 * regions_scanned (stats run.2) * compartments_scanned (stats run.2)
  /\ tenancy_id run.2 = tenancy_id l
  /\ (list_truthy (default [] regions) = true ->
      regions_scanned (stats run.2) = Z.of_nat (length (default [] regions))
      /\ region_cache run.2 = region_cache l
      /\ CallListRegionSubscriptions ∉ evs)
  /\ (list_truthy (default [] regions) = false ->
      regions_scanned (stats run.2) = Z.of_nat (length (region_cache run.2)))
  /\ max_workers run.2 = max_workers l
  /\ (max_workers l <= 0 ->
      run.1 = Raise (Exn "ValueError" "max_workers must be greater than 0")
      /\ listing_calls evs = 0%nat).
Proof. apply list_stopped_instances_accounted. Qed.

Lemma new_lister_fresh w args lister :
  new_lister w args = Some lister ->
  trace lister = [] /\ stats lister = zero_stats
  /\ compartment_cache lister = [] /\ region_cache lister = []
  /\ tenancy_id lister <> ""
  /\ max_workers lister = arg_max_workers args.
Proof.
  unfold new_lister. destruct (from_file w) as [config_tenancy|]; [|done].
  destruct (Str.truthy (if Str.truthy (arg_tenancy_id args)
                        then arg_tenancy_id args else config_tenancy)) eqn:Ht; [|done].
  intros [= <-]. cbn. split; [done|]. split; [done|]. split; [done|].
  split; [done|]. split; [|done].
  by destruct (if Str.truthy (arg_tenancy_id args) then arg_tenancy_id args
               else config_tenancy) as [[|]|].
Qed.




(** X22: a worker limit that is not positive is found only when the
    pool is built: [main] has by then created the lister and resolved
    regions and compartments, counting the identity calls it issued;
    the run ends with "Scan failed" and exit code 1, and no instance
    listing has been issued. *)
Theorem main_refuses_worker_limit (w : World) (args : Args) (lister : Lister) :
  arg_max_workers args <= 0 ->
  Str.truthy (arg_skip_regions args) = false ->
  makedirs w (arg_output_path args) = Ok tt ->
  new_lister w args = Some lister ->
  exists s,
    main w (Parsed args)
    = (ScanFailed (Exn "ValueError" "max_workers must be greater than 0"), Some s)
    /\ exit_code (main w (Parsed args)).1 = 1
    /\ listing_calls (trace s) = 0%nat
    /\ api_calls_made (stats s) = Z.of_nat (calls (trace s))
    /\ compartments_scanned (stats s)
       = Z.of_nat (length (Dict.keys (compartment_cache s)))
    /\ 0 < compartments_scanned (stats s).
Proof.
  intros Hlimit Hskip Hdirs Hnew.
  set (regions := comma_list (arg_regions args)).
  set (cids := comma_list (arg_compartments args)).
  pose proof (list_stopped_instances_accounted w regions cids
                (arg_min_days args) (arg_output_path args) lister)
    as (Htrace & Hapi & Hcomps & _ & _ & _ & _ & _ & Hrefused).
  destruct (new_lister_fresh w args lister Hnew) as (Htr0 & Hst0 & _ & _ & _ & Hmw0).
  cbv zeta in *.
  destruct Hrefused as [Hraise Hnone]; [lia|].
  destruct (list_stopped_instances_run w regions cids
              (arg_min_days args) (arg_output_path args) lister)
    as (regs & s1 & s2 & scan & s3 & _ & H2 & H3 & Hrun).
  pose proof (discover_step w regs (Dict.keys (compartment_cache s2))
                (set_stats (set_compartments_scanned
                              (Z.of_nat (length (Dict.keys (compartment_cache s2))))) s2))
    as (_ & Hcache3 & _).
  pose proof (after_scan_state w (arg_min_days args) (arg_output_path args) scan s3)
    as (_ & Hcache4 & _).
  cbv zeta in *. rewrite H3 in Hcache3. cbn [snd] in Hcache3.
  rewrite <- Hrun in Hcache4.
  destruct (get_all_compartments_returns_cache w cids
              (set_stats (set_regions_scanned (Z.of_nat (length regs))) s1))
    as (s2' & Hrun2 & Htruthy).
  rewrite H2 in Hrun2. injection Hrun2 as _ <-.
  destruct (list_stopped_instances w regions cids (arg_min_days args)
              (arg_output_path args) lister) as [r sf] eqn:Hlist.
  cbn [fst snd] in *. subst r.
  assert (main w (Parsed args)
          = (ScanFailed (Exn "ValueError" "max_workers must be greater than 0"),
             Some sf)) as Hmain.
  { unfold main. rewrite Hskip, Hdirs, Hnew.
    fold regions cids. erewrite bind_raise; [reflexivity|exact Hlist]. }
  exists sf. split; [exact Hmain|]. split; [by rewrite Hmain|].
  rewrite Htr0 in Htrace. cbn [app] in Htrace.
  split; [by rewrite Htrace|].
  split; [rewrite Hapi, Htrace, Hst0; cbn [zero_stats api_calls_made]; lia|].
  split; [exact Hcomps|].
  rewrite Hcomps, Hcache4, Hcache3. cbn [compartment_cache set_stats].
  destruct (compartment_cache s2) as [|[k0 v0] rest]; [done|].
  unfold Dict.keys. cbn [map length]. lia.
Qed.

Lemma main_refuses_worker_limit_witness :
  let w := Sample.world (fun _ => Ok Sample.two_regions)
             (fun _ => Ok Sample.dev_compartments)
             (fun _ _ _ => Ok tt)
             (fun _ _ _ => Ok [Sample.instance "vm1" "2024-01-01T00:00:00Z"]) in
  let args := mk_args 0 None None None "DEFAULT" "." 0 None 300 in
  arg_max_workers args <= 0
  /\ exists s,
       main w (Parsed args)
       = (ScanFailed (Exn "ValueError" "max_workers must be greater than 0"), Some s)
       /\ listing_calls (trace s) = 0%nat
       /\ api_calls_made (stats s) = 3.
Proof.
  cbv zeta. split; [discriminate|].
  destruct (main_refuses_worker_limit
              (Sample.world (fun _ => Ok Sample.two_regions)
                 (fun _ => Ok Sample.dev_compartments)
                 (fun _ _ _ => Ok tt)
                 (fun _ _ _ => Ok [Sample.instance "vm1" "2024-01-01T00:00:00Z"]))
              (mk_args 0 None None None "DEFAULT" "." 0 None 300)
              (mk_lister Sample.tenancy 0 zero_stats [] [] []))
    as (s & Hmain & _ & Hnone & _); [discriminate|reflexivity|reflexivity|reflexivity|].
  exists s. split; [exact Hmain|]. split; [exact Hnone|].
  revert Hmain. vm_compute. by intros [= <-].
Defined.

(** ** From the scan to the reports *)

Lemma discover_result_perm w regions cids s stopped :
  (forall finished, as_completed w finished ≡ₚ finished) ->
  (discover_stopped_instances w regions cids s).1 = Ok stopped ->
  stopped ≡ₚ flat_map (tagged w) (cross_product regions cids).
Proof.
  intros Hperm.
  destruct (decide (0 < max_workers s)) as [Hpool|Hnone];
    [|by rewrite discover_without_pool by lia].
  rewrite discover_with_pool by done.
  destruct (run_tasks_returns w (cross_product regions cids) s) as (s1 & Hrun & _).
  erewrite bind_ok; [|exact Hrun]. run_monad. cbn [fst]. intros [= <-].
  rewrite <- flat_map_collect. apply Permutation_flat_map, Hperm.
Qed.

(** X21: every report of a run comes from a record that some scan cell
    returned, and carries that cell's region: the default region
    "unknown" of the processor never shows in a report of scanned
    records. *)
Theorem reports_carry_cell_region
    (w : World) (regions cids : list string) (s s' : Lister) (min_days : Z)
    (stopped : list Raw.t) (results : list StoppedInstance.t) :
  (forall finished, as_completed w finished ≡ₚ finished) ->
  (discover_stopped_instances w regions cids s).1 = Ok stopped ->
  (process_instances w stopped min_days s').1 = Ok results ->
  forall rep, rep ∈ results ->
    exists c raw,
      StoppedInstance.region rep ∈ regions
      /\ c ∈ cids
      /\ raw ∈ cell_result w (StoppedInstance.region rep, c)
      /\ Raw.id raw = Some (StoppedInstance.instance_id rep)
      /\ Raw.display_name raw = Some (StoppedInstance.instance_name rep)
      /\ Raw.compartment_id raw = Some (StoppedInstance.compartment_id rep).
Proof.
  intros Hperm Hscan Hproc rep Hrep.
  apply (discover_result_perm _ _ _ _ _ Hperm) in Hscan.
  apply process_instances_ok_inv in Hproc as [-> _].
  rewrite sort_desc_perm in Hrep.
  apply list_elem_of_filter in Hrep as [_ Hrep].
  apply elem_of_mapped in Hrep as (instance & Hin & Hrep).
  rewrite Hscan in Hin.
  apply list_elem_of_In, in_flat_map in Hin as ([r c] & Ht & Hin).
  unfold tagged in Hin. apply in_map_iff in Hin as (raw & <- & Hraw).
  apply list_elem_of_In, elem_of_cross_product in Ht as [Hr Hc].
  apply list_elem_of_In in Hraw.
  apply process_stopped_instance_inv in Hrep
    as (cid & created & name & iid & shape & Hcid & _ & Hname & Hid & _ & ->).
  cbn [Raw.set_region Raw.region Raw.id Raw.display_name Raw.compartment_id
       getattr from_option id fst] in Hcid, Hname, Hid.
  cbn [StoppedInstance.region StoppedInstance.instance_id
       StoppedInstance.instance_name StoppedInstance.compartment_id
       Raw.set_region Raw.region getattr from_option id fst].
  exists c, raw. by repeat split.
Qed.

Lemma reports_carry_cell_region_witness :
  let w := Sample.world (fun _ => Ok Sample.two_regions)
             (fun _ => Ok Sample.dev_compartments)
             (fun _ _ _ => Ok tt)
             (fun region _ _ =>
                if String.eqb region "us-ashburn-1"
                then Ok [Sample.instance "vm1" "2024-01-01T00:00:00Z"] else Ok []) in
  let regions := ["eu-frankfurt-1"; "us-ashburn-1"] in
  let stopped := [Raw.set_region "us-ashburn-1"
                    (Sample.instance "vm1" "2024-01-01T00:00:00Z")] in
  (forall finished, as_completed w finished ≡ₚ finished)
  /\ (discover_stopped_instances w regions ["c1"] Sample.fresh).1 = Ok stopped
  /\ exists results,
       (process_instances w stopped 0 Sample.fresh).1 = Ok results
       /\ length results = 1%nat
       /\ forall rep, rep ∈ results -> StoppedInstance.region rep ∈ regions.
Proof.
  cbv zeta.
  assert (forall finished : list (task * list Raw.t), rev finished ≡ₚ finished)
    as Hperm by (intros finished; symmetry; apply Permutation_rev).
  assert ((discover_stopped_instances
             (Sample.world (fun _ => Ok Sample.two_regions)
                (fun _ => Ok Sample.dev_compartments)
                (fun _ _ _ => Ok tt)
                (fun region _ _ =>
                   if String.eqb region "us-ashburn-1"
                   then Ok [Sample.instance "vm1" "2024-01-01T00:00:00Z"] else Ok []))
             ["eu-frankfurt-1"; "us-ashburn-1"] ["c1"] Sample.fresh).1
          = Ok [Raw.set_region "us-ashburn-1"
                  (Sample.instance "vm1" "2024-01-01T00:00:00Z")])
    as Hscan by (vm_compute; reflexivity).
  split; [exact Hperm|]. split; [exact Hscan|].
  eexists.
  assert ((process_instances
             (Sample.world (fun _ => Ok Sample.two_regions)
                (fun _ => Ok Sample.dev_compartments)
                (fun _ _ _ => Ok tt)
                (fun region _ _ =>
                   if String.eqb region "us-ashburn-1"
                   then Ok [Sample.instance "vm1" "2024-01-01T00:00:00Z"] else Ok []))
             [Raw.set_region "us-ashburn-1"
                (Sample.instance "vm1" "2024-01-01T00:00:00Z")]
             0 Sample.fresh).1 = Ok _) as Hproc by (vm_compute; reflexivity).
  split; [exact Hproc|]. split; [reflexivity|].
  intros rep Hrep.
  destruct (reports_carry_cell_region
              (Sample.world (fun _ => Ok Sample.two_regions)
                 (fun _ => Ok Sample.dev_compartments)
                 (fun _ _ _ => Ok tt)
                 (fun region _ _ =>
                    if String.eqb region "us-ashburn-1"
                    then Ok [Sample.instance "vm1" "2024-01-01T00:00:00Z"] else Ok []))
              _ _ _ _ _ _ _ Hperm Hscan Hproc rep Hrep)
    as (c & raw & Hregion & _).
  exact Hregion.
Defined.
